(** * AKAS backend: ingestion, retrieval-augmented query and the HTTP shell

    A shallow embedding of the Python backend under [akas/backend]
    ([ingest.py], [enhanced_ingest.py], [rag_pipeline.py],
    [enhanced_rag_pipeline.py], [main.py], [main_v2.py], [enhanced_main.py])
    and the properties the specification states about it.

    Conventions.
    - A Python call that may raise returns a [result]; [Raise] carries the
      exception.  A FastAPI handler returns a [response]: the body it
      returned, or the status and detail of the [HTTPException] it raised.
    - Module-level globals ([vector_store], [qa_chain], [query_logs], ...)
      are the fields of a server state that every handler takes and returns.
    - The libraries the backend delegates to (document loaders, the text
      splitter, the embedding provider, the store's serialization) are the
      fields of the class [Langchain]; what a call reads from outside the
      process (the clock, [uuid.uuid4()], the outcome of the chain's [run])
      comes from a per-call [Env]. *)

From Stdlib Require Import ZArith String Ascii List Floats Sorted.
From stdpp Require Import base gmap strings list fin_maps pretty.

Set Warnings "-inexact-float,-register-all".
Open Scope string_scope.
Open Scope list_scope.
Open Scope Z_scope.

(** ** Python exceptions and results *)

Inductive exn : Type :=
| Exception (msg : string)
| HTTPException (status_code : Z) (detail : string).

(** [str(e)]: Starlette prints an [HTTPException] as "<status>: <detail>". *)
Definition str_exn (e : exn) : string :=
  match e with
  | Exception msg => msg
  | HTTPException c d => pretty c +:+ ": " +:+ d
  end.

Inductive result (A : Type) : Type :=
| Return (a : A)
| Raise (e : exn).
Arguments Return {A} a.
Arguments Raise {A} e.

Definition bind {A B} (r : result A) (k : A -> result B) : result B :=
  match r with
  | Return a => k a
  | Raise e => Raise e
  end.

Notation "'let*' x ':=' r 'in' k" := (bind r (fun x => k))
  (at level 10, x pattern, r at level 100, k at level 200).

(** What a client of a FastAPI endpoint receives. *)
Inductive response (A : Type) : Type :=
| OK (body : A)
| HTTPError (status_code : Z) (detail : string).
Arguments OK {A} body.
Arguments HTTPError {A} status_code detail.

(** ** Strings: the [str] and [os.path] methods the backend calls *)

Definition lower_ascii (c : ascii) : ascii :=
  let n := nat_of_ascii c in
  if ((65 <=? n) && (n <=? 90))%nat then ascii_of_nat (n + 32) else c.

Fixpoint lower (s : string) : string :=
  match s with
  | EmptyString => EmptyString
  | String c s' => String (lower_ascii c) (lower s')
  end.

(** [s.endswith(suffix)] *)
Definition endswith (s suffix : string) : bool :=
  let n := String.length s in
  let m := String.length suffix in
  if (m <=? n)%nat then String.eqb (substring (n - m) m s) suffix else false.

(** [s.rfind(c)]: the highest index of [c] in [s], [-1] when absent. *)
Fixpoint rfind_from (c : ascii) (s : string) (i : Z) (found : Z) : Z :=
  match s with
  | EmptyString => found
  | String a s' => rfind_from c s' (i + 1) (if Ascii.eqb a c then i else found)
  end.
Definition rfind (s : string) (c : ascii) : Z := rfind_from c s 0 (-1).

Definition char_at (s : string) (i : Z) : option ascii :=
  if i <? 0 then None else String.get (Z.to_nat i) s.

(** The [while filenameIndex < dotIndex] loop of [genericpath._splitext]:
    is there a character other than a dot between the last separator and
    the last dot? *)
Fixpoint has_stem (p : string) (filenameIndex : Z) (steps : nat) : bool :=
  match steps with
  | O => false
  | S steps' =>
      match char_at p filenameIndex with
      | Some c => if Ascii.eqb c "."%char then has_stem p (filenameIndex + 1) steps' else true
      | None => false
      end
  end.

(** [os.path.splitext(p)] (posix). *)
Definition splitext (p : string) : string * string :=
  let sepIndex := rfind p "/"%char in
  let dotIndex := rfind p "."%char in
  if (sepIndex <? dotIndex) && has_stem p (sepIndex + 1) (Z.to_nat (dotIndex - (sepIndex + 1)))
  then (substring 0 (Z.to_nat dotIndex) p,
        substring (Z.to_nat dotIndex) (String.length p - Z.to_nat dotIndex) p)
  else (p, "").

(** [os.path.join(d, fname)] for a relative [fname]. *)
Definition path_join (d fname : string) : string := d +:+ "/" +:+ fname.

(** ** The file system

    A directory maps the names of its files to their bytes; the file system
    maps the path of each existing directory to its content.  Upload file
    names are single path components. *)

Abbreviation bytes := (list Byte.byte).
Abbreviation directory := (gmap string bytes).
Abbreviation filesystem := (gmap string directory).

Definition FileNotFoundError (p : string) : exn :=
  Exception ("[Errno 2] No such file or directory: '" +:+ p +:+ "'").

(** [os.listdir(d)]; the order is the one the map enumerates its keys in. *)
Definition listdir (fs : filesystem) (d : string) : result (list (string * bytes)) :=
  match fs !! d with
  | Some dir => Return (map_to_list dir)
  | None => Raise (FileNotFoundError d)
  end.

(** [with open(f"{d}/{name}", "wb") as f: f.write(content)] *)
Definition write_file (fs : filesystem) (d name : string) (content : bytes) : result filesystem :=
  match fs !! d with
  | Some dir => Return (<[d := <[name := content]> dir]> fs)
  | None => Raise (FileNotFoundError (path_join d name))
  end.

(** [os.makedirs(d, exist_ok=True)] *)
Definition makedirs (fs : filesystem) (d : string) : filesystem :=
  match fs !! d with
  | Some _ => fs
  | None => <[d := ∅]> fs
  end.

(** ** Documents and the library interface *)

Record Document : Type := mkDocument {
  page_content : string;
  metadata : gmap string string
}.

Inductive Loader : Type :=
| PyPDFLoader
| TextLoader
| UnstructuredWordDocumentLoader
| UnstructuredExcelLoader
| WebBaseLoader.

Record TextSplitter : Type := RecursiveCharacterTextSplitter {
  chunk_size : Z;
  chunk_overlap : Z
}.

Abbreviation Vector := (list float).

(** A FAISS store: the documents it holds and, position by position, their
    embedding vectors. *)
Record FAISS : Type := mkFAISS {
  docstore : list Document;
  index : list Vector
}.

(** The collaborators: the backend only calls them. [loader_load k path
    content] is [k(path).load()] on a file holding [content];
    [embed_documents] is the provider's batch embedding call;
    [faiss_dump] and [faiss_load] are what [save_local] writes to and
    [load_local] reads from the two files of a store's folder. *)
Class Langchain : Type := {
  loader_load : Loader -> string -> bytes -> result (list Document);
  split_documents : TextSplitter -> list Document -> list Document;
  embed_documents : list string -> result (list Vector);
  faiss_dump : FAISS -> bytes * bytes;
  faiss_load : bytes -> bytes -> result FAISS
}.

(** ** [ingest.py] *)

Module ingest.
Section WithLibrary.
Context `{Langchain}.

(** The loop of [ingest_documents]: [docs] accumulates the loaded pages. *)
Fixpoint load_pdfs (doc_dir : string) (entries : list (string * bytes))
    (docs : list Document) : result (list Document) :=
  match entries with
  | [] => Return docs
  | (fname, content) :: rest =>
      if endswith fname ".pdf" then
        let* pages := loader_load PyPDFLoader (path_join doc_dir fname) content in
        load_pdfs doc_dir rest (docs ++ pages)
      else load_pdfs doc_dir rest docs
  end.

Definition ingest_documents (fs : filesystem) (doc_dir : string) : result (list Document) :=
  let* entries := listdir fs doc_dir in
  let* docs := load_pdfs doc_dir entries [] in
  let splitter := RecursiveCharacterTextSplitter 500 50 in
  Return (split_documents splitter docs).
End WithLibrary.
End ingest.

(** ** [enhanced_ingest.py] *)

Module enhanced_ingest.
Section WithLibrary.
Context `{Langchain}.

Record EnhancedDocumentIngestor : Type := mkIngestor {
  splitter : TextSplitter
}.

Definition __init__ : EnhancedDocumentIngestor :=
  {| splitter := RecursiveCharacterTextSplitter 1000 200 |}.

(** The [if]/[elif] chain on the lower-cased name; [None] is the final
    [else: continue]. *)
Definition select_loader (fname : string) : option Loader :=
  if endswith (lower fname) ".pdf" then Some PyPDFLoader
  else if endswith (lower fname) ".txt" then Some TextLoader
  else if endswith (lower fname) ".docx" then Some UnstructuredWordDocumentLoader
  else if endswith (lower fname) ".xlsx" then Some UnstructuredExcelLoader
  else None.

(** The [for fname in os.listdir(doc_dir)] loop with its [try]/[except];
    [stdout] collects the lines the handler prints. *)
Fixpoint load_loop (doc_dir : string) (entries : list (string * bytes))
    (docs : list Document) (stdout : list string) : list Document * list string :=
  match entries with
  | [] => (docs, stdout)
  | (fname, content) :: rest =>
      match select_loader fname with
      | None => load_loop doc_dir rest docs stdout
      | Some loader =>
          match loader_load loader (path_join doc_dir fname) content with
          | Return documents => load_loop doc_dir rest (docs ++ documents) stdout
          | Raise e =>
              load_loop doc_dir rest docs
                (stdout ++ ["Error loading " +:+ fname +:+ ": " +:+ str_exn e])
          end
      end
  end.

(** The [for doc in split_docs] loop; [now i] is the [i]-th reading of
    [str(datetime.now())]. *)
Fixpoint add_metadata (now : nat -> string) (i : nat) (split_docs : list Document)
    : list Document :=
  match split_docs with
  | [] => []
  | doc :: rest =>
      let m := <["processed_at" := now i]> (metadata doc) in
      let file_type := snd (splitext (default "" (m !! "source"))) in
      mkDocument (page_content doc) (<["file_type" := file_type]> m)
        :: add_metadata now (S i) rest
  end.

Definition ingest_documents (self : EnhancedDocumentIngestor) (fs : filesystem)
    (doc_dir : string) (now : nat -> string) : result (list Document * list string) :=
  let* entries := listdir fs doc_dir in
  let '(docs, stdout) := load_loop doc_dir entries [] [] in
  let split_docs := split_documents (splitter self) docs in
  Return (add_metadata now 0 split_docs, stdout).

(** [ingest_web_content]: [fetch url] is the page [WebBaseLoader] downloads. *)
Fixpoint web_loop (fetch : string -> bytes) (urls : list string)
    (docs : list Document) (stdout : list string) : list Document * list string :=
  match urls with
  | [] => (docs, stdout)
  | url :: rest =>
      match loader_load WebBaseLoader url (fetch url) with
      | Return web_docs => web_loop fetch rest (docs ++ web_docs) stdout
      | Raise e =>
          web_loop fetch rest docs
            (stdout ++ ["Error loading " +:+ url +:+ ": " +:+ str_exn e])
      end
  end.

Definition ingest_web_content (self : EnhancedDocumentIngestor)
    (fetch : string -> bytes) (urls : list string) : list Document * list string :=
  let '(docs, stdout) := web_loop fetch urls [] [] in
  (split_documents (splitter self) docs, stdout).
End WithLibrary.
End enhanced_ingest.

(** ** [rag_pipeline.py] *)

Inductive LLM : Type :=
| OpenAI (temperature : Z)
| ChatOpenAI (temperature : Z) (model : string)
| ChatAnthropic (temperature : Z) (model : string).

(** [vector_store.as_retriever(...)]: the store, the search type and the
    [search_kwargs] dictionary. *)
Record VectorStoreRetriever : Type := mkRetriever {
  vectorstore : FAISS;
  search_type : string;
  search_kwargs : gmap string Z
}.

Record RetrievalQA : Type := mkRetrievalQA {
  llm : LLM;
  retriever : VectorStoreRetriever;
  return_source_documents : bool
}.

(** [FAISS.from_documents(docs, embeddings)]: embeds the page contents in
    one batch and stores documents and vectors; the index takes its
    dimension from the first vector, so an empty batch raises. *)
Definition from_documents `{Langchain} (docs : list Document) : result FAISS :=
  let* embeddings := embed_documents (map page_content docs) in
  match embeddings with
  | [] => Raise (Exception "list index out of range")
  | _ :: _ => Return (mkFAISS docs embeddings)
  end.

(** [vector_store.as_retriever()] with no argument. *)
Definition as_retriever (vector_store : FAISS) : VectorStoreRetriever :=
  mkRetriever vector_store "similarity" ∅.

Module rag_pipeline.
Section WithLibrary.
Context `{Langchain}.

Definition build_vector_store (docs : list Document) : result FAISS :=
  from_documents docs.

Definition get_qa_chain (vector_store : FAISS) : RetrievalQA :=
  let retriever := as_retriever vector_store in
  let llm := OpenAI 0 in
  mkRetrievalQA llm retriever false.
End WithLibrary.
End rag_pipeline.

(** ** [enhanced_rag_pipeline.py] *)

(** [vector_store.save_local(folder)]: creates the folder when needed and
    writes the index and the pickled docstore. *)
Definition save_local `{Langchain} (fs : filesystem) (folder : string) (vector_store : FAISS)
    : filesystem :=
  let '(faiss_bytes, pkl_bytes) := faiss_dump vector_store in
  <[folder := <["index.pkl" := pkl_bytes]> (<["index.faiss" := faiss_bytes]>
                (default ∅ (fs !! folder)))]> fs.

(** [FAISS.load_local(folder, embeddings)]: raises when the folder or one of
    its two files is missing, or when their bytes do not deserialize. *)
Definition load_local `{Langchain} (fs : filesystem) (folder : string) : result FAISS :=
  match fs !! folder with
  | None => Raise (FileNotFoundError folder)
  | Some dir =>
      match dir !! "index.faiss", dir !! "index.pkl" with
      | Some faiss_bytes, Some pkl_bytes => faiss_load faiss_bytes pkl_bytes
      | None, _ => Raise (FileNotFoundError (path_join folder "index.faiss"))
      | _, None => Raise (FileNotFoundError (path_join folder "index.pkl"))
      end
  end.

Module enhanced_rag_pipeline.
Section WithLibrary.
Context `{Langchain}.

Record EnhancedRAGPipeline : Type := mkPipeline {
  llm_provider : string
}.

Definition __init__ (llm_provider : string) : EnhancedRAGPipeline :=
  mkPipeline llm_provider.

Definition get_llm (self : EnhancedRAGPipeline) : LLM :=
  if String.eqb (llm_provider self) "openai" then ChatOpenAI 0 "gpt-3.5-turbo"
  else if String.eqb (llm_provider self) "anthropic"
       then ChatAnthropic 0 "claude-3-sonnet-20240229"
  else OpenAI 0.

Definition build_vector_store (self : EnhancedRAGPipeline) (fs : filesystem)
    (docs : list Document) : result (FAISS * filesystem) :=
  let* vector_store := from_documents docs in
  Return (vector_store, save_local fs "./vector_store" vector_store).

(** [try: return FAISS.load_local(...)] / [except: return None]: the
    Python [None] is the [None] of the option. *)
Definition load_vector_store (self : EnhancedRAGPipeline) (fs : filesystem)
    : result (option FAISS) :=
  match load_local fs "./vector_store" with
  | Return vector_store => Return (Some vector_store)
  | Raise _ => Return None
  end.

Definition default_search_type : string := "similarity".
Definition default_k : Z := 4.

Definition get_qa_chain (self : EnhancedRAGPipeline) (vector_store : FAISS)
    (search_type : string) (k : Z) : RetrievalQA :=
  let retriever := mkRetriever vector_store search_type {["k" := k]} in
  let llm := get_llm self in
  mkRetrievalQA llm retriever true.
End WithLibrary.
End enhanced_rag_pipeline.

(** ** Requests

    A request body is a JSON object; FastAPI validates it against the
    endpoint's pydantic model before it calls the handler and answers 422
    when validation fails.  Numbers with a fraction, strings and booleans are
    not integers: pydantic's lax coercions are left out. *)

Inductive json : Type :=
| JNull
| JBool (b : bool)
| JInt (z : Z)
| JFloat (f : float)
| JStr (s : string).

Abbreviation body := (gmap string json).

Definition within (lo hi : option Z) (z : Z) : bool :=
  match lo with Some l => l <=? z | None => true end
  && match hi with Some h => z <=? h | None => true end.

(** [name: str = Field(..., min_length=lo, max_length=hi)] *)
Definition required_str (b : body) (name : string) (lo hi : option Z) : option string :=
  match b !! name with
  | Some (JStr s) => if within lo hi (Z.of_nat (String.length s)) then Some s else None
  | _ => None
  end.

(** [name: int = Field(..., ge=lo, le=hi)] *)
Definition required_int (b : body) (name : string) (lo hi : option Z) : option Z :=
  match b !! name with
  | Some (JInt z) => if within lo hi z then Some z else None
  | _ => None
  end.

(** [name: Optional[str] = dflt] *)
Definition optional_str (b : body) (name : string) (dflt : option string)
    : option (option string) :=
  match b !! name with
  | None => Some dflt
  | Some JNull => Some None
  | Some (JStr s) => Some (Some s)
  | Some _ => None
  end.

(** [name: Optional[int] = Field(default=dflt, ge=lo, le=hi)]: the bounds
    apply to an integer; a JSON [null] is a valid [Optional]. *)
Definition optional_int (b : body) (name : string) (dflt : option Z) (lo hi : option Z)
    : option (option Z) :=
  match b !! name with
  | None => Some dflt
  | Some JNull => Some None
  | Some (JInt z) => if within lo hi z then Some (Some z) else None
  | Some _ => None
  end.

(** [name: Optional[bool] = dflt] *)
Definition optional_bool (b : body) (name : string) (dflt : option bool)
    : option (option bool) :=
  match b !! name with
  | None => Some dflt
  | Some JNull => Some None
  | Some (JBool v) => Some (Some v)
  | Some _ => None
  end.

Definition unprocessable {A} : response A := HTTPError 422 "Unprocessable Entity".

(** An exception no handler catches. *)
Definition internal_server_error {A} : response A := HTTPError 500 "Internal Server Error".

Module UploadFile.
Record t : Type := mk {
  filename : string;
  read : bytes
}.
End UploadFile.

(** A [datetime]: seconds since the epoch, and the text [isoformat()]
    prints for it. *)
Record datetime : Type := mkDatetime {
  timestamp : float;
  isoformat : string
}.

(** What one call reads from outside the process: the [i]-th [uuid.uuid4()],
    the [i]-th [time.time()], the [i]-th [datetime.now()] and the outcome of
    the chain's [run]. *)
Record Env : Type := mkEnv {
  uuid4 : nat -> string;
  time_time : nat -> float;
  datetime_now : nat -> datetime;
  chain_run : RetrievalQA -> string -> result string
}.

(** [l[-n:]] for [n > 0] *)
Definition last_n {A} (n : nat) (l : list A) : list A := drop (length l - n) l.

(** [l.pop(0)] on a non-empty list, for its effect on [l] *)
Definition pop0 {A} (l : list A) : list A := drop 1 l.

(** ** Builtins the other handlers use *)

(** Python's arithmetic that has no counterpart here: [round(x, ndigits)],
    the true division [a / b] of two integers, the conversion of an integer
    to a float, and the text [str] prints for a [timedelta] of so many
    seconds. *)
Class PyNumbers : Type := {
  py_round : float -> Z -> float;
  int_truediv : Z -> Z -> float;
  float_of_int : Z -> float;
  str_timedelta : float -> string
}.

(** [c.isspace()] on the ASCII range: tab to carriage return, the four
    separators and the space. *)
Definition isspace (c : ascii) : bool :=
  let n := nat_of_ascii c in
  ((9 <=? n) && (n <=? 13) || (28 <=? n) && (n <=? 32))%nat.

(** [s.split()]: the maximal runs of characters that are not whitespace;
    [word] is the run being read. *)
Fixpoint split_from (word : string) (s : string) : list string :=
  match s with
  | EmptyString => if String.eqb word "" then [] else [word]
  | String c s' =>
      if isspace c
      then (if String.eqb word "" then [] else [word]) ++ split_from "" s'
      else split_from (word +:+ String c "") s'
  end.

Definition str_split (s : string) : list string := split_from "" s.

(** [l[i:]] *)
Definition slice_from {A} (i : Z) (l : list A) : list A :=
  let n := Z.of_nat (length l) in
  let start := if i <? 0 then Z.max (n + i) 0 else Z.min i n in
  drop (Z.to_nat start) l.

(** [sum(...)] of integers *)
Definition sum_int (l : list Z) : Z := fold_left Z.add l 0.

(** [sum(...)] of floats, for a list that is not empty *)
Definition sum_float (l : list float) : float := fold_left PrimFloat.add l 0%float.

(** ** [main.py] *)

Module main.
Section WithLibrary.
Context `{Langchain}.

Record State : Type := mkState {
  disk : filesystem;
  vector_store : option FAISS;
  qa_chain : option RetrievalQA
}.

Definition startup (fs : filesystem) : State := mkState fs None None.

Record Ingested : Type := mkIngested { status : string; file : string }.

(** The dictionary [query] returns has one key or the other. *)
Inductive QueryBody : Type :=
| error (detail : string)
| answer (text : string).

Definition ingest (st : State) (file : UploadFile.t) : response Ingested * State :=
  match write_file (disk st) "docs" (UploadFile.filename file) (UploadFile.read file) with
  | Raise _ => (internal_server_error, st)
  | Return fs =>
      match (let* docs := ingest.ingest_documents fs "docs" in
             rag_pipeline.build_vector_store docs) with
      | Raise _ => (internal_server_error, mkState fs (vector_store st) (qa_chain st))
      | Return vs =>
          (OK (mkIngested "ingested" (UploadFile.filename file)),
           mkState fs (Some vs) (Some (rag_pipeline.get_qa_chain vs)))
      end
  end.

Definition query (env : Env) (st : State) (q : string) : response QueryBody * State :=
  match qa_chain st with
  | None => (OK (error "No data ingested yet."), st)
  | Some chain =>
      match chain_run env chain q with
      | Raise _ => (internal_server_error, st)
      | Return a => (OK (answer a), st)
      end
  end.
End WithLibrary.
End main.

(** ** [main_v2.py] *)

Module main_v2.
Section WithLibrary.
Context `{Langchain}.

Record QueryLog : Type := mkQueryLog {
  log_query_id : string;
  log_question : string;
  log_answer : string;
  log_llm_provider : option string;
  log_processing_time : float;
  log_timestamp : string
}.

Record FeedbackEntry : Type := mkFeedbackEntry {
  feedback_id : string;
  entry_query_id : string;
  entry_rating : Z;
  entry_comment : option string;
  entry_timestamp : string
}.

(** The module's globals, and the disk under the working directory. *)
Record State : Type := mkState {
  disk : filesystem;
  vector_store : option FAISS;
  qa_chain : option RetrievalQA;
  query_logs : list QueryLog;
  feedback_data : list FeedbackEntry
}.

Definition startup (fs : filesystem) : State := mkState fs None None [] [].

Record QueryRequest : Type := mkQueryRequest {
  question : string;
  llm_provider : option string;
  search_type : option string;
  k : option Z
}.

Definition QueryRequest_validate (b : body) : option QueryRequest :=
  question ← required_str b "question" None None;
  llm_provider ← optional_str b "llm_provider" (Some "openai");
  search_type ← optional_str b "search_type" (Some "similarity");
  k ← optional_int b "k" (Some 4) None None;
  Some (mkQueryRequest question llm_provider search_type k).

Record QueryResponse : Type := mkQueryResponse {
  answer : string;
  sources : list (gmap string string);
  confidence : float;
  processing_time : float;
  query_id : string
}.

Record UserFeedback : Type := mkUserFeedback {
  feedback_query_id : string;
  rating : Z;
  comment : option string
}.

Definition UserFeedback_validate (b : body) : option UserFeedback :=
  query_id ← required_str b "query_id" None None;
  rating ← required_int b "rating" None None;
  comment ← optional_str b "comment" None;
  Some (mkUserFeedback query_id rating comment).

Record IngestResult : Type := mkIngestResult {
  file_id : string;
  filename : string;
  status : string;
  file_path : string;
  uploaded_at : string;
  chunks_created : option Z
}.

Record IngestBody : Type := mkIngestBody {
  results : list IngestResult;
  total_chunks : Z
}.

(** The [for file in files] loop: [i] counts the files handled so far. *)
Fixpoint save_files (env : Env) (i : nat) (files : list UploadFile.t)
    (fs : filesystem) (results : list IngestResult)
    : result (filesystem * list IngestResult) :=
  match files with
  | [] => Return (fs, results)
  | file :: rest =>
      let file_id := uuid4 env i in
      let fs1 := makedirs fs "docs" in
      let name := file_id +:+ "_" +:+ UploadFile.filename file in
      let* fs2 := write_file fs1 "docs" name (UploadFile.read file) in
      save_files env (S i) rest fs2
        (results ++ [mkIngestResult file_id (UploadFile.filename file) "saved"
                       (path_join "docs" name) (isoformat (datetime_now env i)) None])
  end.

Definition mark_processed (n : Z) (r : IngestResult) : IngestResult :=
  mkIngestResult (file_id r) (filename r) "processed" (file_path r) (uploaded_at r) (Some n).

Definition enhanced_ingest (env : Env) (st : State) (files : list UploadFile.t)
    : response IngestBody * State :=
  match save_files env 0 files (disk st) [] with
  | Raise _ => (internal_server_error, st)
  | Return (fs, results) =>
      match ingest.ingest_documents fs "docs" with
      | Raise e =>
          (HTTPError 500 ("Processing error: " +:+ str_exn e),
           mkState fs (vector_store st) (qa_chain st) (query_logs st) (feedback_data st))
      | Return [] =>
          (OK (mkIngestBody results 0),
           mkState fs (vector_store st) (qa_chain st) (query_logs st) (feedback_data st))
      | Return docs =>
          match rag_pipeline.build_vector_store docs with
          | Raise e =>
              (HTTPError 500 ("Processing error: " +:+ str_exn e),
               mkState fs (vector_store st) (qa_chain st) (query_logs st) (feedback_data st))
          | Return vs =>
              let n := Z.of_nat (length docs) in
              (OK (mkIngestBody (map (mark_processed (n / Z.of_nat (length results))) results) n),
               mkState fs (Some vs) (Some (rag_pipeline.get_qa_chain vs))
                 (query_logs st) (feedback_data st))
          end
      end
  end.

Definition enhanced_query (env : Env) (st : State) (request : QueryRequest)
    : response QueryResponse * State :=
  let start_time := time_time env 0 in
  let query_id := uuid4 env 0 in
  match qa_chain st with
  | None => (HTTPError 400 "No data ingested yet. Please upload documents first.", st)
  | Some chain =>
      match chain_run env chain (question request) with
      | Raise e => (HTTPError 500 ("Query error: " +:+ str_exn e), st)
      | Return result =>
          let processing_time := PrimFloat.sub (time_time env 1) start_time in
          let query_log :=
            mkQueryLog query_id (question request) result (llm_provider request)
              processing_time (isoformat (datetime_now env 0)) in
          let logs := query_logs st ++ [query_log] in
          let logs := if (100 <? length logs)%nat then last_n 100 logs else logs in
          (OK (mkQueryResponse result [] 0.85%float processing_time query_id),
           mkState (disk st) (vector_store st) (qa_chain st) logs (feedback_data st))
      end
  end.

Record FeedbackReceived : Type := mkFeedbackReceived {
  received_status : string;
  received_feedback_id : string
}.

Definition submit_feedback (env : Env) (st : State) (feedback : UserFeedback)
    : response FeedbackReceived * State :=
  let feedback_entry :=
    mkFeedbackEntry (uuid4 env 0) (feedback_query_id feedback) (rating feedback)
      (comment feedback) (isoformat (datetime_now env 0)) in
  let data := feedback_data st ++ [feedback_entry] in
  let data := if (100 <? length data)%nat then last_n 100 data else data in
  (OK (mkFeedbackReceived "feedback_received" (feedback_id feedback_entry)),
   mkState (disk st) (vector_store st) (qa_chain st) (query_logs st) data).

(** The endpoints as a client reaches them: validation, then the handler. *)
Definition post_query (env : Env) (st : State) (b : body)
    : response QueryResponse * State :=
  match QueryRequest_validate b with
  | None => (unprocessable, st)
  | Some request => enhanced_query env st request
  end.

Definition post_feedback (env : Env) (st : State) (b : body)
    : response FeedbackReceived * State :=
  match UserFeedback_validate b with
  | None => (unprocessable, st)
  | Some feedback => submit_feedback env st feedback
  end.

(** The v1 routes kept for backward compatibility. *)
Record IngestedV1 : Type := mkIngestedV1 {
  v1_status : string;
  v1_file : string;
  details : IngestBody
}.

Definition ingest (env : Env) (st : State) (file : UploadFile.t)
    : response IngestedV1 * State :=
  match enhanced_ingest env st [file] with
  | (OK result, st') => (OK (mkIngestedV1 "ingested" (UploadFile.filename file) result), st')
  | (HTTPError c d, st') => (HTTPError c d, st')
  end.

Definition query (env : Env) (st : State) (q : string) : response string * State :=
  let request := mkQueryRequest q (Some "openai") (Some "similarity") (Some 4) in
  match enhanced_query env st request with
  | (OK result, st') => (OK (answer result), st')
  | (HTTPError c d, st') => (HTTPError c d, st')
  end.
(** The handlers below read the process environment ([os.getenv]) and use
    Python's float arithmetic. *)
Context `{PyNumbers}.

(** [os.getenv(name)] is truthy: the variable is set, and not to the empty
    string. *)
Definition getenv_set (environ : gmap string string) (name : string) : bool :=
  match environ !! name with
  | Some value => negb (String.eqb value "")
  | None => false
  end.

Definition get_available_llm_providers (environ : gmap string string) : list string :=
  let providers := [] in
  let providers :=
    if getenv_set environ "OPENAI_API_KEY" then providers ++ ["openai"] else providers in
  let providers :=
    if getenv_set environ "ANTHROPIC_API_KEY" then providers ++ ["anthropic"] else providers in
  let providers :=
    if getenv_set environ "GOOGLE_API_KEY" then providers ++ ["google"] else providers in
  match providers with
  | [] => ["openai"]
  | _ :: _ => providers
  end.

Record AnalyticsResponse : Type := mkAnalyticsResponse {
  total_queries : Z;
  avg_response_time : float;
  popular_topics : list string;
  user_satisfaction : float
}.

(** [word_freq[word] = word_freq.get(word, 0) + 1]; the dictionary keeps
    its keys in the order they were first inserted. *)
Fixpoint bump (word : string) (word_freq : list (string * Z)) : list (string * Z) :=
  match word_freq with
  | [] => [(word, 1)]
  | (w, n) :: rest =>
      if String.eqb w word then (w, n + 1) :: rest else (w, n) :: bump word rest
  end.

(** The [for word in words] loop. *)
Definition count_words (words : list string) : list (string * Z) :=
  fold_left
    (fun word_freq word =>
       if (3 <? String.length word)%nat then bump word word_freq else word_freq)
    words [].

(** [sorted(items, key=lambda x: x[1], reverse=True)]: by decreasing count,
    items of equal count in their original order. *)
Fixpoint insert_desc (item : string * Z) (sorted : list (string * Z)) : list (string * Z) :=
  match sorted with
  | [] => [item]
  | other :: rest =>
      if snd other <? snd item then item :: other :: rest
      else other :: insert_desc item rest
  end.

Definition sorted_desc (items : list (string * Z)) : list (string * Z) :=
  fold_left (fun sorted item => insert_desc item sorted) items [].

(** The words of the logged questions, as [get_analytics] reads them. *)
Definition question_words (logs : list QueryLog) : list string :=
  let all_questions := String.concat " " (map log_question logs) in
  str_split (lower all_questions).

Definition get_analytics (st : State) : AnalyticsResponse :=
  let total_queries := Z.of_nat (length (query_logs st)) in
  let avg_response_time :=
    match query_logs st with
    | [] => int_truediv 0 (Z.max total_queries 1)
    | _ :: _ =>
        PrimFloat.div (sum_float (map log_processing_time (query_logs st)))
          (float_of_int (Z.max total_queries 1))
    end in
  let words := question_words (query_logs st) in
  let word_freq := count_words words in
  let popular_topics := take 5 (sorted_desc word_freq) in
  let popular_topics := map fst popular_topics in
  let avg_rating :=
    match feedback_data st with
    | [] => 4.0%float
    | _ :: _ =>
        int_truediv (sum_int (map entry_rating (feedback_data st)))
          (Z.of_nat (length (feedback_data st)))
    end in
  mkAnalyticsResponse total_queries (py_round avg_response_time 2) popular_topics
    (py_round avg_rating 1).

Record Health : Type := mkHealth {
  health_status : string;
  version : string;
  vector_store_ready : bool;
  qa_chain_ready : bool;
  available_llm_providers : list string;
  health_timestamp : string
}.

Definition health_check (env : Env) (environ : gmap string string) (st : State) : Health :=
  mkHealth "healthy" "2.0.0"
    (match vector_store st with Some _ => true | None => false end)
    (match qa_chain st with Some _ => true | None => false end)
    (get_available_llm_providers environ)
    (isoformat (datetime_now env 0)).

Record Providers : Type := mkProviders {
  available_providers : list string;
  default_provider : string
}.

Definition get_llm_providers (environ : gmap string string) : Providers :=
  mkProviders (get_available_llm_providers environ) "openai".

(** The requests the server answers. *)
Inductive Call : Type :=
| v2_ingest (files : list UploadFile.t)
| v2_query (b : body)
| v2_feedback (b : body)
| v1_ingest (file : UploadFile.t)
| v1_query (q : string).

(** The server's state after one request. *)
Definition serve (env : Env) (st : State) (call : Call) : State :=
  match call with
  | v2_ingest files => snd (enhanced_ingest env st files)
  | v2_query b => snd (post_query env st b)
  | v2_feedback b => snd (post_feedback env st b)
  | v1_ingest file => snd (ingest env st file)
  | v1_query q => snd (query env st q)
  end.

End WithLibrary.
End main_v2.

(** ** [enhanced_main.py]

    The module imports [RAGPipeline] from [rag_pipeline] and
    [DocumentProcessor] from [ingest]; neither file defines them.  The two
    classes and the methods the handlers call on them are parameters. *)

(** What [rag_pipeline.query] returns: a dictionary read with
    [.get("response", ...)] and [.get("sources", ...)]. *)
Record RagResult : Type := mkRagResult {
  get_response : option string;
  get_sources : option (list (gmap string string))
}.

Class RAGBackend : Type := {
  RAGPipeline : Type;
  DocumentProcessor : Type;
  pipeline_query : RAGPipeline -> string -> option Z -> result RagResult;
  process_document : DocumentProcessor -> string -> bytes -> result Z
}.

(** The claims of a token: text, or a time in seconds since the epoch. *)
Inductive claim : Type :=
| claim_str (s : string)
| claim_time (seconds : float).

(** PyJWT: [jwt.encode(payload, key, algorithm)] and
    [jwt.decode(token, key, algorithms)], which raises on a token that is
    malformed, wrongly signed or expired. *)
Class JWT : Type := {
  jwt_encode : gmap string claim -> string -> string -> result string;
  jwt_decode : string -> string -> list string -> result (gmap string claim)
}.

Module enhanced_main.
Section WithBackend.
Context `{RAGBackend}.

Record QueryRequest : Type := mkQueryRequest {
  query : string;
  max_results : option Z;
  include_metadata : option bool
}.

Definition QueryRequest_validate (b : body) : option QueryRequest :=
  query ← required_str b "query" (Some 1) (Some 1000);
  max_results ← optional_int b "max_results" (Some 5) (Some 1) (Some 20);
  include_metadata ← optional_bool b "include_metadata" (Some false);
  Some (mkQueryRequest query max_results include_metadata).

Record QueryResponse : Type := mkQueryResponse {
  response_query : string;
  response_text : string;
  sources : list (gmap string string);
  processing_time : float;
  response_timestamp : string
}.

Record FeedbackRequest : Type := mkFeedbackRequest {
  feedback_query : string;
  feedback_response : string;
  rating : Z;
  comment : option string
}.

Definition FeedbackRequest_validate (b : body) : option FeedbackRequest :=
  query ← required_str b "query" None None;
  response ← required_str b "response" None None;
  rating ← required_int b "rating" (Some 1) (Some 5);
  comment ← optional_str b "comment" None;
  Some (mkFeedbackRequest query response rating comment).

Record QueryRecord : Type := mkQueryRecord {
  record_query : string;
  record_response : string;
  record_timestamp : string;
  record_processing_time : float;
  record_user : option string
}.

Record FeedbackRecord : Type := mkFeedbackRecord {
  fb_query : string;
  fb_response : string;
  fb_rating : Z;
  fb_comment : option string;
  fb_timestamp : string;
  fb_user : option string
}.

Record SystemStats : Type := mkSystemStats {
  total_documents : Z;
  total_queries : Z;
  total_response_time : float;
  startup_time : datetime
}.

(** The module's globals. *)
Record State : Type := mkState {
  rag_pipeline : option RAGPipeline;
  doc_processor : option DocumentProcessor;
  query_history : list QueryRecord;
  feedback_data : list FeedbackRecord;
  system_stats : SystemStats
}.

Definition startup (started : datetime) : State :=
  mkState None None [] [] (mkSystemStats 0 0 0%float started).

(** [current_user] is what [verify_token] made of the request's
    credentials.  Every [raise] of the body is inside its [try], whose
    [except Exception] turns it into a 500. *)
Definition process_query (env : Env) (st : State) (request : QueryRequest)
    (current_user : option string) : response QueryResponse * State :=
  let start_time := datetime_now env 0 in
  match rag_pipeline st with
  | None =>
      (HTTPError 500
         ("Query failed: " +:+ str_exn (HTTPException 503 "RAG pipeline not initialized")),
       st)
  | Some pipeline =>
      match pipeline_query pipeline (query request) (max_results request) with
      | Raise e => (HTTPError 500 ("Query failed: " +:+ str_exn e), st)
      | Return result =>
          let processing_time :=
            PrimFloat.sub (timestamp (datetime_now env 1)) (timestamp start_time) in
          let stats := system_stats st in
          let stats :=
            mkSystemStats (total_documents stats) (total_queries stats + 1)
              (PrimFloat.add (total_response_time stats) processing_time)
              (startup_time stats) in
          let query_record :=
            mkQueryRecord (query request) (default "" (get_response result))
              (isoformat (datetime_now env 2)) processing_time current_user in
          let history := query_history st ++ [query_record] in
          let history := if (100 <? length history)%nat then pop0 history else history in
          (OK (mkQueryResponse (query request)
                 (default "No response generated" (get_response result))
                 (default [] (get_sources result))
                 processing_time (isoformat (datetime_now env 3))),
           mkState (rag_pipeline st) (doc_processor st) history (feedback_data st) stats)
      end
  end.

Definition submit_feedback (env : Env) (st : State) (feedback : FeedbackRequest)
    (current_user : option string) : response string * State :=
  let feedback_record :=
    mkFeedbackRecord (feedback_query feedback) (feedback_response feedback)
      (rating feedback) (comment feedback) (isoformat (datetime_now env 0)) current_user in
  let data := feedback_data st ++ [feedback_record] in
  let data := if (1000 <? length data)%nat then pop0 data else data in
  (OK "Feedback submitted successfully",
   mkState (rag_pipeline st) (doc_processor st) (query_history st) data (system_stats st)).

Definition reset_system (env : Env) (st : State) (current_user : option string)
    : response string * State :=
  match current_user with
  | Some "admin" =>
      (OK "System data reset successfully",
       mkState (rag_pipeline st) (doc_processor st) [] []
         (mkSystemStats 0 0 0%float (datetime_now env 0)))
  | _ => (HTTPError 500 "Failed to reset system", st)
  end.

(** The endpoints as a client reaches them: validation, then the handler. *)
Definition post_query (env : Env) (st : State) (b : body) (current_user : option string)
    : response QueryResponse * State :=
  match QueryRequest_validate b with
  | None => (unprocessable, st)
  | Some request => process_query env st request current_user
  end.

Definition post_feedback (env : Env) (st : State) (b : body) (current_user : option string)
    : response string * State :=
  match FeedbackRequest_validate b with
  | None => (unprocessable, st)
  | Some feedback => submit_feedback env st feedback current_user
  end.
(** *** Authentication *)

Context `{JWT} `{PyNumbers}.

(** [os.getenv("JWT_SECRET_KEY", "fallback-secret-key-for-development")] *)
Definition SECRET_KEY (environ : gmap string string) : string :=
  default "fallback-secret-key-for-development" (environ !! "JWT_SECRET_KEY").

Definition ALGORITHM : string := "HS256".
Definition ACCESS_TOKEN_EXPIRE_MINUTES : Z := 30.

(** [timedelta(minutes=m)], in seconds. *)
Definition minutes (m : Z) : float := PrimFloat.mul (float_of_int m) 60%float.

(** [utcnow] is the reading of [datetime.utcnow()]; a [timedelta] of zero
    is falsy, so it takes the [else] branch; [None] is what the [except]
    returns. *)
Definition create_access_token (secret_key : string) (utcnow : float)
    (data : gmap string claim) (expires_delta : option float) : option string :=
  let to_encode := data in
  let expire :=
    match expires_delta with
    | Some delta =>
        if PrimFloat.eqb delta 0%float then PrimFloat.add utcnow (minutes 15)
        else PrimFloat.add utcnow delta
    | None => PrimFloat.add utcnow (minutes 15)
    end in
  let to_encode := <["exp" := claim_time expire]> to_encode in
  match jwt_encode to_encode secret_key ALGORITHM with
  | Return encoded_jwt => Some encoded_jwt
  | Raise _ => None
  end.

(** [credentials] is the bearer token of the request, if it has one. *)
Definition verify_token (secret_key : string) (credentials : option string) : option string :=
  match credentials with
  | None => None
  | Some token =>
      match jwt_decode token secret_key [ALGORITHM] with
      | Raise _ => None
      | Return payload =>
          match payload !! "sub" with
          | Some (claim_str username) => Some username
          | _ => None
          end
      end
  end.

Record UserLogin : Type := mkUserLogin {
  login_username : string;
  login_password : string
}.

Definition UserLogin_validate (b : body) : option UserLogin :=
  username ← required_str b "username" None None;
  password ← required_str b "password" None None;
  Some (mkUserLogin username password).

Record UserCreate : Type := mkUserCreate {
  username : string;
  password : string;
  email : option string
}.

Definition UserCreate_validate (b : body) : option UserCreate :=
  username ← required_str b "username" (Some 3) (Some 50);
  password ← required_str b "password" (Some 6) None;
  email ← optional_str b "email" None;
  Some (mkUserCreate username password email).

Record Token : Type := mkToken {
  access_token : string;
  token_type : string;
  expires_in : Z
}.

Definition login (secret_key : string) (utcnow : float) (user_data : UserLogin)
    : response Token :=
  if String.eqb (login_username user_data) "admin"
     && String.eqb (login_password user_data) "admin123"
  then
    let access_token_expires := minutes ACCESS_TOKEN_EXPIRE_MINUTES in
    match create_access_token secret_key utcnow
            {["sub" := claim_str (login_username user_data)]} (Some access_token_expires) with
    | Some access_token =>
        if String.eqb access_token ""
        then HTTPError 401 "Incorrect username or password"
        else OK (mkToken access_token "bearer" (ACCESS_TOKEN_EXPIRE_MINUTES * 60))
    | None => HTTPError 401 "Incorrect username or password"
    end
  else HTTPError 401 "Incorrect username or password".

Record Registered : Type := mkRegistered {
  message : string;
  registered_username : string
}.

Definition register (user_data : UserCreate) : response Registered :=
  if String.eqb (username user_data) "admin"
  then HTTPError 400 "Username already exists"
  else OK (mkRegistered "User registered successfully" (username user_data)).

Definition post_login (secret_key : string) (utcnow : float) (b : body) : response Token :=
  match UserLogin_validate b with
  | None => unprocessable
  | Some user_data => login secret_key utcnow user_data
  end.

Definition post_register (b : body) : response Registered :=
  match UserCreate_validate b with
  | None => unprocessable
  | Some user_data => register user_data
  end.

(** *** Documents *)

Record DocumentUploadResponse : Type := mkDocumentUploadResponse {
  upload_filename : string;
  size : Z;
  upload_status : string;
  upload_processing_time : float;
  chunks_created : option Z
}.

(** [os.remove(d/name)] *)
Definition remove_file (fs : filesystem) (d name : string) : result filesystem :=
  match fs !! d with
  | Some dir =>
      match dir !! name with
      | Some _ => Return (<[d := delete name dir]> fs)
      | None => Raise (FileNotFoundError (path_join d name))
      end
  | None => Raise (FileNotFoundError (path_join d name))
  end.

Definition upload_failed {A} (e : exn) : response A :=
  HTTPError 500 ("Upload failed: " +:+ str_exn e).

(** The upload is written to [/tmp], handed to the document processor and
    removed; [fs] is the disk.  Every [raise] is inside the [try]. *)
Definition upload_document (env : Env) (st : State) (fs : filesystem) (file : UploadFile.t)
    (current_user : option string)
    : response DocumentUploadResponse * State * filesystem :=
  let start_time := datetime_now env 0 in
  if String.eqb (UploadFile.filename file) ""
  then (upload_failed (HTTPException 400 "No file provided"), st, fs)
  else
    let content := UploadFile.read file in
    match write_file fs "/tmp" (UploadFile.filename file) content with
    | Raise e => (upload_failed e, st, fs)
    | Return fs1 =>
        let file_path := path_join "/tmp" (UploadFile.filename file) in
        let processed :=
          match doc_processor st with
          | Some processor =>
              let* chunks := process_document processor file_path content in
              let stats := system_stats st in
              Return (chunks,
                      mkState (rag_pipeline st) (doc_processor st) (query_history st)
                        (feedback_data st)
                        (mkSystemStats (total_documents stats + 1) (total_queries stats)
                           (total_response_time stats) (startup_time stats)))
          | None => Return (0, st)
          end in
        match processed with
        | Raise e => (upload_failed e, st, fs1)
        | Return (chunks, st1) =>
            let processing_time :=
              PrimFloat.sub (timestamp (datetime_now env 1)) (timestamp start_time) in
            match remove_file fs1 "/tmp" (UploadFile.filename file) with
            | Raise e => (upload_failed e, st1, fs1)
            | Return fs2 =>
                (OK (mkDocumentUploadResponse (UploadFile.filename file)
                       (Z.of_nat (length content)) "processed" processing_time (Some chunks)),
                 st1, fs2)
            end
        end
    end.

Record DocumentList : Type := mkDocumentList {
  documents : list (gmap string string);
  total_count : Z;
  list_message : string
}.

Definition list_documents (st : State) : response DocumentList :=
  OK (mkDocumentList [] (total_documents (system_stats st))
        "Document listing feature coming soon").

(** *** History, analytics and statistics *)

Record History : Type := mkHistory {
  history : list QueryRecord;
  history_total_queries : Z
}.

(** [q.get("user") == current_user] *)
Definition is_user (current_user : string) (q : QueryRecord) : bool :=
  match record_user q with
  | Some user => String.eqb user current_user
  | None => false
  end.

(** [if current_user:] is false for [None] and for the empty name. *)
Definition get_query_history (st : State) (limit : Z) (current_user : option string)
    : response History :=
  let filtered_history :=
    match current_user with
    | Some user =>
        if String.eqb user "" then query_history st
        else filter (fun q => is_user user q) (query_history st)
    | None => query_history st
    end in
  OK (mkHistory (slice_from (- limit) filtered_history)
        (Z.of_nat (length filtered_history))).

Record FeedbackAnalytics : Type := mkFeedbackAnalytics {
  total_feedback : Z;
  average_rating : float;
  rating_distribution : list (string * Z)
}.

(** [len([f for f in feedback_data if f["rating"] == i])] *)
Definition count_rating (i : Z) (data : list FeedbackRecord) : Z :=
  Z.of_nat (length (filter (fun f => fb_rating f =? i) data)).

Definition get_feedback_analytics (st : State) : response FeedbackAnalytics :=
  match feedback_data st with
  | [] => OK (mkFeedbackAnalytics 0 (float_of_int 0) [])
  | _ :: _ =>
      let total_feedback := Z.of_nat (length (feedback_data st)) in
      let average_rating :=
        int_truediv (sum_int (map fb_rating (feedback_data st))) total_feedback in
      let rating_distribution :=
        map (fun i => (pretty i, count_rating i (feedback_data st))) [1; 2; 3; 4; 5] in
      OK (mkFeedbackAnalytics total_feedback (py_round average_rating 2) rating_distribution)
  end.



Record Services : Type := mkServices {
  rag_pipeline_up : bool;
  document_processor_up : bool
}.

Definition health_check (st : State) : Services :=
  mkServices (match rag_pipeline st with Some _ => true | None => false end)
             (match doc_processor st with Some _ => true | None => false end).

(** The requests the server answers, each with the user its token stands
    for. *)
Inductive Call : Type :=
| call_query (b : body) (current_user : option string)
| call_feedback (b : body) (current_user : option string)
| call_reset (current_user : option string)
| call_upload (file : UploadFile.t) (current_user : option string).

(** The server's state and disk after one request. *)
Definition serve (env : Env) (st : State) (fs : filesystem) (call : Call)
    : State * filesystem :=
  match call with
  | call_query b user => (snd (post_query env st b user), fs)
  | call_feedback b user => (snd (post_feedback env st b user), fs)
  | call_reset user => (snd (reset_system env st user), fs)
  | call_upload file user =>
      (snd (fst (upload_document env st fs file user)), snd (upload_document env st fs file user))
  end.

End WithBackend.
End enhanced_main.

(** ** The Chunk Splitter of the specification

    The backend builds a [RecursiveCharacterTextSplitter] with
    [(chunk_size, chunk_overlap)] set to [(500, 50)] in [ingest.py] and to
    [(1000, 200)] in [enhanced_ingest.py] and calls its [split_documents];
    the splitting itself is the library's. *)

Module Splitter.
Section Windows.
Context {A : Type}.

(** Modelled from the spec: the "overlapping fixed-size windows" of the
    Chunk Splitter (sections 2 and 4.1), which the source leaves to
    langchain's [RecursiveCharacterTextSplitter].  Windows of [size]
    characters, each starting [step] characters after the previous one;
    the window that reaches the end of the text is the last.  [fuel]
    bounds the number of windows. *)
Fixpoint windows (fuel size step : nat) (text : list A) : list (list A) :=
  match fuel with
  | O => []
  | S fuel' =>
      if (length text <=? size)%nat then [text]
      else take size text :: windows fuel' size step (drop step text)
  end.

(** Concatenation of the chunks with the overlaps removed: the first
    chunk whole, every later one without its first [overlap] characters. *)
Definition strip_overlaps (overlap : nat) (chunks : list (list A)) : list A :=
  match chunks with
  | [] => []
  | c :: rest => c ++ concat (map (drop overlap) rest)
  end.

(** [next] shares exactly [overlap] characters with [prev]: the last
    [overlap] characters of [prev] are the first [overlap] of [next]. *)
Definition shares (overlap : nat) (prev next : list A) : Prop :=
  (overlap <= length prev)%nat /\ (overlap <= length next)%nat /\
  drop (length prev - overlap) prev = take overlap next.

Fixpoint chained (overlap : nat) (chunks : list (list A)) : Prop :=
  match chunks with
  | prev :: ((next :: _) as rest) => shares overlap prev next /\ chained overlap rest
  | _ => True
  end.
End Windows.

Definition ConfigurationError : exn :=
  Exception "chunk_overlap must be positive and smaller than chunk_size".

(** Modelled from the spec: the [split(text, chunk_size, overlap)] of
    section 4.1, which the source leaves to langchain's
    [RecursiveCharacterTextSplitter] (a library outside the repository).
    A text is a sequence of characters; the chunks are overlapping
    fixed-size windows; parameters that are not positive with
    [overlap < chunk_size] are a configuration error. *)
Definition split (text : list ascii) (chunk_size overlap : Z) : result (list (list ascii)) :=
  if (0 <? overlap) && (overlap <? chunk_size) then
    Return (windows (length text) (Z.to_nat chunk_size)
              (Z.to_nat (chunk_size - overlap)) text)
  else Raise ConfigurationError.

(** The splitter above as a [split_documents]: every chunk of a document
    inherits its metadata; a document is left whole when the parameters
    are refused. *)
Definition split_document (s : TextSplitter) (doc : Document) : list Document :=
  match split (list_ascii_of_string (page_content doc)) (chunk_size s) (chunk_overlap s) with
  | Return chunks => map (fun c => mkDocument (string_of_list_ascii c) (metadata doc)) chunks
  | Raise _ => [doc]
  end.
End Splitter.

(** ** The Vector Index search of the specification *)

Module VectorIndex.
(** An Embedding Record: a chunk and its vector. *)
Abbreviation record := (Document * Vector)%type.

Definition records (vs : FAISS) : list record := zip (docstore vs) (index vs).

(** Squared L2 distance. *)
Fixpoint l2 (u v : Vector) : float :=
  match u, v with
  | x :: u', y :: v' =>
      PrimFloat.add (PrimFloat.mul (PrimFloat.sub x y) (PrimFloat.sub x y)) (l2 u' v')
  | _, _ => 0%float
  end.

Inductive SearchType : Type := similarity | mmr.

(** The cost of taking [r] next, given the query vector and the records
    already taken: its distance to the query and, for the
    diversity-aware policy, a penalty for being close to a record already
    taken. *)
Definition cost (search_type : SearchType) (qv : Vector) (taken : list (record * float))
    (r : record) : float :=
  match search_type with
  | similarity => l2 qv (snd r)
  | mmr =>
      fold_left (fun c t => PrimFloat.sub c (PrimFloat.mul 0.5%float (l2 (snd (fst t)) (snd r))))
        taken (l2 qv (snd r))
  end.

(** The cheapest record of [r :: rest] and the others, in their order. *)
Fixpoint pick (f : record -> float) (r : record) (rest : list record)
    : record * list record :=
  match rest with
  | [] => (r, [])
  | r' :: rest' =>
      if PrimFloat.ltb (f r') (f r)
      then let '(best, others) := pick f r' rest' in (best, r :: others)
      else let '(best, others) := pick f r rest' in (best, r' :: others)
  end.

(** Modelled from the spec: the selection behind [search] (section 4.3),
    which the source leaves to langchain's FAISS retriever.  [k] times,
    while candidates remain, the candidate of least [cost] given the
    records already taken is moved to the end of [taken], with its
    distance to the query. *)
Fixpoint take_nearest (cost : list (record * float) -> record -> float)
    (distance : record -> float) (k : nat)
    (taken : list (record * float)) (candidates : list record) : list (record * float) :=
  match k, candidates with
  | S k', r :: rest =>
      let '(best, others) := pick (cost taken) r rest in
      take_nearest cost distance k' (taken ++ [(best, distance best)]) others
  | _, _ => taken
  end.

(** Modelled from the spec: the [search(query_text, k, search_type)] of
    section 4.3, which the source leaves to langchain's FAISS retriever (a
    library outside the repository).  The query is embedded by the
    provider [embed] (text to vector, section 6) and the [k] nearest
    records are returned nearest first, each with its distance. *)
Definition search (embed : string -> Vector) (vs : FAISS) (query_text : string) (k : Z)
    (search_type : SearchType) : list (Document * float) :=
  let qv := embed query_text in
  map (fun t => (fst (fst t), snd t))
    (take_nearest (cost search_type qv) (fun r => l2 qv (snd r)) (Z.to_nat k) [] (records vs)).

Definition search_type_name (t : SearchType) : string :=
  match t with
  | similarity => "similarity"
  | mmr => "mmr"
  end.

Definition parse_search_type (s : string) : option SearchType :=
  if String.eqb s "similarity" then Some similarity
  else if String.eqb s "mmr" then Some mmr
  else None.

(** Modelled from the spec: how a chain's retriever (langchain's, outside
    the repository) calls [search]: with the [k] of its [search_kwargs] (4
    when the dictionary has none) and its search type; an unknown search
    type is refused. *)
Definition retrieve (embed : string -> Vector) (r : VectorStoreRetriever) (query_text : string)
    : result (list (Document * float)) :=
  match parse_search_type (search_type r) with
  | Some t => Return (search embed (vectorstore r) query_text (default 4 (search_kwargs r !! "k")) t)
  | None => Raise (Exception ("search_type of " +:+ search_type r +:+ " not allowed."))
  end.
End VectorIndex.

(** ** [tracing.py]

    The payment service of the tracing example.  The request body is a JSON
    object whose values are any JSON values; what the handlers record on
    their spans, by their own calls, is returned as a list next to their
    result. *)

Module tracing.

(** A parsed JSON value: [None], a [bool], an [int], a [float], a [str],
    a [list] or a [dict]. *)
Inductive value : Type :=
| VNull
| VBool (b : bool)
| VInt (z : Z)
| VFloat (f : float)
| VStr (s : string)
| VList (items : list value)
| VDict (items : list (string * value)).

Inductive record : Type :=
| set_attribute (span key : string) (attribute : option value)
| add_event (span name : string) (attributes : list (string * value))
| record_exception (span message : string)
| set_status_error (span message : string).

Inductive error : Type :=
| ValueError (message : string)
| TypeError (message : string).

Definition str_error (e : error) : string :=
  match e with
  | ValueError message => message
  | TypeError message => message
  end.

Definition required_fields : list string := ["amount"; "currency"; "method"; "card_number"].

(** The [for field in required_fields] loop: the first field that is not
    in [data]. *)
Fixpoint first_missing (fields : list string) (data : gmap string value) : option string :=
  match fields with
  | [] => None
  | field :: rest =>
      match data !! field with
      | None => Some field
      | Some _ => first_missing rest data
      end
  end.

(** [amount <= 0]: a number or a boolean compares with 0, anything else
    raises. *)
Definition le_0 (amount : value) : error + bool :=
  match amount with
  | VInt z => inr (z <=? 0)
  | VFloat f => inr (PrimFloat.leb f 0%float)
  | VBool b => inr (negb b)
  | VStr _ => inl (TypeError "'<=' not supported between instances of 'str' and 'int'")
  | VNull => inl (TypeError "'<=' not supported between instances of 'NoneType' and 'int'")
  | VList _ => inl (TypeError "'<=' not supported between instances of 'list' and 'int'")
  | VDict _ => inl (TypeError "'<=' not supported between instances of 'dict' and 'int'")
  end.

Definition validate_payment (data : gmap string value)
    : (error + gmap string value) * list record :=
  match first_missing required_fields data with
  | Some field =>
      (inl (ValueError ("Missing required field: " +:+ field)),
       [add_event "validate_payment" "validation_failed" [("missing_field", VStr field)]])
  | None =>
      match le_0 (default VNull (data !! "amount")) with
      | inl e => (inl e, [])
      | inr true =>
          (inl (ValueError "Amount must be positive"),
           [add_event "validate_payment" "validation_failed" [("reason", VStr "invalid_amount")]])
      | inr false =>
          (inr data,
           [set_attribute "validate_payment" "validation.status" (Some (VStr "success"));
            add_event "validate_payment" "validation_completed" []])
      end
  end.

(** [payment_data] has passed [validate_payment]: its ['amount'] and
    ['currency'] are there. *)
Definition process_payment (payment_data : gmap string value)
    : gmap string value * list record :=
  let result : gmap string value :=
    {[ "id" := VStr "pay_123456789";
       "status" := VStr "success";
       "amount" := default VNull (payment_data !! "amount");
       "currency" := default VNull (payment_data !! "currency") ]} in
  (result,
   [set_attribute "process_payment" "payment.processor" (Some (VStr "stripe"));
    set_attribute "external_api_call" "http.method" (Some (VStr "POST"));
    set_attribute "external_api_call" "http.url" (Some (VStr "https://api.stripe.com/v1/charges"));
    set_attribute "external_api_call" "http.status_code" (Some (VInt 200));
    set_attribute "external_api_call" "payment.transaction_id" (result !! "id");
    set_attribute "process_payment" "payment.processing_time_ms" (Some (VInt 100))]).

Definition send_notification (payment_result : gmap string value) : list record :=
  [set_attribute "send_notification" "notification.type" (Some (VStr "email"));
   set_attribute "send_notification" "notification.recipient" (Some (VStr "user@example.com"));
   add_event "send_notification" "notification_sent"
     [("payment_id", default VNull (payment_result !! "id"));
      ("amount", default VNull (payment_result !! "amount"))]].

(** [POST /payments] with a body that is a JSON object: the JSON answered,
    its status, and the records. *)
Definition create_payment (request_json : gmap string value) (method url : string)
    : gmap string value * Z * list record :=
  let span := "create_payment" in
  let opened :=
    [set_attribute span "payment.amount" (request_json !! "amount");
     set_attribute span "payment.currency" (request_json !! "currency");
     set_attribute span "payment.method" (request_json !! "method");
     set_attribute span "http.method" (Some (VStr method));
     set_attribute span "http.url" (Some (VStr url))] in
  match validate_payment request_json with
  | (inr payment_data, validated) =>
      let '(payment_result, processed) := process_payment payment_data in
      let notified := send_notification payment_result in
      (payment_result, 201,
       opened ++ validated ++ processed ++ notified
         ++ [set_attribute span "payment.status" (payment_result !! "status");
             set_attribute span "payment.id" (payment_result !! "id")])
  | (inl (ValueError message), validated) =>
      ({[ "error" := VStr message ]}, 400,
       opened ++ validated
         ++ [record_exception span message; set_status_error span message])
  | (inl (TypeError message), validated) =>
      ({[ "error" := VStr "Internal server error" ]}, 500,
       opened ++ validated
         ++ [record_exception span message; set_status_error span message])
  end.
End tracing.

(** ** Clients: sequences of calls *)

(** A client that sends the queries [calls] one after the other, each
    with what the outside world answers during that call. *)
Definition main_v2_queries (st : main_v2.State)
    (calls : list (Env * main_v2.QueryRequest)) : main_v2.State :=
  fold_left (fun st call => snd (main_v2.enhanced_query (fst call) st (snd call))) calls st.

(** The log entry a query adds, if it adds one: on success it is the last
    entry of the log. *)
Definition main_v2_logged (st : main_v2.State)
    (call : Env * main_v2.QueryRequest) : list main_v2.QueryLog :=
  match main_v2.enhanced_query (fst call) st (snd call) with
  | (OK _, st') => option_list (last (main_v2.query_logs st'))
  | (HTTPError _ _, _) => []
  end.

Definition enhanced_main_queries `{RAGBackend} (st : enhanced_main.State)
    (calls : list (Env * enhanced_main.QueryRequest * option string)) : enhanced_main.State :=
  fold_left
    (fun st call => snd (enhanced_main.process_query (fst (fst call)) st (snd (fst call)) (snd call)))
    calls st.

Definition enhanced_main_logged `{RAGBackend} (st : enhanced_main.State)
    (call : Env * enhanced_main.QueryRequest * option string) : list enhanced_main.QueryRecord :=
  match enhanced_main.process_query (fst (fst call)) st (snd (fst call)) (snd call) with
  | (OK _, st') => option_list (last (enhanced_main.query_history st'))
  | (HTTPError _ _, _) => []
  end.

(** The entries the queries [calls] add one after the other, oldest
    first, had nothing been evicted. *)
Fixpoint main_v2_produced (st : main_v2.State) (calls : list (Env * main_v2.QueryRequest))
    : list main_v2.QueryLog :=
  match calls with
  | [] => []
  | call :: rest =>
      main_v2_logged st call
        ++ main_v2_produced (snd (main_v2.enhanced_query (fst call) st (snd call))) rest
  end.

Fixpoint enhanced_main_produced `{RAGBackend} (st : enhanced_main.State)
    (calls : list (Env * enhanced_main.QueryRequest * option string))
    : list enhanced_main.QueryRecord :=
  match calls with
  | [] => []
  | call :: rest =>
      enhanced_main_logged st call
        ++ enhanced_main_produced
             (snd (enhanced_main.process_query (fst (fst call)) st (snd (fst call)) (snd call)))
             rest
  end.

(** The log entry [enhanced_query] builds for a query the chain answered
    with [result]: the request's question and provider, the answer, and
    the identifier and the readings of the clock taken during the call. *)
Definition main_v2_query_entry (call : Env * main_v2.QueryRequest) (result : string)
    : main_v2.QueryLog :=
  main_v2.mkQueryLog (uuid4 (fst call) 0) (main_v2.question (snd call)) result
    (main_v2.llm_provider (snd call))
    (PrimFloat.sub (time_time (fst call) 1) (time_time (fst call) 0))
    (isoformat (datetime_now (fst call) 0)).

(** The entries the queries [calls] are to add to the log of a server
    whose chain is [qa_chain], oldest first: one for each query the chain
    answers, none for a query on which it raises, and none at all while
    there is no chain. *)
Definition main_v2_answered (qa_chain : option RetrievalQA)
    (calls : list (Env * main_v2.QueryRequest)) : list main_v2.QueryLog :=
  match qa_chain with
  | None => []
  | Some chain =>
      flat_map
        (fun call =>
           match chain_run (fst call) chain (main_v2.question (snd call)) with
           | Return result => [main_v2_query_entry call result]
           | Raise _ => []
           end)
        calls
  end.

(** The record [process_query] builds for a query the pipeline answered
    with [result]. *)
Definition enhanced_main_query_record
    (call : Env * enhanced_main.QueryRequest * option string) (result : RagResult)
    : enhanced_main.QueryRecord :=
  enhanced_main.mkQueryRecord (enhanced_main.query (snd (fst call)))
    (default "" (get_response result))
    (isoformat (datetime_now (fst (fst call)) 2))
    (PrimFloat.sub (timestamp (datetime_now (fst (fst call)) 1))
       (timestamp (datetime_now (fst (fst call)) 0)))
    (snd call).

(** The records the queries [calls] are to add to the history of a server
    whose pipeline is [rag_pipeline], oldest first. *)
Definition enhanced_main_answered `{RAGBackend} (rag_pipeline : option RAGPipeline)
    (calls : list (Env * enhanced_main.QueryRequest * option string))
    : list enhanced_main.QueryRecord :=
  match rag_pipeline with
  | None => []
  | Some pipeline =>
      flat_map
        (fun call =>
           match pipeline_query pipeline (enhanced_main.query (snd (fst call)))
                   (enhanced_main.max_results (snd (fst call))) with
           | Return result => [enhanced_main_query_record call result]
           | Raise _ => []
           end)
        calls
  end.

(** ** What becomes of one file *)

Section FileOutcomes.
Context `{Langchain}.

(** What [enhanced_ingest.py] makes of one directory entry: no loader for
    its extension, a loader that raised, or the documents loaded. *)
Inductive outcome : Type :=
| unsupported
| unreadable (e : exn)
| loaded (documents : list Document).

Definition attempt (doc_dir : string) (entry : string * bytes) : outcome :=
  match enhanced_ingest.select_loader (fst entry) with
  | None => unsupported
  | Some loader =>
      match loader_load loader (path_join doc_dir (fst entry)) (snd entry) with
      | Return documents => loaded documents
      | Raise e => unreadable e
      end
  end.

Definition documents_of (o : outcome) : list Document :=
  match o with
  | loaded documents => documents
  | _ => []
  end.

(** The line printed for the entry, when one is. *)
Definition report_of (fname : string) (o : outcome) : list string :=
  match o with
  | unreadable e => ["Error loading " +:+ fname +:+ ": " +:+ str_exn e]
  | _ => []
  end.

(** The pages [ingest.py] takes from one directory entry when nothing
    raises: those of a file named [*.pdf], none of any other. *)
Definition pdf_pages (doc_dir : string) (entry : string * bytes) : list Document :=
  if endswith (fst entry) ".pdf" then
    match loader_load PyPDFLoader (path_join doc_dir (fst entry)) (snd entry) with
    | Return pages => pages
    | Raise _ => []
    end
  else [].

End FileOutcomes.

(** ** What an ingest call leaves behind *)

Section Rebuild.
Context `{Langchain}.



(** The file [name] of [docs], with its content. *)
Definition stored (fs : filesystem) (name : string) : option bytes :=
  (fs !! "docs") ≫= (fun dir => dir !! name).

(** The names [save_files] writes [files] under, from the [i]-th
    identifier on. *)
Fixpoint saved_names (env : Env) (i : nat) (files : list UploadFile.t) : list string :=
  match files with
  | [] => []
  | file :: rest =>
      (uuid4 env i +:+ "_" +:+ UploadFile.filename file) :: saved_names env (S i) rest
  end.
End Rebuild.

(** ** Persisted stores that cannot be loaded *)

(** The folder of a persisted store is missing, lacks one of its two
    files, or holds bytes that do not deserialize. *)
Inductive unusable `{Langchain} (fs : filesystem) (folder : string) : Prop :=
| missing_folder :
    fs !! folder = None -> unusable fs folder
| missing_file (dir : directory) :
    fs !! folder = Some dir ->
    dir !! "index.faiss" = None \/ dir !! "index.pkl" = None ->
    unusable fs folder
| corrupt (dir : directory) (faiss_bytes pkl_bytes : bytes) (e : exn) :
    fs !! folder = Some dir ->
    dir !! "index.faiss" = Some faiss_bytes ->
    dir !! "index.pkl" = Some pkl_bytes ->
    faiss_load faiss_bytes pkl_bytes = Raise e ->
    unusable fs folder.

(** ** Servers over many requests *)

(** A [main_v2] server that answers [calls] one after the other. *)
Definition main_v2_serve_all `{Langchain} (st : main_v2.State)
    (calls : list (Env * main_v2.Call)) : main_v2.State :=
  fold_left (fun st call => main_v2.serve (fst call) st (snd call)) calls st.

(** The entry [submit_feedback] of [main_v2.py] appends. *)
Definition main_v2_feedback_entry (submission : Env * main_v2.UserFeedback)
    : main_v2.FeedbackEntry :=
  main_v2.mkFeedbackEntry (uuid4 (fst submission) 0)
    (main_v2.feedback_query_id (snd submission)) (main_v2.rating (snd submission))
    (main_v2.comment (snd submission)) (isoformat (datetime_now (fst submission) 0)).

Definition main_v2_feedbacks (st : main_v2.State)
    (submissions : list (Env * main_v2.UserFeedback)) : main_v2.State :=
  fold_left (fun st s => snd (main_v2.submit_feedback (fst s) st (snd s))) submissions st.

(** An [enhanced_main] server, and the disk under it, over [calls]. *)
Definition enhanced_main_serve_all `{RAGBackend} (st : enhanced_main.State) (fs : filesystem)
    (calls : list (Env * enhanced_main.Call)) : enhanced_main.State * filesystem :=
  fold_left (fun s call => enhanced_main.serve (fst call) (fst s) (snd s) (snd call))
    calls (st, fs).

(** What a reachable state of [enhanced_main.py] keeps: validated ratings
    and bounded logs. *)
Definition enhanced_main_kept `{RAGBackend} (st : enhanced_main.State) : Prop :=
  Forall (fun f => 1 <= enhanced_main.fb_rating f <= 5) (enhanced_main.feedback_data st) /\
  (length (enhanced_main.feedback_data st) <= 1000)%nat /\
  (length (enhanced_main.query_history st) <= 100)%nat.

(** The file [name] of [/tmp], with its content. *)
Definition in_tmp (fs : filesystem) (name : string) : option bytes :=
  (fs !! "/tmp") ≫= (fun dir => dir !! name).

(** How many times [word] stands in [words]. *)
Fixpoint occurrences (word : string) (words : list string) : Z :=
  match words with
  | [] => 0
  | w :: rest => (if String.eqb w word then 1 else 0) + occurrences word rest
  end.

(** What a reachable state of [main_v2.py] keeps: the chain is the chain
    over the current store, a store that exists holds at least one
    document and is the embedding of its own documents, and both logs are
    bounded. *)
Definition main_v2_kept `{Langchain} (st : main_v2.State) : Prop :=
  main_v2.qa_chain st = rag_pipeline.get_qa_chain <$> main_v2.vector_store st /\
  (forall vs, main_v2.vector_store st = Some vs ->
              docstore vs <> [] /\ from_documents (docstore vs) = Return vs) /\
  (length (main_v2.query_logs st) <= 100)%nat /\
  (length (main_v2.feedback_data st) <= 100)%nat.

(** [word_freq] holds each word of [words] once, with the number of times
    it stands in [words]. *)
Definition counts (words : list string) (word_freq : list (string * Z)) : Prop :=
  NoDup (map fst word_freq) /\
  forall w n, (w, n) ∈ word_freq <-> w ∈ words /\ n = occurrences w words.

(** By decreasing count. *)
Definition by_count (a b : string * Z) : Prop := snd b <= snd a.

(** ** Concrete inputs *)

Module Fixtures.
Fixpoint float_of_nat (n : nat) : float :=
  match n with
  | O => 0%float
  | S n' => PrimFloat.add 1%float (float_of_nat n')
  end.

(** A library whose loaders refuse an empty file and read any other as
    one page of text, whose splitter is the window splitter, and whose
    embedding of a text is its length. *)
Definition library : Langchain := {|
  loader_load := fun _ path content =>
    match content with
    | [] => Raise (Exception "EOF marker not found")
    | _ :: _ => Return [mkDocument (string_of_list_byte content) {["source" := path]}]
    end;
  split_documents := fun s docs => flat_map (Splitter.split_document s) docs;
  embed_documents := fun texts => Return (map (fun t => [float_of_nat (String.length t)]) texts);
  faiss_dump := fun vs => (list_byte_of_string "faiss", list_byte_of_string "pkl");
  faiss_load := fun faiss_bytes pkl_bytes =>
    match faiss_bytes with
    | [] => Raise (Exception "Error in faiss::read_index")
    | _ :: _ => Return (mkFAISS [] [])
    end
|}.

Definition world : Env := {|
  uuid4 := fun i => "id" +:+ pretty i;
  time_time := float_of_nat;
  datetime_now := fun i => mkDatetime (float_of_nat i) ("2024-01-01T00:00:0" +:+ pretty i);
  chain_run := fun _ q => Return ("answer to " +:+ q)
|}.

Definition upload (name text : string) : UploadFile.t :=
  UploadFile.mk name (list_byte_of_string text).

Definition empty_docs : filesystem := {["docs" := ∅]}.

Definition one_document : FAISS :=
  mkFAISS [mkDocument "Paris is the capital of France." {["source" := "docs/intro.pdf"]}]
          [[31%float]].

(** A [main_v2] server after a successful ingestion. *)
Definition ready : main_v2.State :=
  main_v2.mkState empty_docs (Some one_document)
    (Some (rag_pipeline.get_qa_chain one_document)) [] [].

(** A pipeline that answers every question. *)
Definition backend : RAGBackend := {|
  RAGPipeline := unit;
  DocumentProcessor := unit;
  pipeline_query := fun _ q _ => Return (mkRagResult (Some ("answer to " +:+ q)) (Some []));
  process_document := fun _ _ _ => Return 1
|}.

Definition old_log : main_v2.QueryLog :=
  main_v2.mkQueryLog "id-old" "old question" "old answer" (Some "openai") 1%float
    "2023-12-31T23:59:59".

(** A ready [main_v2] server whose log is full. *)
Definition ready_full : main_v2.State :=
  main_v2.mkState empty_docs (Some one_document)
    (Some (rag_pipeline.get_qa_chain one_document)) (replicate 100 old_log) [].

Definition old_record : enhanced_main.QueryRecord :=
  enhanced_main.mkQueryRecord "old question" "old answer" "2023-12-31T23:59:59" 1%float None.

(** An [enhanced_main] server with a pipeline and a full history. *)
Definition serving_full : @enhanced_main.State backend :=
  @enhanced_main.mkState backend (Some tt) (Some tt) (replicate 100 old_record) []
    (enhanced_main.mkSystemStats 100 100 100%float (mkDatetime 0%float "2023-12-31T00:00:00")).

Definition ask2 (q : string) : main_v2.QueryRequest :=
  main_v2.mkQueryRequest q (Some "openai") (Some "similarity") (Some 4).

Definition ask (q : string) : enhanced_main.QueryRequest :=
  enhanced_main.mkQueryRequest q (Some 5) (Some false).

(** Three files, the second of which no loader can read. *)
Definition batch_dir : directory :=
  {[ "a.txt" := list_byte_of_string "alpha";
     "b.pdf" := [];
     "c.txt" := list_byte_of_string "gamma" ]}.

Definition batch : filesystem := {["docs" := batch_dir]}.


(** Two PDF files, the second of which the loader cannot read. *)
Definition two_pdfs : filesystem :=
  {["docs" := {[ "a.pdf" := list_byte_of_string "alpha"; "b.pdf" := [] ]} ]}.

Definition clock (i : nat) : string := "2024-01-01 00:00:0" +:+ pretty i.

(** A store folder whose index file is empty. *)
Definition corrupt_store : filesystem :=
  {["./vector_store" := {[ "index.faiss" := []; "index.pkl" := list_byte_of_string "pkl" ]} ]}.

Definition pipeline : enhanced_rag_pipeline.EnhancedRAGPipeline :=
  enhanced_rag_pipeline.__init__ "openai".

(** A [main] server that has ingested [a.pdf]. *)
Definition after_a : main.State :=
  main.mkState {["docs" := {[ "a.pdf" := list_byte_of_string "alpha" ]} ]}
    (Some (mkFAISS [mkDocument "alpha" {["source" := "docs/a.pdf"]}] [[5%float]]))
    (Some (rag_pipeline.get_qa_chain
             (mkFAISS [mkDocument "alpha" {["source" := "docs/a.pdf"]}] [[5%float]]))).

(** An embedding provider: the length of the text. *)
Definition embed (text : string) : Vector := [float_of_nat (String.length text)].

(** A store of three chunks. *)
Definition three_chunks : FAISS :=
  mkFAISS [mkDocument "Paris is the capital of France." {["source" := "docs/intro.pdf"]};
           mkDocument "Rome" {["source" := "docs/italy.pdf"]};
           mkDocument "Berlin is the capital" {["source" := "docs/germany.pdf"]}]
          [embed "Paris is the capital of France."; embed "Rome"; embed "Berlin is the capital"].

Definition float_of_Z (z : Z) : float :=
  match z with
  | Z0 => 0%float
  | Zpos p => float_of_nat (Pos.to_nat p)
  | Zneg p => PrimFloat.opp (float_of_nat (Pos.to_nat p))
  end.

(** Numbers that are not rounded. *)
Definition numbers : PyNumbers := {|
  py_round := fun x _ => x;
  int_truediv := fun a b => PrimFloat.div (float_of_Z a) (float_of_Z b);
  float_of_int := float_of_Z;
  str_timedelta := fun _ => "0:00:00"
|}.

(** Tokens that spell out their subject. *)
Definition tokens : JWT := {|
  jwt_encode := fun payload _ _ =>
    match payload !! "sub" with
    | Some (claim_str sub) => Return ("token-for-" +:+ sub)
    | _ => Raise (Exception "no subject")
    end;
  jwt_decode := fun token _ _ =>
    if String.eqb token "token-for-admin" then Return {["sub" := claim_str "admin"]}
    else Raise (Exception "Signature verification failed")
|}.

Definition rating_of (rating : Z) : enhanced_main.FeedbackRecord :=
  enhanced_main.mkFeedbackRecord "q" "r" rating None "2024-01-01T00:00:00" None.

(** An [enhanced_main] server with three feedback records. *)
Definition rated : @enhanced_main.State backend :=
  @enhanced_main.mkState backend (Some tt) (Some tt) []
    [rating_of 5; rating_of 3; rating_of 5]
    (enhanced_main.mkSystemStats 0 0 0%float (mkDatetime 0%float "2023-12-31T00:00:00")).

Definition tmp_disk : filesystem := {["/tmp" := ∅]}.


Definition asked_by (user : option string) (q : string) : enhanced_main.QueryRecord :=
  enhanced_main.mkQueryRecord q "an answer" "2024-01-01T00:00:00" 1%float user.

(** An [enhanced_main] server whose history holds queries of two users and
    an anonymous one. *)
Definition two_users : @enhanced_main.State backend :=
  @enhanced_main.mkState backend (Some tt) (Some tt)
    [asked_by (Some "ann") "first"; asked_by (Some "bob") "second"; asked_by None "third";
     asked_by (Some "ann") "fourth"; asked_by (Some "ann") "fifth"]
    []
    (enhanced_main.mkSystemStats 0 5 5%float (mkDatetime 0%float "2023-12-31T00:00:00")).


(** A pipeline and a processor that always fail. *)
Definition broken : RAGBackend := {|
  RAGPipeline := unit;
  DocumentProcessor := unit;
  pipeline_query := fun _ _ _ => Raise (Exception "down");
  process_document := fun _ _ _ => Raise (Exception "cannot parse")
|}.

Definition failing : @enhanced_main.State broken :=
  @enhanced_main.mkState broken (Some tt) (Some tt) [] []
    (enhanced_main.mkSystemStats 0 0 0%float (mkDatetime 0%float "2023-12-31T00:00:00")).

(** A library like [library] whose stores hold one text and are written
    to disk as that text. *)
Definition one_text : Langchain := {|
  loader_load := @loader_load library;
  split_documents := @split_documents library;
  embed_documents := @embed_documents library;
  faiss_dump := fun vs =>
    (list_byte_of_string (String.concat "" (map page_content (docstore vs))),
     list_byte_of_string "pkl");
  faiss_load := fun faiss_bytes pkl_bytes =>
    match faiss_bytes with
    | [] => Raise (Exception "Error in faiss::read_index")
    | _ :: _ =>
        Return (mkFAISS [mkDocument (string_of_list_byte faiss_bytes) ∅]
                  [embed (string_of_list_byte faiss_bytes)])
    end
|}.

Definition log_of (q : string) : main_v2.QueryLog :=
  main_v2.mkQueryLog "id" q "an answer" (Some "openai") 1%float "2024-01-01T00:00:00".

(** A [main_v2] server that has logged four questions. *)
Definition asked : main_v2.State :=
  main_v2.mkState empty_docs (Some one_document)
    (Some (rag_pipeline.get_qa_chain one_document))
    [log_of "What is the capital of France"; log_of "Is Paris the capital";
     log_of "Where is Paris"; log_of "paris or Rome"]
    [].

End Fixtures.

(** * Properties *)

(** ** Querying before ingestion *)

(** C1. While [qa_chain] is unset, [query] of [main.py] answers the error
    body "No data ingested yet." and [enhanced_query] of [main_v2.py]
    raises the 400 "No data ingested yet..."; neither returns an answer,
    whatever the chain's [run] would have produced, and the state is
    unchanged. *)
Theorem query_before_ingestion_not_ready
    (env : Env) (st1 : main.State) (st2 : main_v2.State)
    (q : string) (request : main_v2.QueryRequest) :
  main.qa_chain st1 = None ->
  main_v2.qa_chain st2 = None ->
  main.query env st1 q = (OK (main.error "No data ingested yet."), st1) /\
  (forall a, fst (main.query env st1 q) <> OK (main.answer a)) /\
  main_v2.enhanced_query env st2 request
    = (HTTPError 400 "No data ingested yet. Please upload documents first.", st2) /\
  (forall body, fst (main_v2.enhanced_query env st2 request) <> OK body).
Proof.
  intros Hnone1 Hnone2.
  unfold main.query, main_v2.enhanced_query.
  rewrite Hnone1, Hnone2. cbn.
  repeat split; intros; discriminate.
Qed.

Lemma query_before_ingestion_not_ready_startup :
  main.qa_chain (main.startup Fixtures.empty_docs) = None /\
  main_v2.qa_chain (main_v2.startup Fixtures.empty_docs) = None /\
  main.query Fixtures.world (main.startup Fixtures.empty_docs) "What is the capital of France?"
    = (OK (main.error "No data ingested yet."), main.startup Fixtures.empty_docs).
Proof.
  split; [reflexivity | split; [reflexivity |]].
  apply (query_before_ingestion_not_ready Fixtures.world
           (main.startup Fixtures.empty_docs) (main_v2.startup Fixtures.empty_docs)
           "What is the capital of France?"
           (main_v2.mkQueryRequest "What is the capital of France?" None None None));
    reflexivity.
Defined.

(** ** Queries leave the index alone *)

Section QueryFrame.
Context `{RAGBackend}.

(** C5. A query, answered or failed, leaves the vector store, the chain
    built over it and the documents on disk as they were
    ([enhanced_query] of [main_v2.py]), and leaves the pipeline and the
    document processor as they were ([process_query] of
    [enhanced_main.py]); a failed query changes nothing at all.  The
    chain's [run] and [RAGPipeline.query] are calls into code outside the
    repository: the handlers pass them the chain or the pipeline and use
    only what they return. *)
Theorem query_preserves_index_and_ingest_state
    (env : Env) (st2 : main_v2.State) (request2 : main_v2.QueryRequest)
    (st : enhanced_main.State) (request : enhanced_main.QueryRequest)
    (current_user : option string) :
  (main_v2.vector_store (snd (main_v2.enhanced_query env st2 request2))
     = main_v2.vector_store st2 /\
   main_v2.qa_chain (snd (main_v2.enhanced_query env st2 request2))
     = main_v2.qa_chain st2 /\
   main_v2.disk (snd (main_v2.enhanced_query env st2 request2)) = main_v2.disk st2 /\
   match fst (main_v2.enhanced_query env st2 request2) with
   | OK _ => True
   | HTTPError _ _ => snd (main_v2.enhanced_query env st2 request2) = st2
   end) /\
  (enhanced_main.rag_pipeline (snd (enhanced_main.process_query env st request current_user))
     = enhanced_main.rag_pipeline st /\
   enhanced_main.doc_processor (snd (enhanced_main.process_query env st request current_user))
     = enhanced_main.doc_processor st /\
   match fst (enhanced_main.process_query env st request current_user) with
   | OK _ => True
   | HTTPError _ _ => snd (enhanced_main.process_query env st request current_user) = st
   end).
Proof.
  split.
  - unfold main_v2.enhanced_query.
    destruct (main_v2.qa_chain st2) as [chain|] eqn:Hchain; [|cbn; auto].
    destruct (chain_run env chain (main_v2.question request2)); cbn; auto.
  - unfold enhanced_main.process_query.
    destruct (enhanced_main.rag_pipeline st) as [pipeline|] eqn:Hp; [|cbn; auto].
    destruct (pipeline_query pipeline _ _); cbn; auto.
Qed.

(** The same over any sequence of queries. *)
Lemma main_v2_queries_frame (calls : list (Env * main_v2.QueryRequest)) (st : main_v2.State) :
  main_v2.vector_store (main_v2_queries st calls) = main_v2.vector_store st /\
  main_v2.qa_chain (main_v2_queries st calls) = main_v2.qa_chain st /\
  main_v2.disk (main_v2_queries st calls) = main_v2.disk st.
Proof.
  unfold main_v2_queries.
  revert st. induction calls as [|[env request] calls IH]; intros st; [done|].
  cbn [fold_left fst snd].
  destruct (IH (snd (main_v2.enhanced_query env st request))) as (-> & -> & ->).
  unfold main_v2.enhanced_query.
  destruct (main_v2.qa_chain st) as [chain|] eqn:Hchain; [|done].
  destruct (chain_run env chain (main_v2.question request)); done.
Qed.
End QueryFrame.

(** ** The query history *)

Section LastN.
Context {A : Type}.
Implicit Types l : list A.

Lemma last_n_all n l : (length l <= n)%nat -> last_n n l = l.
Proof.
  intros Hle. unfold last_n.
  replace (length l - n)%nat with 0%nat by lia. apply drop_0.
Qed.

Lemma length_last_n n l : length (last_n n l) = (length l `min` n)%nat.
Proof. unfold last_n. rewrite length_drop. lia. Qed.

Lemma last_n_app_last_n n l l' : last_n n (last_n n l ++ l') = last_n n (l ++ l').
Proof.
  unfold last_n. rewrite <- (drop_app_le l l') by lia.
  rewrite drop_drop, length_drop, length_app. f_equal. lia.
Qed.

Lemma last_last_n_snoc n l x : (0 < n)%nat -> last (last_n n (l ++ [x])) = Some x.
Proof.
  intros Hn. unfold last_n. rewrite length_app. cbn [length].
  rewrite drop_app_le by lia. apply last_snoc.
Qed.

(** On a list of at most [n] elements, [append] followed by [pop(0)] when
    the length exceeds [n] keeps the last [n]. *)
Lemma pop0_snoc n l x :
  (length l <= n)%nat ->
  (if (n <? length (l ++ [x]))%nat then pop0 (l ++ [x]) else l ++ [x]) = last_n n (l ++ [x]).
Proof.
  intros Hle. unfold last_n, pop0. rewrite length_app. cbn [length].
  destruct (Nat.ltb_spec n (length l + 1)) as [Hlt|Hge].
  - f_equal. lia.
  - replace (length l + 1 - n)%nat with 0%nat by lia. by rewrite drop_0.
Qed.

(** [append] followed by the slice [[-n:]] when the length exceeds [n]
    keeps the last [n], whatever the length was. *)
Lemma slice_snoc n l x :
  (if (n <? length (l ++ [x]))%nat then last_n n (l ++ [x]) else l ++ [x]) = last_n n (l ++ [x]).
Proof.
  destruct (Nat.ltb_spec n (length (l ++ [x]))) as [Hlt|Hge]; [done|].
  by rewrite last_n_all.
Qed.
End LastN.

Section History.
Context `{RAGBackend}.

(** The entry an answered query adds is the one the handler builds from
    the request, the answer and the call's readings; a refused or failed
    query adds none. *)
Lemma main_v2_logged_entry (env : Env) (st : main_v2.State) (request : main_v2.QueryRequest) :
  main_v2_logged st (env, request)
  = match main_v2.qa_chain st with
    | None => []
    | Some chain =>
        match chain_run env chain (main_v2.question request) with
        | Raise _ => []
        | Return result =>
            [main_v2.mkQueryLog (uuid4 env 0) (main_v2.question request) result
               (main_v2.llm_provider request)
               (PrimFloat.sub (time_time env 1) (time_time env 0))
               (isoformat (datetime_now env 0))]
        end
    end.
Proof.
  unfold main_v2_logged. cbn [fst snd]. unfold main_v2.enhanced_query.
  destruct (main_v2.qa_chain st) as [chain|]; [|done].
  destruct (chain_run env chain (main_v2.question request)) as [result|e]; [|done].
  cbn [main_v2.query_logs]. by rewrite slice_snoc, last_last_n_snoc by lia.
Qed.

Lemma enhanced_main_logged_entry (env : Env) (st : enhanced_main.State)
    (request : enhanced_main.QueryRequest) (user : option string) :
  (length (enhanced_main.query_history st) <= 100)%nat ->
  enhanced_main_logged st (env, request, user)
  = match enhanced_main.rag_pipeline st with
    | None => []
    | Some pipeline =>
        match pipeline_query pipeline (enhanced_main.query request)
                (enhanced_main.max_results request) with
        | Raise _ => []
        | Return result =>
            [enhanced_main.mkQueryRecord (enhanced_main.query request)
               (default "" (get_response result)) (isoformat (datetime_now env 2))
               (PrimFloat.sub (timestamp (datetime_now env 1)) (timestamp (datetime_now env 0)))
               user]
        end
    end.
Proof.
  intros Hle. unfold enhanced_main_logged. cbn [fst snd]. unfold enhanced_main.process_query.
  destruct (enhanced_main.rag_pipeline st) as [pipeline|]; [|done].
  destruct (pipeline_query pipeline _ _) as [result|e]; [|done].
  cbn [enhanced_main.query_history]. by rewrite pop0_snoc, last_last_n_snoc by lia.
Qed.

Lemma main_v2_query_logs_step (env : Env) (st : main_v2.State) (request : main_v2.QueryRequest) :
  (length (main_v2.query_logs st) <= 100)%nat ->
  main_v2.query_logs (snd (main_v2.enhanced_query env st request))
    = last_n 100 (main_v2.query_logs st ++ main_v2_logged st (env, request)).
Proof.
  intros Hle. unfold main_v2_logged. cbn [fst snd].
  unfold main_v2.enhanced_query.
  destruct (main_v2.qa_chain st) as [chain|] eqn:Hchain.
  2: { cbn. by rewrite app_nil_r, last_n_all. }
  destruct (chain_run env chain (main_v2.question request)) as [result|e].
  2: { cbn. by rewrite app_nil_r, last_n_all. }
  cbn [fst snd main_v2.query_logs].
  rewrite !slice_snoc, last_last_n_snoc by lia. done.
Qed.

Lemma enhanced_main_history_step (env : Env) (st : enhanced_main.State)
    (request : enhanced_main.QueryRequest) (user : option string) :
  (length (enhanced_main.query_history st) <= 100)%nat ->
  enhanced_main.query_history (snd (enhanced_main.process_query env st request user))
    = last_n 100 (enhanced_main.query_history st ++ enhanced_main_logged st (env, request, user)).
Proof.
  intros Hle. unfold enhanced_main_logged. cbn [fst snd].
  unfold enhanced_main.process_query.
  destruct (enhanced_main.rag_pipeline st) as [pipeline|] eqn:Hp.
  2: { cbn. by rewrite app_nil_r, last_n_all. }
  destruct (pipeline_query pipeline _ _) as [result|e].
  2: { cbn. by rewrite app_nil_r, last_n_all. }
  cbn [fst snd enhanced_main.query_history].
  rewrite !pop0_snoc, last_last_n_snoc by lia. done.
Qed.

Lemma main_v2_history (calls : list (Env * main_v2.QueryRequest)) (st : main_v2.State) :
  (length (main_v2.query_logs st) <= 100)%nat ->
  main_v2.query_logs (main_v2_queries st calls)
    = last_n 100 (main_v2.query_logs st ++ main_v2_produced st calls).
Proof.
  unfold main_v2_queries.
  revert st. induction calls as [|[env request] calls IH]; intros st Hle.
  - cbn. by rewrite app_nil_r, last_n_all.
  - cbn [fold_left main_v2_produced fst snd].
    rewrite IH, main_v2_query_logs_step by
      (try rewrite main_v2_query_logs_step by done; try rewrite length_last_n; lia).
    by rewrite last_n_app_last_n, app_assoc.
Qed.

Lemma enhanced_main_history
    (calls : list (Env * enhanced_main.QueryRequest * option string))
    (st : enhanced_main.State) :
  (length (enhanced_main.query_history st) <= 100)%nat ->
  enhanced_main.query_history (enhanced_main_queries st calls)
    = last_n 100 (enhanced_main.query_history st ++ enhanced_main_produced st calls).
Proof.
  unfold enhanced_main_queries.
  revert st. induction calls as [|[[env request] user] calls IH]; intros st Hle.
  - cbn. by rewrite app_nil_r, last_n_all.
  - cbn [fold_left enhanced_main_produced fst snd].
    rewrite IH, enhanced_main_history_step by
      (try rewrite enhanced_main_history_step by done; try rewrite length_last_n; lia).
    by rewrite last_n_app_last_n, app_assoc.
Qed.

Lemma main_v2_produced_answered (calls : list (Env * main_v2.QueryRequest))
    (st : main_v2.State) :
  main_v2_produced st calls = main_v2_answered (main_v2.qa_chain st) calls.
Proof.
  revert st. induction calls as [|[env request] calls IH]; intros st.
  - cbn. by destruct (main_v2.qa_chain st).
  - cbn [main_v2_produced fst snd]. rewrite main_v2_logged_entry, IH.
    assert (Hchain : main_v2.qa_chain (snd (main_v2.enhanced_query env st request))
                     = main_v2.qa_chain st).
    { unfold main_v2.enhanced_query.
      destruct (main_v2.qa_chain st) as [chain|] eqn:Hqa; [|done].
      by destruct (chain_run env chain (main_v2.question request)). }
    rewrite Hchain. unfold main_v2_answered.
    destruct (main_v2.qa_chain st) as [chain|]; [|done].
    cbn [flat_map fst snd].
    by destruct (chain_run env chain (main_v2.question request)).
Qed.

Lemma enhanced_main_produced_answered
    (calls : list (Env * enhanced_main.QueryRequest * option string))
    (st : enhanced_main.State) :
  (length (enhanced_main.query_history st) <= 100)%nat ->
  enhanced_main_produced st calls
  = enhanced_main_answered (enhanced_main.rag_pipeline st) calls.
Proof.
  revert st. induction calls as [|[[env request] user] calls IH]; intros st Hle.
  - cbn. by destruct (enhanced_main.rag_pipeline st).
  - cbn [enhanced_main_produced fst snd].
    rewrite enhanced_main_logged_entry by done.
    rewrite IH by (rewrite enhanced_main_history_step by done; rewrite length_last_n; lia).
    assert (Hpipeline :
      enhanced_main.rag_pipeline (snd (enhanced_main.process_query env st request user))
      = enhanced_main.rag_pipeline st).
    { unfold enhanced_main.process_query.
      destruct (enhanced_main.rag_pipeline st) as [pipeline|] eqn:Hp; [|done].
      by destruct (pipeline_query pipeline _ _). }
    rewrite Hpipeline. unfold enhanced_main_answered.
    destruct (enhanced_main.rag_pipeline st) as [pipeline|]; [|done].
    cbn [flat_map fst snd].
    by destruct (pipeline_query pipeline _ _).
Qed.

(** C9. From a history of at most 100 records, after any sequence of
    queries the history holds at most 100 records, and they are the last
    100 of the old records followed by one record for each query that was
    answered, in order, built from that query's request, its answer and
    the readings of that call: every answered query is recorded, a failed
    or refused one is not, and what is evicted is the oldest.  This holds
    for [query_logs] of [main_v2.py] (slice [[-100:]]) and for
    [query_history] of [enhanced_main.py] ([pop(0)]). *)
Theorem query_history_keeps_last_100
    (calls2 : list (Env * main_v2.QueryRequest)) (st2 : main_v2.State)
    (calls : list (Env * enhanced_main.QueryRequest * option string))
    (st : enhanced_main.State) :
  (length (main_v2.query_logs st2) <= 100)%nat ->
  (length (enhanced_main.query_history st) <= 100)%nat ->
  ((length (main_v2.query_logs (main_v2_queries st2 calls2)) <= 100)%nat /\
   main_v2.query_logs (main_v2_queries st2 calls2)
     = last_n 100 (main_v2.query_logs st2
                     ++ main_v2_answered (main_v2.qa_chain st2) calls2)) /\
  ((length (enhanced_main.query_history (enhanced_main_queries st calls)) <= 100)%nat /\
   enhanced_main.query_history (enhanced_main_queries st calls)
     = last_n 100 (enhanced_main.query_history st
                     ++ enhanced_main_answered (enhanced_main.rag_pipeline st) calls)).
Proof.
  intros Hle2 Hle.
  rewrite main_v2_history, enhanced_main_history by done.
  rewrite main_v2_produced_answered, enhanced_main_produced_answered by done.
  rewrite !length_last_n. repeat split; lia.
Qed.
End History.

Lemma query_history_keeps_last_100_full :
  (length (main_v2.query_logs Fixtures.ready_full) <= 100)%nat /\
  (length (@enhanced_main.query_history Fixtures.backend Fixtures.serving_full) <= 100)%nat /\
  main_v2.query_logs
    (main_v2_queries Fixtures.ready_full
       [(Fixtures.world, Fixtures.ask2 "first"); (Fixtures.world, Fixtures.ask2 "second")])
  = last_n 100
      (main_v2.query_logs Fixtures.ready_full
         ++ [main_v2_query_entry (Fixtures.world, Fixtures.ask2 "first") "answer to first";
             main_v2_query_entry (Fixtures.world, Fixtures.ask2 "second") "answer to second"]) /\
  @enhanced_main.query_history Fixtures.backend
    (@enhanced_main_queries Fixtures.backend Fixtures.serving_full
       [(Fixtures.world, Fixtures.ask "first", None)])
  = last_n 100
      (@enhanced_main.query_history Fixtures.backend Fixtures.serving_full
         ++ [enhanced_main_query_record (Fixtures.world, Fixtures.ask "first", None)
               (mkRagResult (Some "answer to first") (Some []))]).
Proof.
  assert (Hfull2 : (length (main_v2.query_logs Fixtures.ready_full) <= 100)%nat)
    by (vm_compute; lia).
  assert (Hfull : (length (@enhanced_main.query_history Fixtures.backend Fixtures.serving_full)
                   <= 100)%nat)
    by (vm_compute; lia).
  destruct (@query_history_keeps_last_100 Fixtures.backend
              [(Fixtures.world, Fixtures.ask2 "first"); (Fixtures.world, Fixtures.ask2 "second")]
              Fixtures.ready_full
              [(Fixtures.world, Fixtures.ask "first", None)]
              Fixtures.serving_full Hfull2 Hfull) as [[_ Hlogs] [_ Hhistory]].
  split; [exact Hfull2|]. split; [exact Hfull|]. split; [exact Hlogs|exact Hhistory].
Defined.

(** On a full log, two answered queries evict the two oldest entries and
    stand last, in their order. *)
Example full_log_evicts_oldest :
  map main_v2.log_question
    (main_v2.query_logs
       (main_v2_queries Fixtures.ready_full
          [(Fixtures.world, Fixtures.ask2 "first"); (Fixtures.world, Fixtures.ask2 "second")]))
  = replicate 98 "old question" ++ ["first"; "second"].
Proof. vm_compute. reflexivity. Qed.

(** ** Batch ingestion *)

Section Batch.
Context `{Langchain}.

Lemma load_loop_outcomes (doc_dir : string) (entries : list (string * bytes))
    (docs : list Document) (stdout : list string) :
  enhanced_ingest.load_loop doc_dir entries docs stdout
  = (docs ++ flat_map (fun entry => documents_of (attempt doc_dir entry)) entries,
     stdout ++ flat_map (fun entry => report_of (fst entry) (attempt doc_dir entry)) entries).
Proof.
  revert docs stdout.
  induction entries as [|[fname content] entries IH]; intros docs stdout; cbn [flat_map].
  - by rewrite !app_nil_r.
  - cbn [enhanced_ingest.load_loop]. unfold attempt at 1 3. cbn [fst snd].
    destruct (enhanced_ingest.select_loader fname) as [loader|].
    + destruct (loader_load loader (path_join doc_dir fname) content) as [documents|e];
        rewrite IH; cbn [documents_of report_of]; by rewrite ?app_nil_l, ?app_assoc.
    + rewrite IH. done.
Qed.

Lemma ingest_documents_outcomes
    (self : enhanced_ingest.EnhancedDocumentIngestor) (fs : filesystem)
    (doc_dir : string) (dir : directory) (now : nat -> string) :
  fs !! doc_dir = Some dir ->
  enhanced_ingest.ingest_documents self fs doc_dir now
  = Return
      (enhanced_ingest.add_metadata now 0
         (split_documents (enhanced_ingest.splitter self)
            (flat_map (fun entry => documents_of (attempt doc_dir entry)) (map_to_list dir))),
       flat_map (fun entry => report_of (fst entry) (attempt doc_dir entry)) (map_to_list dir)).
Proof.
  intros Hdir. unfold enhanced_ingest.ingest_documents, listdir. rewrite Hdir. cbn [bind].
  by rewrite load_loop_outcomes.
Qed.

End Batch.


(** The batch of three files of which one is corrupt: chunks of the two
    good files, one reported error. *)
Example three_files_one_corrupt :
  match @enhanced_ingest.ingest_documents Fixtures.library enhanced_ingest.__init__
          Fixtures.batch "docs" Fixtures.clock with
  | Return (chunks, stdout) => (map page_content chunks, stdout)
  | Raise _ => ([], [])
  end
  = (["gamma"; "alpha"], ["Error loading b.pdf: EOF marker not found"]).
Proof. vm_compute. reflexivity. Qed.


(** [ingest.py] has no [try] around its loader: one unreadable PDF and the
    call raises, the good file's pages with it. *)
Example ingest_documents_raises_on_unreadable_pdf :
  @ingest.ingest_documents Fixtures.library Fixtures.two_pdfs "docs"
  = Raise (Exception "EOF marker not found").
Proof. vm_compute. reflexivity. Qed.

(** ** Restoring a persisted store *)

Section Restore.
Context `{Langchain}.

Lemma load_local_unusable (fs : filesystem) (folder : string) :
  unusable fs folder <-> exists e, load_local fs folder = Raise e.
Proof.
  unfold load_local. split.
  - intros [Hnone | dir Hdir [Hf|Hp] | dir faiss_bytes pkl_bytes e Hdir Hf Hp Hload].
    + rewrite Hnone. eauto.
    + rewrite Hdir, Hf. eauto.
    + rewrite Hdir, Hp. destruct (dir !! "index.faiss"); eauto.
    + rewrite Hdir, Hf, Hp, Hload. eauto.
  - intros [e He].
    destruct (fs !! folder) as [dir|] eqn:Hdir; [|by apply missing_folder].
    destruct (dir !! "index.faiss") as [faiss_bytes|] eqn:Hf;
      [|apply (missing_file _ _ dir); auto].
    destruct (dir !! "index.pkl") as [pkl_bytes|] eqn:Hp;
      [|apply (missing_file _ _ dir); auto].
    by apply (corrupt _ _ dir faiss_bytes pkl_bytes e).
Qed.

(** C4, as the code has it. When the persisted location is missing or
    corrupt, [load_vector_store] raises nothing: it returns [None]. *)
Theorem load_vector_store_failure_is_None
    (self : enhanced_rag_pipeline.EnhancedRAGPipeline) (fs : filesystem) :
  unusable fs "./vector_store" ->
  enhanced_rag_pipeline.load_vector_store self fs = Return None /\
  (forall e, enhanced_rag_pipeline.load_vector_store self fs <> Raise e).
Proof.
  intros [e He]%load_local_unusable.
  unfold enhanced_rag_pipeline.load_vector_store. rewrite He. split; [done|].
  intros e'. discriminate.
Qed.

(** [None] is returned in no other case, and the call never raises. *)
Lemma load_vector_store_None_only_on_failure
    (self : enhanced_rag_pipeline.EnhancedRAGPipeline) (fs : filesystem) :
  (enhanced_rag_pipeline.load_vector_store self fs = Return None -> unusable fs "./vector_store") /\
  (exists found, enhanced_rag_pipeline.load_vector_store self fs = Return found).
Proof.
  unfold enhanced_rag_pipeline.load_vector_store. split.
  - intros Hnone. apply load_local_unusable.
    destruct (load_local fs "./vector_store") as [vs|e]; [discriminate|eauto].
  - destruct (load_local fs "./vector_store"); eauto.
Qed.

(** A store that was persisted and whose bytes deserialize is restored. *)
Lemma load_vector_store_after_save
    (self : enhanced_rag_pipeline.EnhancedRAGPipeline) (fs : filesystem) (vs : FAISS) :
  faiss_load (fst (faiss_dump vs)) (snd (faiss_dump vs)) = Return vs ->
  enhanced_rag_pipeline.load_vector_store self (save_local fs "./vector_store" vs) = Return (Some vs).
Proof.
  intros Hround.
  unfold enhanced_rag_pipeline.load_vector_store, load_local, save_local.
  destruct (faiss_dump vs) as [faiss_bytes pkl_bytes]. cbn [fst snd] in Hround.
  rewrite lookup_insert_eq.
  rewrite lookup_insert_ne, lookup_insert_eq by done.
  rewrite lookup_insert_eq. by rewrite Hround.
Qed.
End Restore.

Lemma load_vector_store_corrupt_store :
  @unusable Fixtures.library Fixtures.corrupt_store "./vector_store" /\
  @enhanced_rag_pipeline.load_vector_store Fixtures.library Fixtures.pipeline
    Fixtures.corrupt_store = Return None.
Proof.
  assert (Hbad : @unusable Fixtures.library Fixtures.corrupt_store "./vector_store").
  { apply (@corrupt Fixtures.library _ _
             {[ "index.faiss" := []; "index.pkl" := list_byte_of_string "pkl" ]}
             [] (list_byte_of_string "pkl") (Exception "Error in faiss::read_index"));
      reflexivity. }
  split; [exact Hbad|].
  apply (@load_vector_store_failure_is_None Fixtures.library Fixtures.pipeline
           Fixtures.corrupt_store Hbad).
Defined.

(** C4 as stated fails: nothing was ever persisted, and the restore
    neither raises nor fails in any other way; it returns [None]. *)
Lemma load_vector_store_missing_returns_None :
  (∅ : filesystem) !! "./vector_store" = None /\
  @enhanced_rag_pipeline.load_vector_store Fixtures.library Fixtures.pipeline ∅ = Return None.
Proof. split; reflexivity. Qed.

(** ** Request validation *)

Section Validation.
Context `{RAGBackend}.

Lemma within_bounds (lo hi z : Z) : within (Some lo) (Some hi) z = true <-> lo <= z <= hi.
Proof. unfold within. rewrite andb_true_iff, !Z.leb_le. done. Qed.

(** The feedback endpoint of [enhanced_main.py] hands the handler only
    ratings from 1 to 5; any other body is answered 422 and changes
    nothing. *)
Lemma enhanced_main_feedback_rating_checked
    (env : Env) (st : enhanced_main.State) (b : body) (user : option string) :
  match enhanced_main.FeedbackRequest_validate b with
  | Some feedback =>
      1 <= enhanced_main.rating feedback <= 5 /\
      b !! "rating" = Some (JInt (enhanced_main.rating feedback)) /\
      enhanced_main.post_feedback env st b user = enhanced_main.submit_feedback env st feedback user
  | None => enhanced_main.post_feedback env st b user = (unprocessable, st)
  end.
Proof.
  unfold enhanced_main.post_feedback, enhanced_main.FeedbackRequest_validate.
  destruct (required_str b "query" None None) as [q|]; [|done].
  destruct (required_str b "response" None None) as [r|]; [|done].
  cbn [mbind option_bind]. unfold required_int.
  destruct (b !! "rating") as [[| | z | |]|] eqn:Hrating; try done.
  destruct (within (Some 1) (Some 5) z) eqn:Hin; [|done].
  apply within_bounds in Hin.
  destruct (optional_str b "comment" None) as [c|]; done.
Qed.

Lemma enhanced_main_feedback_rating_rejected
    (env : Env) (st : enhanced_main.State) (b : body) (user : option string) (z : Z) :
  b !! "rating" = Some (JInt z) ->
  ~ (1 <= z <= 5) ->
  enhanced_main.post_feedback env st b user = (unprocessable, st).
Proof.
  intros Hrating Hout.
  pose proof (enhanced_main_feedback_rating_checked env st b user) as Hchecked.
  destruct (enhanced_main.FeedbackRequest_validate b) as [feedback|]; [|done].
  destruct Hchecked as (Hin & Hz & _). rewrite Hrating in Hz. by simplify_eq.
Qed.

End Validation.



(** ** Feedback ratings *)

(** C7 fails on [main_v2.py], whose [UserFeedback] declares [rating: int]
    with the range only in a comment: a rating of 7 is accepted and
    appended to [feedback_data]. *)
Lemma main_v2_feedback_rating_unchecked :
  match main_v2.post_feedback Fixtures.world (main_v2.startup Fixtures.empty_docs)
          {[ "query_id" := JStr "id0"; "rating" := JInt 7 ]} with
  | (OK received, st') =>
      main_v2.received_status received = "feedback_received" /\
      map main_v2.entry_rating (main_v2.feedback_data st') = [7]
  | (HTTPError _ _, _) => False
  end.
Proof. vm_compute. split; reflexivity. Qed.

(** The same body, completed with the fields [enhanced_main.py] requires,
    is refused there. *)
Example enhanced_main_feedback_rating_7_refused :
  @enhanced_main.post_feedback Fixtures.backend Fixtures.world Fixtures.serving_full
    {[ "query" := JStr "q"; "response" := JStr "r"; "rating" := JInt 7 ]} None
  = (unprocessable, Fixtures.serving_full).
Proof. vm_compute. reflexivity. Qed.

(** ** Ingestion rebuilds the store *)

Section Ingest.
Context `{Langchain}.




Lemma from_documents_docstore (docs : list Document) (vs : FAISS) :
  from_documents docs = Return vs -> docstore vs = docs.
Proof.
  unfold from_documents.
  destruct (embed_documents (map page_content docs)) as [[|v vectors]|e]; cbn [bind];
    [discriminate| |discriminate].
  by intros [= <-].
Qed.

(** The pages of every file of the directory are among those split. *)
Lemma pdf_pages_included (doc_dir : string) (dir : directory) (name : string) (content : bytes) :
  dir !! name = Some content ->
  pdf_pages doc_dir (name, content) ⊆ flat_map (pdf_pages doc_dir) (map_to_list dir).
Proof.
  intros Hin d Hd. apply list_elem_of_In, in_flat_map. exists (name, content). split.
  - by apply list_elem_of_In, elem_of_map_to_list.
  - by apply list_elem_of_In.
Qed.




End Ingest.


(** After [a.pdf], ingesting [b.pdf] leaves a store holding the chunks of
    both files. *)
Example ingest_second_pdf_store :
  match @main.ingest Fixtures.library Fixtures.after_a (Fixtures.upload "b.pdf" "beta") with
  | (OK _, st') => option_map (fun vs => map page_content (docstore vs)) (main.vector_store st')
  | (HTTPError _ _, _) => None
  end
  = Some ["alpha"; "beta"].
Proof. vm_compute. reflexivity. Qed.


(** The same upload to [main.py]: the file is saved, building a store from
    no chunk raises, and the server answers 500 with no store. *)
Example main_ingest_text_file_fails :
  match @main.ingest Fixtures.library (main.startup Fixtures.empty_docs)
          (Fixtures.upload "notes.txt" "remember") with
  | (HTTPError c _, st') =>
      c = 500 /\
      stored (main.disk st') "notes.txt" = Some (list_byte_of_string "remember") /\
      main.vector_store st' = None
  | (OK _, _) => False
  end.
Proof. vm_compute. repeat split; reflexivity. Qed.

(** ** The splitter *)

Section WindowFacts.
Context {A : Type}.
Variables size step overlap : nat.
Hypothesis overlap_pos : (0 < overlap)%nat.
Hypothesis step_pos : (0 < step)%nat.
Hypothesis size_eq : size = (step + overlap)%nat.
Implicit Types text : list A.

Lemma windows_head fuel text :
  Splitter.windows (S fuel) size step text
  = take size text
      :: (if (length text <=? size)%nat then []
          else Splitter.windows fuel size step (drop step text)).
Proof.
  cbn [Splitter.windows].
  destruct (Nat.leb_spec (length text) size) as [Hle|Hgt]; [|done].
  by rewrite take_ge.
Qed.

Lemma windows_nonempty fuel text :
  text <> [] -> Forall (fun c => c <> []) (Splitter.windows fuel size step text).
Proof.
  revert text. induction fuel as [|fuel IH]; intros text Htext; [constructor|].
  cbn [Splitter.windows].
  destruct (Nat.leb_spec (length text) size) as [Hle|Hgt].
  - by repeat constructor.
  - constructor.
    + intros Hnil%(f_equal length). rewrite length_take in Hnil. cbn in Hnil. lia.
    + apply IH. intros Hnil%(f_equal length). rewrite length_drop in Hnil. cbn in Hnil. lia.
Qed.

Lemma windows_bounded fuel text :
  Forall (fun c => (length c <= size)%nat) (Splitter.windows fuel size step text).
Proof using Type.
  revert text. induction fuel as [|fuel IH]; intros text; [constructor|].
  cbn [Splitter.windows].
  destruct (Nat.leb_spec (length text) size) as [Hle|Hgt].
  - by repeat constructor.
  - constructor; [rewrite length_take; apply Nat.le_min_l | apply IH].
Qed.

(** Without their overlaps, the windows of a text give the text without
    its first [overlap] characters. *)
Lemma windows_tails fuel text :
  (length text <= fuel)%nat ->
  concat (map (drop overlap) (Splitter.windows fuel size step text)) = drop overlap text.
Proof.
  revert text. induction fuel as [|fuel IH]; intros text Hfuel.
  - destruct text; [by rewrite drop_nil | cbn in Hfuel; lia].
  - cbn [Splitter.windows].
    destruct (Nat.leb_spec (length text) size) as [Hle|Hgt]; cbn [map concat].
    + apply app_nil_r.
    + rewrite IH by (rewrite length_drop; lia).
      rewrite drop_drop. replace (step + overlap)%nat with size by done.
      apply drop_take_drop. lia.
Qed.

Lemma windows_strip fuel text :
  (length text <= fuel)%nat ->
  Splitter.strip_overlaps overlap (Splitter.windows fuel size step text) = text.
Proof.
  intros Hfuel. destruct fuel as [|fuel].
  - destruct text; [done | cbn in Hfuel; lia].
  - cbn [Splitter.windows].
    destruct (Nat.leb_spec (length text) size) as [Hle|Hgt]; cbn [Splitter.strip_overlaps map concat].
    + apply app_nil_r.
    + rewrite windows_tails by (rewrite length_drop; lia).
      rewrite drop_drop. replace (step + overlap)%nat with size by done.
      apply take_drop.
Qed.

Lemma windows_chained fuel text :
  (length text <= fuel)%nat ->
  Splitter.chained overlap (Splitter.windows fuel size step text).
Proof.
  revert text. induction fuel as [|fuel IH]; intros text Hfuel; [done|].
  cbn [Splitter.windows].
  destruct (Nat.leb_spec (length text) size) as [Hle|Hgt]; [done|].
  assert (Hrest : (length (drop step text) <= fuel)%nat) by (rewrite length_drop; lia).
  specialize (IH _ Hrest).
  destruct fuel as [|fuel]; [rewrite length_drop in Hrest; lia|].
  rewrite windows_head in IH |- *.
  cbn [Splitter.chained]. split; [|exact IH].
  unfold Splitter.shares. rewrite !length_take, length_drop.
  split; [lia|]. split; [lia|].
  replace (length text `min` size)%nat with size by lia.
  rewrite take_take. replace (overlap `min` size)%nat with overlap by lia.
  rewrite skipn_firstn_comm. f_equal; [lia|]. f_equal. lia.
Qed.
End WindowFacts.

(** C6. For valid parameters the splitter accepts every text; its chunks
    are non-empty and at most [chunk_size] long, each chunk after the
    first begins with the last [overlap] characters of its predecessor, and
    the chunks concatenated with those overlaps removed are the text. *)
Theorem split_reconstructs_text (text : list ascii) (chunk_size overlap : Z) :
  0 < overlap < chunk_size ->
  exists chunks,
    Splitter.split text chunk_size overlap = Return chunks /\
    Forall (fun c => c <> [] /\ Z.of_nat (length c) <= chunk_size) chunks /\
    Splitter.chained (Z.to_nat overlap) chunks /\
    Splitter.strip_overlaps (Z.to_nat overlap) chunks = text.
Proof.
  intros Hvalid. unfold Splitter.split.
  replace ((0 <? overlap) && (overlap <? chunk_size)) with true
    by (symmetry; apply andb_true_iff; split; apply Z.ltb_lt; lia).
  eexists. split; [reflexivity|].
  assert (Hsize : Z.to_nat chunk_size
                  = (Z.to_nat (chunk_size - overlap) + Z.to_nat overlap)%nat) by lia.
  split; [|split].
  - apply Forall_and. split.
    + destruct text as [|c text]; [constructor|].
      apply windows_nonempty with (overlap := Z.to_nat overlap); try done; lia.
    + eapply Forall_impl; [apply windows_bounded|]. cbn. lia.
  - apply windows_chained; try done; lia.
  - apply windows_strip with (step := Z.to_nat (chunk_size - overlap)); try done; lia.
Qed.

Lemma split_overlapping_chunks :
  0 < 1 < 4 /\
  (exists chunks,
     Splitter.split (list_ascii_of_string "abcdefghij") 4 1 = Return chunks /\
     chunks = map list_ascii_of_string ["abcd"; "defg"; "ghij"] /\
     Forall (fun c => c <> [] /\ Z.of_nat (length c) <= 4) chunks /\
     Splitter.chained (Z.to_nat 1) chunks /\
     Splitter.strip_overlaps (Z.to_nat 1) chunks = list_ascii_of_string "abcdefghij") /\
  0 < 50 < 500 /\
  (exists chunks,
     Splitter.split (concat (replicate 100 (list_ascii_of_string "0123456789"))) 500 50
       = Return chunks /\
     map length chunks = [500; 500; 100]%nat /\
     Forall (fun c => c <> [] /\ Z.of_nat (length c) <= 500) chunks /\
     Splitter.chained (Z.to_nat 50) chunks /\
     Splitter.strip_overlaps (Z.to_nat 50) chunks
       = concat (replicate 100 (list_ascii_of_string "0123456789"))).
Proof.
  split; [lia|]. split; [|split; [lia|]].
  - destruct (split_reconstructs_text (list_ascii_of_string "abcdefghij") 4 1)
      as (chunks & Hsplit & Hsizes & Hchained & Hstrip); [lia|].
    exists chunks. split; [exact Hsplit|]. split; [|by repeat split].
    vm_compute in Hsplit. by injection Hsplit as <-.
  - destruct (split_reconstructs_text
                (concat (replicate 100 (list_ascii_of_string "0123456789"))) 500 50)
      as (chunks & Hsplit & Hsizes & Hchained & Hstrip); [lia|].
    exists chunks. split; [exact Hsplit|]. split; [|by repeat split].
    vm_compute in Hsplit. by injection Hsplit as <-.
Defined.

(** Ten characters in windows of four that overlap by one. *)
Example split_ten_characters :
  Splitter.split (list_ascii_of_string "abcdefghij") 4 1
  = Return (map list_ascii_of_string ["abcd"; "defg"; "ghij"]).
Proof. reflexivity. Qed.

(** An overlap that is not smaller than the chunk size is refused. *)
Lemma split_rejects_invalid (text : list ascii) (chunk_size overlap : Z) :
  chunk_size <= overlap -> Splitter.split text chunk_size overlap = Raise Splitter.ConfigurationError.
Proof.
  intros Hge. unfold Splitter.split.
  replace (overlap <? chunk_size) with false by (symmetry; apply Z.ltb_ge; lia).
  by rewrite andb_false_r.
Qed.

(** Both splitters the backend configures have valid parameters. *)
Lemma configured_splitters_valid :
  0 < 50 < 500 /\
  0 < chunk_overlap (enhanced_ingest.splitter enhanced_ingest.__init__)
    < chunk_size (enhanced_ingest.splitter enhanced_ingest.__init__).
Proof. cbn. lia. Qed.

(** ** Search *)

Section Search.
Variable embed : string -> Vector.

Lemma pick_length (f : VectorIndex.record -> float) (r : VectorIndex.record)
    (rest : list VectorIndex.record) :
  length (snd (VectorIndex.pick f r rest)) = length rest.
Proof.
  revert r. induction rest as [|r' rest IH]; intros r; [done|].
  cbn [VectorIndex.pick].
  destruct (PrimFloat.ltb (f r') (f r)).
  - specialize (IH r'). destruct (VectorIndex.pick f r' rest). cbn in *. by rewrite IH.
  - specialize (IH r). destruct (VectorIndex.pick f r rest). cbn in *. by rewrite IH.
Qed.

Lemma take_nearest_length
    (cost : list (VectorIndex.record * float) -> VectorIndex.record -> float)
    (distance : VectorIndex.record -> float) (k : nat)
    (taken : list (VectorIndex.record * float)) (candidates : list VectorIndex.record) :
  length (VectorIndex.take_nearest cost distance k taken candidates)
  = (length taken + k `min` length candidates)%nat.
Proof.
  revert taken candidates. induction k as [|k IH]; intros taken candidates.
  - cbn. lia.
  - destruct candidates as [|r rest]; [cbn; lia|].
    cbn [VectorIndex.take_nearest].
    pose proof (pick_length (cost taken) r rest) as Hpick.
    destruct (VectorIndex.pick (cost taken) r rest) as [best others].
    cbn [snd] in Hpick. rewrite IH, length_app, Hpick. cbn [length]. lia.
Qed.

Lemma search_length (vs : FAISS) (q : string) (k : Z) (t : VectorIndex.SearchType) :
  length (VectorIndex.search embed vs q k t)
  = (Z.to_nat k `min` length (VectorIndex.records vs))%nat.
Proof. unfold VectorIndex.search. cbn zeta. by rewrite length_map, take_nearest_length. Qed.

(** C3. For every query text and every [k >= 1], [search] over a store of
    [n] records returns exactly [min(k, n)] results, under either search
    type; this is what the retriever of a chain built by
    [EnhancedRAGPipeline.get_qa_chain] with that [k] returns, and, with
    [k = 4], the retriever of a chain built by [get_qa_chain] of
    [rag_pipeline.py]. *)
Theorem search_returns_min_k_n
    (self : enhanced_rag_pipeline.EnhancedRAGPipeline) (vs : FAISS) (q : string) (k : Z)
    (t : VectorIndex.SearchType) :
  1 <= k ->
  Z.of_nat (length (VectorIndex.search embed vs q k t))
    = Z.min k (Z.of_nat (length (VectorIndex.records vs))) /\
  VectorIndex.retrieve embed
    (retriever (enhanced_rag_pipeline.get_qa_chain self vs (VectorIndex.search_type_name t) k)) q
    = Return (VectorIndex.search embed vs q k t) /\
  VectorIndex.retrieve embed (retriever (rag_pipeline.get_qa_chain vs)) q
    = Return (VectorIndex.search embed vs q 4 VectorIndex.similarity) /\
  Z.of_nat (length (VectorIndex.search embed vs q 4 VectorIndex.similarity))
    = Z.min 4 (Z.of_nat (length (VectorIndex.records vs))).
Proof.
  intros Hk. rewrite !search_length. repeat split; try lia.
  destruct t; reflexivity.
Qed.
End Search.

Lemma search_two_of_three :
  1 <= 2 /\
  Z.of_nat (length (VectorIndex.search Fixtures.embed Fixtures.three_chunks
                      "What is the capital of France?" 2 VectorIndex.mmr))
    = Z.min 2 (Z.of_nat (length (VectorIndex.records Fixtures.three_chunks))).
Proof.
  split; [lia|].
  apply (search_returns_min_k_n Fixtures.embed Fixtures.pipeline Fixtures.three_chunks
           "What is the capital of France?" 2 VectorIndex.mmr).
  lia.
Defined.

(** Nearest first: the question has 30 characters, the three chunks 31, 4
    and 21. *)
Example search_nearest_first :
  map (fun r => page_content (fst r))
    (VectorIndex.search Fixtures.embed Fixtures.three_chunks
       "What is the capital of France?" 5 VectorIndex.similarity)
  = ["Paris is the capital of France."; "Berlin is the capital"; "Rome"].
Proof. vm_compute. reflexivity. Qed.

(** * Further properties *)

Set Warnings "-clear-no-such-hyp".

(** ** The providers [main_v2.py] reports *)

(** X1. [get_available_llm_providers] never returns an empty list and
    never lists a provider twice.  It lists [anthropic] and [google]
    exactly when their API key is set to a non-empty value; it lists
    [openai] when its key is set and also when no key at all is set. *)
Theorem providers_listed (environ : gmap string string) :
  main_v2.get_available_llm_providers environ <> [] /\
  NoDup (main_v2.get_available_llm_providers environ) /\
  ("anthropic" ∈ main_v2.get_available_llm_providers environ
     <-> main_v2.getenv_set environ "ANTHROPIC_API_KEY" = true) /\
  ("google" ∈ main_v2.get_available_llm_providers environ
     <-> main_v2.getenv_set environ "GOOGLE_API_KEY" = true) /\
  ("openai" ∈ main_v2.get_available_llm_providers environ
     <-> main_v2.getenv_set environ "OPENAI_API_KEY" = true \/
         (main_v2.getenv_set environ "ANTHROPIC_API_KEY" = false /\
          main_v2.getenv_set environ "GOOGLE_API_KEY" = false)) /\
  (forall provider, provider ∈ main_v2.get_available_llm_providers environ ->
                    provider ∈ ["openai"; "anthropic"; "google"]).
Proof.
  unfold main_v2.get_available_llm_providers.
  destruct (main_v2.getenv_set environ "OPENAI_API_KEY"),
           (main_v2.getenv_set environ "ANTHROPIC_API_KEY"),
           (main_v2.getenv_set environ "GOOGLE_API_KEY"); cbn;
    (split; [done|]);
    (split; [repeat constructor; rewrite ?elem_of_cons, ?elem_of_nil; naive_solver|]);
    rewrite ?elem_of_cons, ?elem_of_nil; repeat split;
    try (intros provider; rewrite ?elem_of_cons, ?elem_of_nil); naive_solver.
Qed.

(** A key set to the empty string counts as not set. *)
Example providers_empty_key :
  main_v2.get_available_llm_providers
    {[ "OPENAI_API_KEY" := ""; "GOOGLE_API_KEY" := "g-key" ]} = ["google"].
Proof. reflexivity. Qed.

(** ** The states [main_v2.py] reaches *)

Section MainV2Reach.
Context `{Langchain} `{PyNumbers}.

Lemma from_documents_fixed (docs : list Document) (vs : FAISS) :
  from_documents docs = Return vs -> from_documents (docstore vs) = Return vs.
Proof.
  intros Hbuild. by rewrite (from_documents_docstore _ _ Hbuild).
Qed.

Lemma enhanced_query_kept (env : Env) (st : main_v2.State) (request : main_v2.QueryRequest) :
  main_v2_kept st -> main_v2_kept (snd (main_v2.enhanced_query env st request)).
Proof.
  intros Hkept. unfold main_v2.enhanced_query.
  destruct (main_v2.qa_chain st) as [chain|] eqn:Hqa; [|exact Hkept].
  destruct (chain_run env chain (main_v2.question request)) as [result|e]; [|exact Hkept].
  destruct Hkept as (Hchain & Hstore & Hlogs & Hfeedback).
  cbn [snd]. unfold main_v2_kept.
  cbn [main_v2.query_logs main_v2.qa_chain main_v2.vector_store main_v2.feedback_data].
  split; [by rewrite <- Hqa|]. split; [done|]. split; [|done].
  rewrite slice_snoc, length_last_n. lia.
Qed.

Lemma submit_feedback_kept (env : Env) (st : main_v2.State) (feedback : main_v2.UserFeedback) :
  main_v2_kept st -> main_v2_kept (snd (main_v2.submit_feedback env st feedback)).
Proof.
  intros (Hchain & Hstore & Hlogs & Hfeedback). unfold main_v2.submit_feedback.
  cbn [snd]. unfold main_v2_kept.
  cbn [main_v2.query_logs main_v2.qa_chain main_v2.vector_store main_v2.feedback_data].
  split; [done|]. split; [done|]. split; [done|].
  rewrite slice_snoc, length_last_n. lia.
Qed.

Lemma enhanced_ingest_kept (env : Env) (st : main_v2.State) (files : list UploadFile.t) :
  main_v2_kept st -> main_v2_kept (snd (main_v2.enhanced_ingest env st files)).
Proof.
  intros Hkept. unfold main_v2.enhanced_ingest.
  destruct (main_v2.save_files env 0 files (main_v2.disk st) []) as [[fs results]|e];
    [|exact Hkept].
  destruct (ingest.ingest_documents fs "docs") as [[|doc docs]|e];
    [exact Hkept| |exact Hkept].
  destruct (rag_pipeline.build_vector_store (doc :: docs)) as [vs|e] eqn:Hbuild;
    [|exact Hkept].
  destruct Hkept as (Hchain & Hstore & Hlogs & Hfeedback).
  cbn [snd]. unfold main_v2_kept.
  cbn [main_v2.query_logs main_v2.qa_chain main_v2.vector_store main_v2.feedback_data].
  split; [done|]. split; [|done].
  intros vs' [= <-]. split.
  - by rewrite (from_documents_docstore _ _ Hbuild).
  - by eapply from_documents_fixed.
Qed.

Lemma serve_kept (env : Env) (st : main_v2.State) (call : main_v2.Call) :
  main_v2_kept st -> main_v2_kept (main_v2.serve env st call).
Proof.
  intros Hkept. destruct call as [files|b|b|file|q]; cbn [main_v2.serve].
  - by apply enhanced_ingest_kept.
  - unfold main_v2.post_query. destruct (main_v2.QueryRequest_validate b); [|done].
    by apply enhanced_query_kept.
  - unfold main_v2.post_feedback. destruct (main_v2.UserFeedback_validate b); [|done].
    by apply submit_feedback_kept.
  - unfold main_v2.ingest.
    pose proof (enhanced_ingest_kept env st [file] Hkept) as Hnext.
    by destruct (main_v2.enhanced_ingest env st [file]) as [[body|c d] st'].
  - unfold main_v2.query.
    pose proof (enhanced_query_kept env st
                  (main_v2.mkQueryRequest q (Some "openai") (Some "similarity") (Some 4)) Hkept)
      as Hnext.
    by destruct (main_v2.enhanced_query env st _) as [[body|c d] st'].
Qed.

(** X2. Whatever requests a [main_v2] server has answered since it
    started (ingests, queries, feedback, on the v2 and the v1 routes),
    its chain is the chain built over its current store (both unset, or
    both set), a store that is set holds at least one document and is the
    embedding of the documents it holds, and the query log and the
    feedback log hold at most 100 entries each.  So [/v2/health/] reports
    [vector_store_ready] and [qa_chain_ready] alike, and [/v2/analytics/]
    never reports more than 100 queries. *)
Theorem main_v2_reachable_state
    (fs : filesystem) (calls : list (Env * main_v2.Call))
    (env : Env) (environ : gmap string string) :
  main_v2_kept (main_v2_serve_all (main_v2.startup fs) calls) /\
  main_v2.vector_store_ready
    (main_v2.health_check env environ (main_v2_serve_all (main_v2.startup fs) calls))
  = main_v2.qa_chain_ready
      (main_v2.health_check env environ (main_v2_serve_all (main_v2.startup fs) calls)) /\
  main_v2.total_queries (main_v2.get_analytics (main_v2_serve_all (main_v2.startup fs) calls))
    <= 100.
Proof.
  assert (Hkept : main_v2_kept (main_v2_serve_all (main_v2.startup fs) calls)).
  { unfold main_v2_serve_all.
    assert (Hstart : main_v2_kept (main_v2.startup fs)).
    { repeat split; cbn; try done; lia. }
    revert Hstart. generalize (main_v2.startup fs).
    induction calls as [|[env' call] calls IH]; intros st Hst; [done|].
    cbn [fold_left fst snd]. by apply IH, serve_kept. }
  split; [exact Hkept|].
  destruct Hkept as (Hchain & _ & Hlogs & _). split.
  - cbn. rewrite Hchain. by destruct (main_v2.vector_store _).
  - cbn. lia.
Qed.
End MainV2Reach.

(** ** The feedback log of [main_v2.py] *)

Lemma submit_feedback_appends (env : Env) (st : main_v2.State) (feedback : main_v2.UserFeedback) :
  main_v2.feedback_data (snd (main_v2.submit_feedback env st feedback))
  = last_n 100 (main_v2.feedback_data st ++ [main_v2_feedback_entry (env, feedback)]).
Proof. unfold main_v2.submit_feedback. cbn [snd main_v2.feedback_data]. apply slice_snoc. Qed.

(** X3. From a feedback log of at most 100 entries, after any sequence of
    calls to [submit_feedback] of [main_v2.py] the log holds the last 100
    of the old entries followed by one entry per submission, in order,
    each with the query id, rating and comment as submitted; the store,
    the chain and the query log are untouched. *)
Theorem main_v2_feedback_log
    (submissions : list (Env * main_v2.UserFeedback)) (st : main_v2.State) :
  (length (main_v2.feedback_data st) <= 100)%nat ->
  main_v2.feedback_data (main_v2_feedbacks st submissions)
    = last_n 100 (main_v2.feedback_data st ++ map main_v2_feedback_entry submissions) /\
  main_v2.query_logs (main_v2_feedbacks st submissions) = main_v2.query_logs st /\
  main_v2.vector_store (main_v2_feedbacks st submissions) = main_v2.vector_store st /\
  main_v2.qa_chain (main_v2_feedbacks st submissions) = main_v2.qa_chain st.
Proof.
  unfold main_v2_feedbacks.
  revert st. induction submissions as [|[env feedback] submissions IH]; intros st Hle.
  - cbn. by rewrite app_nil_r, last_n_all.
  - cbn [fold_left map fst snd].
    destruct (IH (snd (main_v2.submit_feedback env st feedback))) as (-> & -> & -> & ->).
    { rewrite submit_feedback_appends, length_last_n. lia. }
    rewrite submit_feedback_appends, last_n_app_last_n, <- app_assoc. done.
Qed.

Lemma main_v2_feedback_log_two :
  (length (main_v2.feedback_data Fixtures.ready) <= 100)%nat /\
  main_v2.feedback_data
    (main_v2_feedbacks Fixtures.ready
       [(Fixtures.world, main_v2.mkUserFeedback "id0" 5 None);
        (Fixtures.world, main_v2.mkUserFeedback "id1" 2 (Some "too short"))])
  = last_n 100
      (main_v2.feedback_data Fixtures.ready
         ++ map main_v2_feedback_entry
              [(Fixtures.world, main_v2.mkUserFeedback "id0" 5 None);
               (Fixtures.world, main_v2.mkUserFeedback "id1" 2 (Some "too short"))]).
Proof.
  split; [cbn; lia|].
  apply (main_v2_feedback_log
           [(Fixtures.world, main_v2.mkUserFeedback "id0" 5 None);
            (Fixtures.world, main_v2.mkUserFeedback "id1" 2 (Some "too short"))]
           Fixtures.ready).
  cbn; lia.
Defined.

(** ** The states [enhanced_main.py] reaches *)

Section EnhancedMainReach.
Context `{RAGBackend}.

Lemma process_query_kept (env : Env) (st : enhanced_main.State)
    (request : enhanced_main.QueryRequest) (user : option string) :
  enhanced_main_kept st ->
  enhanced_main_kept (snd (enhanced_main.process_query env st request user)).
Proof.
  intros Hkept. unfold enhanced_main.process_query.
  destruct (enhanced_main.rag_pipeline st) as [pipeline|]; [|exact Hkept].
  destruct (pipeline_query pipeline _ _) as [result|e]; [|exact Hkept].
  destruct Hkept as (Hratings & Hfeedback & Hhistory).
  cbn [snd]. unfold enhanced_main_kept.
  cbn [enhanced_main.feedback_data enhanced_main.query_history].
  split; [done|]. split; [done|].
  rewrite pop0_snoc, length_last_n by done. lia.
Qed.

Lemma submit_feedback_kept_enhanced (env : Env) (st : enhanced_main.State)
    (feedback : enhanced_main.FeedbackRequest) (user : option string) :
  1 <= enhanced_main.rating feedback <= 5 ->
  enhanced_main_kept st ->
  enhanced_main_kept (snd (enhanced_main.submit_feedback env st feedback user)).
Proof.
  intros Hrating (Hratings & Hfeedback & Hhistory). unfold enhanced_main.submit_feedback.
  cbn [snd]. unfold enhanced_main_kept.
  cbn [enhanced_main.feedback_data enhanced_main.query_history].
  split; [|split; [|done]].
  - rewrite pop0_snoc by done. unfold last_n.
    apply Forall_drop, Forall_app. split; [done|].
    constructor; [exact Hrating|constructor].
  - rewrite pop0_snoc, length_last_n by done. lia.
Qed.

Lemma upload_document_kept (env : Env) (st : enhanced_main.State) (fs : filesystem)
    (file : UploadFile.t) (user : option string) :
  enhanced_main_kept st ->
  enhanced_main_kept (snd (fst (enhanced_main.upload_document env st fs file user))).
Proof.
  intros Hkept. unfold enhanced_main.upload_document.
  destruct (String.eqb (UploadFile.filename file) ""); [exact Hkept|].
  destruct (write_file fs "/tmp" _ _) as [fs1|e]; [|exact Hkept].
  destruct (enhanced_main.doc_processor st) as [processor|].
  - destruct (process_document processor _ _) as [chunks|e]; cbn [bind]; [|exact Hkept].
    destruct (enhanced_main.remove_file fs1 "/tmp" _); exact Hkept.
  - destruct (enhanced_main.remove_file fs1 "/tmp" _); exact Hkept.
Qed.

(** [reset_system] resets for the user [admin] and for nobody else. *)
Lemma reset_system_cases (env : Env) (st : enhanced_main.State) (user : option string) :
  enhanced_main.reset_system env st user
  = if decide (user = Some "admin")
    then (OK "System data reset successfully",
          enhanced_main.mkState (enhanced_main.rag_pipeline st)
            (enhanced_main.doc_processor st) [] []
            (enhanced_main.mkSystemStats 0 0 0%float (datetime_now env 0)))
    else (HTTPError 500 "Failed to reset system", st).
Proof.
  unfold enhanced_main.reset_system. destruct user as [s|]; [|done].
  case_decide as Hs; [by simplify_eq|].
  repeat (destruct s as [|[[] [] [] [] [] [] [] []] s]; try done).
Qed.

Lemma serve_kept_enhanced (env : Env) (st : enhanced_main.State) (fs : filesystem)
    (call : enhanced_main.Call) :
  enhanced_main_kept st -> enhanced_main_kept (fst (enhanced_main.serve env st fs call)).
Proof.
  intros Hkept. destruct call as [b user|b user|user|file user]; cbn [enhanced_main.serve fst].
  - unfold enhanced_main.post_query.
    destruct (enhanced_main.QueryRequest_validate b); [|done].
    by apply process_query_kept.
  - pose proof (enhanced_main_feedback_rating_checked env st b user) as Hchecked.
    destruct (enhanced_main.FeedbackRequest_validate b) as [feedback|].
    + destruct Hchecked as (Hrating & _ & ->). by apply submit_feedback_kept_enhanced.
    + by rewrite Hchecked.
  - rewrite reset_system_cases. case_decide; [|done].
    cbn [snd]. unfold enhanced_main_kept.
    cbn [enhanced_main.feedback_data enhanced_main.query_history length].
    split; [constructor|lia].
  - by apply upload_document_kept.
Qed.
End EnhancedMainReach.

Section EnhancedMainInvariant.
Context `{RAGBackend} `{PyNumbers}.

Lemma serve_services (env : Env) (st : enhanced_main.State) (fs : filesystem)
    (call : enhanced_main.Call) :
  enhanced_main.health_check (fst (enhanced_main.serve env st fs call))
  = enhanced_main.health_check st.
Proof.
  destruct call as [b user|b user|user|file user]; cbn [enhanced_main.serve fst].
  - unfold enhanced_main.post_query.
    destruct (enhanced_main.QueryRequest_validate b) as [request|]; [|done].
    unfold enhanced_main.process_query.
    destruct (enhanced_main.rag_pipeline st) as [pipeline|] eqn:Hp; [|done].
    destruct (pipeline_query pipeline _ _); [|done].
    unfold enhanced_main.health_check. cbn. by rewrite Hp.
  - unfold enhanced_main.post_feedback.
    by destruct (enhanced_main.FeedbackRequest_validate b).
  - rewrite reset_system_cases. by case_decide.
  - unfold enhanced_main.upload_document.
    destruct (String.eqb (UploadFile.filename file) ""); [done|].
    destruct (write_file fs "/tmp" _ _) as [fs1|e]; [|done].
    destruct (enhanced_main.doc_processor st) as [processor|] eqn:Hd.
    + destruct (process_document processor _ _) as [chunks|e]; cbn [bind]; [|done].
      destruct (enhanced_main.remove_file fs1 "/tmp" _);
        unfold enhanced_main.health_check; cbn; by rewrite Hd.
    + by destruct (enhanced_main.remove_file fs1 "/tmp" _).
Qed.

(** X4. Whatever requests an [enhanced_main] server answers (queries,
    feedback, resets, uploads), starting from a state with validated
    ratings and bounded logs: every rating in the feedback log lies
    between 1 and 5, the feedback log holds at most 1000 records and the
    query history at most 100, and [/health] reports the same services as
    at the start (no handler sets or drops the pipeline or the document
    processor). *)
Theorem enhanced_main_reachable_state
    (calls : list (Env * enhanced_main.Call)) (st : enhanced_main.State) (fs : filesystem) :
  enhanced_main_kept st ->
  enhanced_main_kept (fst (enhanced_main_serve_all st fs calls)) /\
  enhanced_main.health_check (fst (enhanced_main_serve_all st fs calls))
  = enhanced_main.health_check st.
Proof.
  unfold enhanced_main_serve_all.
  revert st fs. induction calls as [|[env call] calls IH]; intros st fs Hkept; [done|].
  cbn [fold_left fst snd].
  destruct (enhanced_main.serve env st fs call) as [st' fs'] eqn:Hserve.
  destruct (IH st' fs') as [Hkept' Hhealth].
  { pose proof (serve_kept_enhanced env st fs call Hkept) as Hnext.
    by rewrite Hserve in Hnext. }
  split; [done|]. rewrite Hhealth.
  pose proof (serve_services env st fs call) as Hsame. by rewrite Hserve in Hsame.
Qed.

Lemma count_ratings (data : list enhanced_main.FeedbackRecord) :
  Forall (fun f => 1 <= enhanced_main.fb_rating f <= 5) data ->
  enhanced_main.count_rating 1 data + enhanced_main.count_rating 2 data
  + enhanced_main.count_rating 3 data + enhanced_main.count_rating 4 data
  + enhanced_main.count_rating 5 data = Z.of_nat (length data).
Proof.
  unfold enhanced_main.count_rating.
  induction 1 as [|f data Hf _ IH]; [done|].
  rewrite !filter_cons.
  assert (Hcases : enhanced_main.fb_rating f = 1 \/ enhanced_main.fb_rating f = 2 \/
                   enhanced_main.fb_rating f = 3 \/ enhanced_main.fb_rating f = 4 \/
                   enhanced_main.fb_rating f = 5) by lia.
  destruct Hcases as [Hr|[Hr|[Hr|[Hr|Hr]]]]; rewrite Hr;
    repeat case_decide; try done; cbn [length]; clear -IH; lia.
Qed.

(** X5. When every rating of the feedback log lies between 1 and 5 (as in
    every reachable state), [get_feedback_analytics] answers with the
    number of records as [total_feedback], and, when there is feedback,
    with a [rating_distribution] over the keys "1" to "5" whose counts
    add up to [total_feedback]; with no feedback it answers zero and an
    empty distribution. *)
Theorem feedback_distribution_adds_up (st : enhanced_main.State) :
  Forall (fun f => 1 <= enhanced_main.fb_rating f <= 5) (enhanced_main.feedback_data st) ->
  exists a,
    enhanced_main.get_feedback_analytics st = OK a /\
    enhanced_main.total_feedback a = Z.of_nat (length (enhanced_main.feedback_data st)) /\
    sum_int (map snd (enhanced_main.rating_distribution a)) = enhanced_main.total_feedback a /\
    (enhanced_main.feedback_data st <> [] ->
     map fst (enhanced_main.rating_distribution a) = ["1"; "2"; "3"; "4"; "5"]) /\
    (enhanced_main.feedback_data st = [] -> enhanced_main.rating_distribution a = []).
Proof.
  intros Hratings. unfold enhanced_main.get_feedback_analytics.
  destruct (enhanced_main.feedback_data st) as [|f data] eqn:Hdata.
  - eexists. split; [done|]. repeat split; done.
  - eexists. split; [done|].
    cbn [enhanced_main.total_feedback enhanced_main.rating_distribution].
    split; [done|]. split; [|split; [done|done]].
    rewrite <- (count_ratings (f :: data) Hratings).
    cbn [map snd]. unfold sum_int. cbn [fold_left]. lia.
Qed.
End EnhancedMainInvariant.

Lemma enhanced_main_reachable_from_rated :
  @enhanced_main_kept Fixtures.backend Fixtures.rated /\
  @enhanced_main_kept Fixtures.backend
    (fst (@enhanced_main_serve_all Fixtures.backend Fixtures.rated Fixtures.tmp_disk
            [(Fixtures.world,
              enhanced_main.call_feedback
                {[ "query" := JStr "q"; "response" := JStr "r"; "rating" := JInt 4 ]} None);
             (Fixtures.world,
              enhanced_main.call_feedback
                {[ "query" := JStr "q"; "response" := JStr "r"; "rating" := JInt 9 ]} None);
             (Fixtures.world, enhanced_main.call_upload (Fixtures.upload "a.pdf" "alpha") None)])).
Proof.
  assert (Hstart : @enhanced_main_kept Fixtures.backend Fixtures.rated).
  { unfold enhanced_main_kept. cbn. repeat split; try lia.
    repeat constructor; cbn; lia. }
  split; [exact Hstart|].
  apply (@enhanced_main_reachable_state Fixtures.backend _ Fixtures.rated Fixtures.tmp_disk Hstart).
Defined.

Lemma feedback_distribution_of_rated :
  Forall (fun f => 1 <= enhanced_main.fb_rating f <= 5)
    (@enhanced_main.feedback_data Fixtures.backend Fixtures.rated) /\
  exists a,
    @enhanced_main.get_feedback_analytics Fixtures.backend Fixtures.numbers Fixtures.rated = OK a /\
    enhanced_main.total_feedback a = 3 /\
    sum_int (map snd (enhanced_main.rating_distribution a)) = enhanced_main.total_feedback a.
Proof.
  assert (Hratings : Forall (fun f => 1 <= enhanced_main.fb_rating f <= 5)
                       (@enhanced_main.feedback_data Fixtures.backend Fixtures.rated)).
  { repeat constructor; cbn; lia. }
  split; [exact Hratings|].
  destruct (@feedback_distribution_adds_up Fixtures.backend Fixtures.numbers Fixtures.rated
              Hratings) as (a & Hanswer & Htotal & Hsum & _).
  exists a. repeat split; done.
Defined.

(** Three records rated 5, 3 and 5. *)
Example feedback_distribution_example :
  match @enhanced_main.get_feedback_analytics Fixtures.backend Fixtures.numbers Fixtures.rated with
  | OK a => enhanced_main.rating_distribution a
  | HTTPError _ _ => []
  end = [("1", 0); ("2", 0); ("3", 1); ("4", 0); ("5", 2)].
Proof. vm_compute. reflexivity. Qed.

(** ** Reading the query history *)

Section QueryHistory.
Context `{RAGBackend}.

Lemma is_user_true (user : string) (q : enhanced_main.QueryRecord) :
  enhanced_main.is_user user q = true <-> enhanced_main.record_user q = Some user.
Proof.
  unfold enhanced_main.is_user.
  destruct (enhanced_main.record_user q) as [u|]; [|done].
  rewrite String.eqb_eq. split; congruence.
Qed.

Lemma length_slice_from {A} (i : Z) (l : list A) :
  Z.of_nat (length (slice_from i l))
  = if i <? 0 then Z.min (- i) (Z.of_nat (length l))
    else Z.max (Z.of_nat (length l) - i) 0.
Proof.
  unfold slice_from. rewrite length_drop.
  destruct (Z.ltb_spec i 0); lia.
Qed.

(** X6. For an authenticated user with a non-empty name,
    [get_query_history] returns only records of that user: a suffix, in
    order, of the user's records in the history.  [total_queries] counts
    the user's records.  With [limit >= 1] the suffix has [min(limit, n)]
    records; with [limit = 0] the slice [[-0:]] is the whole list, so every
    record of the user is returned. *)
Theorem query_history_of_user (st : enhanced_main.State) (limit : Z) (user : string) :
  user <> "" ->
  exists h,
    enhanced_main.get_query_history st limit (Some user) = OK h /\
    Forall (fun q => enhanced_main.record_user q = Some user) (enhanced_main.history h) /\
    enhanced_main.history h
      `suffix_of` filter (fun q => enhanced_main.is_user user q) (enhanced_main.query_history st) /\
    enhanced_main.history_total_queries h
      = Z.of_nat (length (filter (fun q => enhanced_main.is_user user q)
                            (enhanced_main.query_history st))) /\
    (1 <= limit ->
     Z.of_nat (length (enhanced_main.history h))
       = Z.min limit (enhanced_main.history_total_queries h)) /\
    (limit = 0 ->
     enhanced_main.history h
       = filter (fun q => enhanced_main.is_user user q) (enhanced_main.query_history st)).
Proof.
  intros Huser. unfold enhanced_main.get_query_history.
  destruct (String.eqb_spec user "") as [->|_]; [done|].
  eexists. split; [reflexivity|].
  cbn [enhanced_main.history enhanced_main.history_total_queries].
  split; [|split; [|split; [done|split]]].
  - unfold slice_from. apply Forall_drop, Forall_forall.
    intros q [Hq _]%list_elem_of_filter. apply is_user_true. by destruct (enhanced_main.is_user user q).
  - unfold slice_from. apply suffix_drop.
  - intros Hlimit. rewrite length_slice_from.
    destruct (Z.ltb_spec (- limit) 0); lia.
  - intros ->. unfold slice_from. change (- 0 <? 0) with false.
    cbv zeta iota. by rewrite Z.min_l by lia.
Qed.
End QueryHistory.

Lemma query_history_of_ann :
  "ann" <> "" /\
  exists h,
    @enhanced_main.get_query_history Fixtures.backend Fixtures.two_users 2 (Some "ann") = OK h /\
    Forall (fun q => enhanced_main.record_user q = Some "ann") (enhanced_main.history h).
Proof.
  split; [done|].
  destruct (@query_history_of_user Fixtures.backend Fixtures.two_users 2 "ann")
    as (h & Hanswer & Hown & _); [done|].
  exists h. by split.
Defined.

(** Of her three queries, [limit=2] gives the last two and [limit=0] all
    three; without a token every user's queries are returned. *)
Example query_history_limits :
  match @enhanced_main.get_query_history Fixtures.backend Fixtures.two_users 2 (Some "ann"),
        @enhanced_main.get_query_history Fixtures.backend Fixtures.two_users 0 (Some "ann"),
        @enhanced_main.get_query_history Fixtures.backend Fixtures.two_users 10 None with
  | OK h2, OK h0, OK h =>
      (map enhanced_main.record_query (enhanced_main.history h2),
       map enhanced_main.record_query (enhanced_main.history h0),
       map enhanced_main.record_query (enhanced_main.history h))
  | _, _, _ => ([], [], [])
  end
  = (["fourth"; "fifth"], ["first"; "fourth"; "fifth"],
     ["first"; "second"; "third"; "fourth"; "fifth"]).
Proof. vm_compute. reflexivity. Qed.

(** ** Uploading a document to [enhanced_main.py] *)

Section Upload.
Context `{RAGBackend}.


End Upload.

(** A processor that fails leaves the upload in [/tmp]. *)
Example upload_left_behind :
  match @enhanced_main.upload_document Fixtures.broken Fixtures.world Fixtures.failing
          Fixtures.tmp_disk (Fixtures.upload "a.pdf" "alpha") None with
  | (HTTPError c d, _, fs') => (c, d, in_tmp fs' "a.pdf")
  | (OK _, _, _) => (0, "", None)
  end
  = (500, "Upload failed: cannot parse", Some (list_byte_of_string "alpha")).
Proof. vm_compute. reflexivity. Qed.

(** ** Counters and resets of [enhanced_main.py] *)

Section Counters.
Context `{RAGBackend} `{PyNumbers}.



(** X9. [reset_system] empties the query history and the feedback log and
    zeroes the counters for the user [admin], keeping the pipeline and the
    document processor; for any other caller, authenticated or not, it
    changes nothing and answers 500: the 403 it raises is raised inside
    its own [try].  In the same way [process_query] answers 500, not 503,
    when no pipeline is set. *)
Theorem reset_only_by_admin (env : Env) (st : enhanced_main.State) (user : option string)
    (request : enhanced_main.QueryRequest) :
  (user = Some "admin" ->
   exists st',
     enhanced_main.reset_system env st user = (OK "System data reset successfully", st') /\
     enhanced_main.query_history st' = [] /\
     enhanced_main.feedback_data st' = [] /\
     enhanced_main.total_queries (enhanced_main.system_stats st') = 0 /\
     enhanced_main.total_documents (enhanced_main.system_stats st') = 0 /\
     enhanced_main.rag_pipeline st' = enhanced_main.rag_pipeline st /\
     enhanced_main.doc_processor st' = enhanced_main.doc_processor st) /\
  (user <> Some "admin" ->
   enhanced_main.reset_system env st user = (HTTPError 500 "Failed to reset system", st)) /\
  (enhanced_main.rag_pipeline st = None ->
   enhanced_main.process_query env st request user
   = (HTTPError 500 "Query failed: 503: RAG pipeline not initialized", st)).
Proof.
  rewrite reset_system_cases. split; [|split].
  - intros ->. rewrite decide_True by done. eexists. by repeat split.
  - intros Hother. by rewrite decide_False.
  - intros Hnone. unfold enhanced_main.process_query. by rewrite Hnone.
Qed.
End Counters.

(** ** The loaders [enhanced_ingest.py] chooses *)

Lemma lower_ascii_idemp (c : ascii) : lower_ascii (lower_ascii c) = lower_ascii c.
Proof. by destruct c as [[] [] [] [] [] [] [] []]. Qed.

Lemma lower_idemp (s : string) : lower (lower s) = lower s.
Proof. induction s as [|c s IH]; cbn; [done|]. by rewrite lower_ascii_idemp, IH. Qed.

Lemma length_lower (s : string) : String.length (lower s) = String.length s.
Proof. induction s as [|c s IH]; cbn; [done|]. by rewrite IH. Qed.

Lemma lower_substring (n m : nat) (s : string) :
  lower (substring n m s) = substring n m (lower s).
Proof.
  revert n m. induction s as [|c s IH]; intros [|n] [|m]; cbn; try done;
    by rewrite ?IH.
Qed.

Lemma endswith_lower (s suffix : string) :
  endswith s suffix = true -> endswith (lower s) (lower suffix) = true.
Proof.
  unfold endswith. rewrite !length_lower.
  destruct (String.length suffix <=? String.length s)%nat; [|done].
  rewrite !String.eqb_eq. intros Hsuffix. by rewrite <- lower_substring, Hsuffix.
Qed.

Section Loaders.
Context `{Langchain}.

Lemma select_loader_pdf (fname : string) :
  endswith fname ".pdf" = true -> enhanced_ingest.select_loader fname = Some PyPDFLoader.
Proof.
  intros Hpdf. unfold enhanced_ingest.select_loader.
  apply endswith_lower in Hpdf. change (lower ".pdf") with ".pdf" in Hpdf.
  by rewrite Hpdf.
Qed.

(** X10. [enhanced_ingest.py] chooses the loader of a file by its
    extension whatever the case of its letters, and loads with the PDF
    loader every file that [ingest.py] loads.  So on the same directory
    the documents [ingest.py] loads are, in the same order, among those
    [enhanced_ingest.py] loads, whichever files fail. *)
Theorem enhanced_ingest_loads_what_ingest_loads
    (doc_dir : string) (entries : list (string * bytes)) :
  (forall fname,
     enhanced_ingest.select_loader (lower fname) = enhanced_ingest.select_loader fname) /\
  (forall fname,
     endswith fname ".pdf" = true ->
     enhanced_ingest.select_loader fname = Some PyPDFLoader) /\
  flat_map (pdf_pages doc_dir) entries
    `sublist_of` flat_map (fun entry => documents_of (attempt doc_dir entry)) entries.
Proof.
  split; [|split].
  - intros fname. unfold enhanced_ingest.select_loader. by rewrite lower_idemp.
  - apply select_loader_pdf.
  - induction entries as [|[fname content] entries IH]; cbn [flat_map]; [done|].
    apply sublist_app; [|done].
    unfold pdf_pages, attempt. cbn [fst snd].
    destruct (endswith fname ".pdf") eqn:Hpdf; [|apply sublist_nil_l].
    rewrite (select_loader_pdf fname Hpdf).
    by destruct (loader_load PyPDFLoader (path_join doc_dir fname) content).
Qed.
End Loaders.

(** A PDF whose extension is in capitals is loaded by
    [enhanced_ingest.py] and skipped by [ingest.py]. *)
Example capital_extension :
  (enhanced_ingest.select_loader "REPORT.PDF", endswith "REPORT.PDF" ".pdf",
   enhanced_ingest.select_loader "notes.Txt", enhanced_ingest.select_loader "notes.md",
   enhanced_ingest.select_loader "archive.pdf.bak")
  = (Some PyPDFLoader, false, Some TextLoader, None, None).
Proof. reflexivity. Qed.

(** ** The metadata [enhanced_ingest.py] adds *)

Section Metadata.
Context `{Langchain}.

Lemma add_metadata_lookup (now : nat -> string) (docs : list Document) (i j : nat)
    (doc : Document) :
  docs !! j = Some doc ->
  enhanced_ingest.add_metadata now i docs !! j
  = Some (mkDocument (page_content doc)
            (<["file_type" := snd (splitext (default "" (metadata doc !! "source")))]>
               (<["processed_at" := now (i + j)%nat]> (metadata doc)))).
Proof.
  revert i j. induction docs as [|d docs IH]; intros i [|j]; try done.
  - intros [= ->]. cbn [enhanced_ingest.add_metadata].
    rewrite lookup_insert_ne by done. by rewrite Nat.add_0_r.
  - intros Hdoc. cbn [enhanced_ingest.add_metadata].
    rewrite lookup_cons. rewrite (IH (S i) j Hdoc). by rewrite Nat.add_succ_r.
Qed.

Lemma add_metadata_contents (now : nat -> string) (docs : list Document) (i : nat) :
  map page_content (enhanced_ingest.add_metadata now i docs) = map page_content docs.
Proof. revert i. induction docs as [|d docs IH]; intros i; cbn; [done|]. by rewrite IH. Qed.

Lemma length_add_metadata (now : nat -> string) (docs : list Document) (i : nat) :
  length (enhanced_ingest.add_metadata now i docs) = length docs.
Proof. by rewrite <- (length_map page_content), add_metadata_contents, length_map. Qed.

(** X11. On an existing directory [ingest_documents] of
    [enhanced_ingest.py] returns the chunks the splitter made, in the same
    order and with the same text, each stamped with two metadata keys:
    [processed_at], the clock reading taken for that chunk, and
    [file_type], the extension [os.path.splitext] finds in the chunk's
    [source] (empty when the chunk has no source).  A previous value of
    either key is overwritten; every other metadata key is kept. *)
Theorem ingest_documents_stamps_chunks
    (self : enhanced_ingest.EnhancedDocumentIngestor) (fs : filesystem)
    (doc_dir : string) (dir : directory) (now : nat -> string) :
  fs !! doc_dir = Some dir ->
  exists chunks stdout,
    enhanced_ingest.ingest_documents self fs doc_dir now = Return (chunks, stdout) /\
    map page_content chunks
    = map page_content
        (split_documents (enhanced_ingest.splitter self)
           (flat_map (fun entry => documents_of (attempt doc_dir entry)) (map_to_list dir))) /\
    forall (j : nat) (split_doc : Document),
      split_documents (enhanced_ingest.splitter self)
        (flat_map (fun entry => documents_of (attempt doc_dir entry)) (map_to_list dir)) !! j
      = Some split_doc ->
      exists chunk,
        chunks !! j = Some chunk /\
        page_content chunk = page_content split_doc /\
        metadata chunk !! "processed_at" = Some (now j) /\
        metadata chunk !! "file_type"
        = Some (snd (splitext (default "" (metadata split_doc !! "source")))) /\
        forall key, key <> "processed_at" -> key <> "file_type" ->
                    metadata chunk !! key = metadata split_doc !! key.
Proof.
  intros Hdir. rewrite (ingest_documents_outcomes self fs doc_dir dir now Hdir).
  eexists _, _. split; [reflexivity|]. split; [apply add_metadata_contents|].
  intros j split_doc Hsplit.
  rewrite (add_metadata_lookup now _ 0 j split_doc Hsplit).
  eexists. split; [reflexivity|]. cbn [page_content metadata].
  split; [done|]. split; [by rewrite lookup_insert_ne, lookup_insert_eq|].
  split; [by rewrite lookup_insert_eq|].
  intros key Hp Hf. by rewrite !lookup_insert_ne.
Qed.
End Metadata.

Lemma ingest_documents_stamps_batch :
  Fixtures.batch !! "docs" = Some Fixtures.batch_dir /\
  exists chunks stdout,
    @enhanced_ingest.ingest_documents Fixtures.library enhanced_ingest.__init__
      Fixtures.batch "docs" Fixtures.clock = Return (chunks, stdout) /\
    map page_content chunks
    = map page_content
        (@split_documents Fixtures.library (enhanced_ingest.splitter enhanced_ingest.__init__)
           (flat_map (fun entry => documents_of (@attempt Fixtures.library "docs" entry))
              (map_to_list Fixtures.batch_dir))).
Proof.
  assert (Hdir : Fixtures.batch !! "docs" = Some Fixtures.batch_dir) by reflexivity.
  split; [exact Hdir|].
  destruct (@ingest_documents_stamps_chunks Fixtures.library enhanced_ingest.__init__
              Fixtures.batch "docs" Fixtures.batch_dir Fixtures.clock Hdir)
    as (chunks & stdout & Hreturn & Hcontents & _).
  exists chunks, stdout. by split.
Defined.

(** The two text files of the batch, in the order the directory lists
    them: what their chunks are stamped with. *)
Example stamped_batch :
  match @enhanced_ingest.ingest_documents Fixtures.library enhanced_ingest.__init__
          Fixtures.batch "docs" Fixtures.clock with
  | Return (chunks, _) =>
      map (fun chunk => (page_content chunk, metadata chunk !! "processed_at",
                         metadata chunk !! "file_type")) chunks
  | Raise _ => []
  end
  = [("gamma", Some "2024-01-01 00:00:00", Some ".txt");
     ("alpha", Some "2024-01-01 00:00:01", Some ".txt")].
Proof. vm_compute. reflexivity. Qed.

(** ** Web pages *)

Section Web.
Context `{Langchain}.

Lemma web_loop_outcomes (fetch : string -> bytes) (urls : list string)
    (docs : list Document) (stdout : list string) :
  enhanced_ingest.web_loop fetch urls docs stdout
  = (docs ++ flat_map (fun url =>
                         match loader_load WebBaseLoader url (fetch url) with
                         | Return web_docs => web_docs
                         | Raise _ => []
                         end) urls,
     stdout ++ flat_map (fun url =>
                           match loader_load WebBaseLoader url (fetch url) with
                           | Return _ => []
                           | Raise e => ["Error loading " +:+ url +:+ ": " +:+ str_exn e]
                           end) urls).
Proof.
  revert docs stdout. induction urls as [|url urls IH]; intros docs stdout; cbn [flat_map].
  - by rewrite !app_nil_r.
  - cbn [enhanced_ingest.web_loop].
    destruct (loader_load WebBaseLoader url (fetch url)) as [web_docs|e]; rewrite IH;
      by rewrite ?app_nil_l, ?app_assoc.
Qed.

(** X12. [ingest_web_content] never gives up on a list of URLs: the
    chunks are the split of the pages of the URLs that loaded, in the
    order of the list, so the pages of a good URL are split whatever the
    other URLs do; one "Error loading <url>: ..." line is printed per URL
    that failed, in order, and nothing else.  When every URL fails the
    splitter is given no document. *)
Theorem ingest_web_content_skips_failures
    (self : enhanced_ingest.EnhancedDocumentIngestor) (fetch : string -> bytes)
    (urls : list string) :
  exists docs,
    fst (enhanced_ingest.ingest_web_content self fetch urls)
    = split_documents (enhanced_ingest.splitter self) docs /\
    (forall url web_docs,
       url ∈ urls -> loader_load WebBaseLoader url (fetch url) = Return web_docs ->
       web_docs ⊆ docs) /\
    (forall doc, doc ∈ docs ->
       exists url web_docs,
         url ∈ urls /\ loader_load WebBaseLoader url (fetch url) = Return web_docs /\
         doc ∈ web_docs) /\
    (forall line, line ∈ snd (enhanced_ingest.ingest_web_content self fetch urls) <->
       exists url e,
         url ∈ urls /\ loader_load WebBaseLoader url (fetch url) = Raise e /\
         line = "Error loading " +:+ url +:+ ": " +:+ str_exn e) /\
    length (snd (enhanced_ingest.ingest_web_content self fetch urls))
    = length (List.filter (fun url => match loader_load WebBaseLoader url (fetch url) with
                                 | Raise _ => true
                                 | Return _ => false
                                 end) urls) /\
    (length (snd (enhanced_ingest.ingest_web_content self fetch urls)) = length urls ->
     docs = []).
Proof.
  unfold enhanced_ingest.ingest_web_content. rewrite web_loop_outcomes. cbn [fst snd app].
  eexists. split; [reflexivity|]. split; [|split; [|split; [|split]]].
  - intros url web_docs Hin Hload doc Hdoc. apply list_elem_of_In, in_flat_map.
    exists url. split; [by apply list_elem_of_In|]. rewrite Hload. by apply list_elem_of_In.
  - intros doc (url & Hin & Hdoc)%list_elem_of_In%in_flat_map.
    destruct (loader_load WebBaseLoader url (fetch url)) as [web_docs|e] eqn:Hload; [|done].
    exists url, web_docs. split; [by apply list_elem_of_In|]. split; [done|].
    by apply list_elem_of_In.
  - intros line. rewrite list_elem_of_In, in_flat_map. split.
    + intros (url & Hin & Hline).
      destruct (loader_load WebBaseLoader url (fetch url)) as [web_docs|e] eqn:Hload; [done|].
      exists url, e. split; [by apply list_elem_of_In|]. split; [done|].
      destruct Hline as [<-|[]]. done.
    + intros (url & e & Hin & Hload & ->). exists url. split; [by apply list_elem_of_In|].
      rewrite Hload. by left.
  - induction urls as [|url urls IH]; [done|]. cbn [flat_map List.filter].
    destruct (loader_load WebBaseLoader url (fetch url)) as [web_docs|e];
      cbn [app length]; by rewrite IH.
  - induction urls as [|url urls IH]; [done|]. cbn [flat_map].
    destruct (loader_load WebBaseLoader url (fetch url)) as [web_docs|e]; cbn [app length].
    + intros Hlen. exfalso.
      assert (Hle : forall l : list string,
                (length (flat_map (fun url =>
                           match loader_load WebBaseLoader url (fetch url) with
                           | Return _ => []
                           | Raise e => ["Error loading " +:+ url +:+ ": " +:+ str_exn e]
                           end) l) <= length l)%nat).
      { clear. induction l as [|u l IHl]; [done|]. cbn [flat_map].
        destruct (loader_load WebBaseLoader u (fetch u)); cbn [app length]; lia. }
      specialize (Hle urls). lia.
    + intros [= Hlen]. by apply IH.
Qed.
End Web.

(** Three URLs, the second of which serves nothing. *)
Example web_content_example :
  @enhanced_ingest.ingest_web_content Fixtures.library enhanced_ingest.__init__
    (fun url => if String.eqb url "http://b.example" then [] else list_byte_of_string url)
    ["http://a.example"; "http://b.example"; "http://c.example"]
  = ([mkDocument "http://a.example" {["source" := "http://a.example"]};
      mkDocument "http://c.example" {["source" := "http://c.example"]}],
     ["Error loading http://b.example: EOF marker not found"]).
Proof. vm_compute. reflexivity. Qed.

(** ** Building, saving and restoring a store *)

Section Persist.
Context `{Langchain}.

(** X13. When [build_vector_store] of [enhanced_rag_pipeline.py] returns,
    the store holds exactly the given chunks and has been written to
    [./vector_store], replacing whatever index was there (also a corrupt
    one); every other folder, and every other file of that folder, is as
    before.  If the library reads back the store it wrote,
    [load_vector_store] then returns this store, for a pipeline of any
    provider. *)
Theorem build_then_load
    (self other : enhanced_rag_pipeline.EnhancedRAGPipeline) (fs fs' : filesystem)
    (docs : list Document) (vs : FAISS) :
  enhanced_rag_pipeline.build_vector_store self fs docs = Return (vs, fs') ->
  faiss_load (fst (faiss_dump vs)) (snd (faiss_dump vs)) = Return vs ->
  enhanced_rag_pipeline.load_vector_store other fs' = Return (Some vs) /\
  docstore vs = docs /\
  (forall folder, folder <> "./vector_store" -> fs' !! folder = fs !! folder) /\
  (forall name, name <> "index.faiss" -> name <> "index.pkl" ->
     (fs' !! "./vector_store") ≫= (fun dir => dir !! name)
     = (fs !! "./vector_store") ≫= (fun dir => dir !! name)).
Proof.
  unfold enhanced_rag_pipeline.build_vector_store.
  destruct (from_documents docs) as [built|e] eqn:Hbuild; cbn [bind]; [|discriminate].
  intros [= -> <-] Hround.
  split; [by apply load_vector_store_after_save|].
  split; [by apply from_documents_docstore|].
  unfold save_local. destruct (faiss_dump vs) as [faiss_bytes pkl_bytes]. split.
  - intros folder Hne. by rewrite lookup_insert_ne.
  - intros name Hf Hp. rewrite lookup_insert_eq. cbn.
    rewrite !lookup_insert_ne by done. by destruct (fs !! "./vector_store").
Qed.
End Persist.

Lemma build_then_load_alpha :
  exists (vs : FAISS) (fs' : filesystem),
    @enhanced_rag_pipeline.build_vector_store Fixtures.one_text Fixtures.pipeline
      Fixtures.corrupt_store [mkDocument "alpha" ∅] = Return (vs, fs') /\
    @faiss_load Fixtures.one_text (fst (@faiss_dump Fixtures.one_text vs))
      (snd (@faiss_dump Fixtures.one_text vs)) = Return vs /\
    @enhanced_rag_pipeline.load_vector_store Fixtures.one_text
      (enhanced_rag_pipeline.__init__ "anthropic") fs' = Return (Some vs).
Proof.
  eexists _, _.
  assert (Hbuild :
    @enhanced_rag_pipeline.build_vector_store Fixtures.one_text Fixtures.pipeline
      Fixtures.corrupt_store [mkDocument "alpha" ∅]
    = Return (mkFAISS [mkDocument "alpha" ∅] [Fixtures.embed "alpha"],
              @save_local Fixtures.one_text Fixtures.corrupt_store "./vector_store"
                (mkFAISS [mkDocument "alpha" ∅] [Fixtures.embed "alpha"]))).
  { reflexivity. }
  assert (Hround :
    @faiss_load Fixtures.one_text
      (fst (@faiss_dump Fixtures.one_text (mkFAISS [mkDocument "alpha" ∅] [Fixtures.embed "alpha"])))
      (snd (@faiss_dump Fixtures.one_text (mkFAISS [mkDocument "alpha" ∅] [Fixtures.embed "alpha"])))
    = Return (mkFAISS [mkDocument "alpha" ∅] [Fixtures.embed "alpha"])).
  { reflexivity. }
  split; [exact Hbuild|]. split; [exact Hround|].
  apply (@build_then_load Fixtures.one_text Fixtures.pipeline
           (enhanced_rag_pipeline.__init__ "anthropic") _ _ _ _ Hbuild Hround).
Defined.

(** A store folder whose index cannot be read is usable again after a
    build. *)
Example build_over_corrupt_store :
  (@enhanced_rag_pipeline.load_vector_store Fixtures.one_text Fixtures.pipeline
     Fixtures.corrupt_store,
   match @enhanced_rag_pipeline.build_vector_store Fixtures.one_text Fixtures.pipeline
           Fixtures.corrupt_store [mkDocument "alpha" ∅] with
   | Return (_, fs') =>
       @enhanced_rag_pipeline.load_vector_store Fixtures.one_text Fixtures.pipeline fs'
   | Raise e => Raise e
   end)
  = (Return None, Return (Some (mkFAISS [mkDocument "alpha" ∅] [Fixtures.embed "alpha"]))).
Proof. vm_compute. reflexivity. Qed.

(** ** What [/v2/ingest/] answers *)

Section IngestResults.
Context `{Langchain}.

Lemma save_files_results (env : Env) (files : list UploadFile.t) (i : nat)
    (fs fs' : filesystem) (results results' : list main_v2.IngestResult) :
  main_v2.save_files env i files fs results = Return (fs', results') ->
  exists added,
    results' = results ++ added /\
    map main_v2.filename added = map UploadFile.filename files /\
    map main_v2.file_id added = map (uuid4 env) (seq i (length files)) /\
    map main_v2.file_path added = map (path_join "docs") (saved_names env i files) /\
    Forall (fun r => main_v2.status r = "saved" /\ main_v2.chunks_created r = None) added.
Proof.
  revert i fs results. induction files as [|file files IH]; intros i fs results.
  - cbn. intros [= <- <-]. exists []. by rewrite app_nil_r.
  - cbn [main_v2.save_files].
    destruct (write_file (makedirs fs "docs") "docs" _ _) as [fs2|e]; cbn [bind]; [|discriminate].
    intros (added & -> & Hnames & Hids & Hpaths & Hsaved)%IH.
    eexists (_ :: added). rewrite <- app_assoc. split; [reflexivity|].
    cbn [map length seq saved_names main_v2.filename main_v2.file_id main_v2.file_path].
    rewrite Hnames, Hids, Hpaths. repeat split; try done.
    constructor; [done|exact Hsaved].
Qed.

(** X14. When [/v2/ingest/] answers OK, its [results] list has one entry
    per uploaded file, in order, with the file's name, the identifier
    drawn for it and the path [docs/<id>_<name>] it was saved under, and
    [total_chunks] is not negative.  If no chunk was found every entry is
    still [saved], without [chunks_created], and the store and the chain
    are the previous ones.  Otherwise every entry is [processed] with the
    same [chunks_created], the integer quotient of [total_chunks] by the
    number of files, so the per-file counts add up to at most
    [total_chunks]. *)
Theorem enhanced_ingest_results
    (env : Env) (st st' : main_v2.State) (files : list UploadFile.t)
    (answer : main_v2.IngestBody) :
  main_v2.enhanced_ingest env st files = (OK answer, st') ->
  map main_v2.filename (main_v2.results answer) = map UploadFile.filename files /\
  map main_v2.file_id (main_v2.results answer) = map (uuid4 env) (seq 0 (length files)) /\
  map main_v2.file_path (main_v2.results answer)
  = map (path_join "docs") (saved_names env 0 files) /\
  0 <= main_v2.total_chunks answer /\
  (main_v2.total_chunks answer = 0 ->
   Forall (fun r => main_v2.status r = "saved" /\ main_v2.chunks_created r = None)
     (main_v2.results answer) /\
   main_v2.vector_store st' = main_v2.vector_store st /\
   main_v2.qa_chain st' = main_v2.qa_chain st) /\
  (0 < main_v2.total_chunks answer ->
   Forall (fun r => main_v2.status r = "processed" /\
                    main_v2.chunks_created r
                    = Some (main_v2.total_chunks answer / Z.of_nat (length files)))
     (main_v2.results answer)) /\
  Z.of_nat (length files) * (main_v2.total_chunks answer / Z.of_nat (length files))
    <= main_v2.total_chunks answer.
Proof.
  unfold main_v2.enhanced_ingest.
  destruct (main_v2.save_files env 0 files (main_v2.disk st) []) as [[fs results]|e] eqn:Hsave;
    [|discriminate].
  apply save_files_results in Hsave as (added & -> & Hnames & Hids & Hpaths & Hsaved).
  cbn [app].
  assert (Hlen : length added = length files).
  { by rewrite <- (length_map main_v2.filename), Hnames, length_map. }
  destruct (ingest.ingest_documents fs "docs") as [[|doc docs]|e]; [| |discriminate].
  - intros [= <- <-]. cbn [main_v2.results main_v2.total_chunks main_v2.vector_store
                           main_v2.qa_chain].
    repeat split; try done; try lia. rewrite Zdiv_0_l. lia.
  - destruct (rag_pipeline.build_vector_store (doc :: docs)) as [vs|e]; [|discriminate].
    intros [= <- <-]. cbn [main_v2.results main_v2.total_chunks].
    rewrite !map_map. cbn [main_v2.mark_processed main_v2.filename main_v2.file_id
                            main_v2.file_path].
    rewrite Hlen.
    change (map (fun x => main_v2.filename x) added) with (map main_v2.filename added).
    change (map (fun x => main_v2.file_id x) added) with (map main_v2.file_id added).
    change (map (fun x => main_v2.file_path x) added) with (map main_v2.file_path added).
    split; [done|]. split; [done|]. split; [done|]. split; [lia|].
    split; [cbn [length]; lia|]. split.
    + intros _. apply Forall_map, Forall_forall. by intros r _.
    + destruct files as [|file files]; [cbn; lia|].
      apply Z.mul_div_le. cbn [length]. lia.
Qed.
End IngestResults.

Lemma enhanced_ingest_results_one_pdf :
  exists answer st',
    @main_v2.enhanced_ingest Fixtures.library Fixtures.world
      (main_v2.startup Fixtures.empty_docs) [Fixtures.upload "a.pdf" "alpha"]
    = (OK answer, st') /\
    map main_v2.filename (main_v2.results answer)
    = map UploadFile.filename [Fixtures.upload "a.pdf" "alpha"].
Proof.
  destruct (@main_v2.enhanced_ingest Fixtures.library Fixtures.world
              (main_v2.startup Fixtures.empty_docs) [Fixtures.upload "a.pdf" "alpha"])
    as [[answer|c d] st'] eqn:Hresult.
  - exists answer, st'. split; [reflexivity|].
    apply (@enhanced_ingest_results Fixtures.library Fixtures.world
             (main_v2.startup Fixtures.empty_docs) st' [Fixtures.upload "a.pdf" "alpha"]
             answer Hresult).
  - vm_compute in Hresult. discriminate.
Defined.

(** Two files, one of which is not a PDF: one chunk, and both entries
    report [1 // 2 = 0] chunks. *)
Example ingest_two_files_one_chunk :
  match @main_v2.enhanced_ingest Fixtures.library Fixtures.world
          (main_v2.startup Fixtures.empty_docs)
          [Fixtures.upload "a.pdf" "alpha"; Fixtures.upload "notes.txt" "beta"] with
  | (OK answer, _) =>
      (map (fun r => (main_v2.filename r, main_v2.status r, main_v2.chunks_created r,
                      main_v2.file_path r))
         (main_v2.results answer),
       main_v2.total_chunks answer)
  | (HTTPError _ _, _) => ([], 0)
  end
  = ([("a.pdf", "processed", Some 0, "docs/id0_a.pdf");
      ("notes.txt", "processed", Some 0, "docs/id1_notes.txt")], 1).
Proof. vm_compute. reflexivity. Qed.

(** ** The topics [/v2/analytics/] reports *)

Lemma occurrences_snoc (word w : string) (words : list string) :
  occurrences word (words ++ [w])
  = occurrences word words + (if String.eqb w word then 1 else 0).
Proof. induction words as [|x words IH]; cbn; [lia|]. rewrite IH. lia. Qed.

Lemma occurrences_absent (word : string) (words : list string) :
  word ∉ words -> occurrences word words = 0.
Proof.
  induction words as [|x words IH]; cbn; [done|].
  intros [Hne Hnot]%not_elem_of_cons. rewrite (IH Hnot).
  by destruct (String.eqb_spec x word); [subst|].
Qed.

Lemma occurrences_filter (P : string -> Prop) `{forall w, Decision (P w)}
    (word : string) (words : list string) :
  P word -> occurrences word (filter P words) = occurrences word words.
Proof.
  intros Hword. induction words as [|x words IH]; [done|].
  rewrite filter_cons. cbn [occurrences]. case_decide as Hx; cbn [occurrences].
  - by rewrite IH.
  - rewrite IH. destruct (String.eqb_spec x word) as [->|]; [done|lia].
Qed.

Section Topics.
Context `{Langchain} `{PyNumbers}.

Lemma bump_keys (word : string) (word_freq : list (string * Z)) :
  map fst (main_v2.bump word word_freq)
  = if decide (word ∈ map fst word_freq) then map fst word_freq
    else map fst word_freq ++ [word].
Proof.
  induction word_freq as [|[w n] word_freq IH]; cbn [main_v2.bump map fst app].
  - by rewrite decide_False by apply not_elem_of_nil.
  - destruct (String.eqb_spec w word) as [->|Hne]; cbn [map fst].
    + by rewrite decide_True by apply list_elem_of_here.
    + rewrite IH. destruct (decide (word ∈ map fst word_freq)) as [Hin|Hnot].
      * by rewrite decide_True by by apply list_elem_of_further.
      * rewrite decide_False; [done|]. intros [?|?]%elem_of_cons; by subst.
Qed.

Lemma key_of_elem (w : string) (n : Z) (word_freq : list (string * Z)) :
  (w, n) ∈ word_freq -> w ∈ map fst word_freq.
Proof. intros Hin. by apply (list_elem_of_fmap_2 fst) in Hin. Qed.

Lemma elem_of_key (w : string) (word_freq : list (string * Z)) :
  w ∈ map fst word_freq -> exists n, (w, n) ∈ word_freq.
Proof. intros ([w' n] & -> & Hin)%list_elem_of_fmap_1. by exists n. Qed.

Lemma bump_elem (word : string) (word_freq : list (string * Z)) (w : string) (n : Z) :
  NoDup (map fst word_freq) ->
  (w, n) ∈ main_v2.bump word word_freq <->
  (w <> word /\ (w, n) ∈ word_freq) \/
  (w = word /\ ((word, n - 1) ∈ word_freq \/ (n = 1 /\ word ∉ map fst word_freq))).
Proof.
  induction word_freq as [|[w' n'] word_freq IH]; cbn [main_v2.bump map fst].
  - intros _. rewrite list_elem_of_singleton. split.
    + intros [= -> ->]. right. split; [done|]. right. split; [done|apply not_elem_of_nil].
    + intros [[_ []%elem_of_nil]|[-> [[]%elem_of_nil|[-> _]]]]. done.
  - intros [Hfresh Hnodup]%NoDup_cons. specialize (IH Hnodup).
    destruct (String.eqb_spec w' word) as [->|Hne].
    + rewrite !elem_of_cons. split.
      * intros [[= -> ->]|Hin].
        -- right. split; [done|]. left. left. f_equal. lia.
        -- left. split; [|by right]. intros ->. apply Hfresh. by apply (key_of_elem _ n).
      * intros [[Hw [[= -> ->]|Hin]]|[-> [[[= Hn]|Hin]|[_ Hnot]]]]; try done.
        -- by right.
        -- left. f_equal. lia.
        -- by apply key_of_elem in Hin.
        -- exfalso. apply Hnot. by left.
    + rewrite !elem_of_cons, IH. clear IH. naive_solver.
Qed.

Lemma counts_bump (words : list string) (word_freq : list (string * Z)) (word : string) :
  counts words word_freq -> counts (words ++ [word]) (main_v2.bump word word_freq).
Proof.
  intros [Hnodup Hcounts]. split.
  - rewrite bump_keys. case_decide as Hin; [done|].
    apply NoDup_app. split; [done|]. split; [|apply NoDup_singleton].
    intros w Hw ->%list_elem_of_singleton. done.
  - intros w n. rewrite (bump_elem _ _ _ _ Hnodup), elem_of_app, list_elem_of_singleton,
      occurrences_snoc, !Hcounts.
    destruct (String.eqb_spec word w) as [->|Hne].
    + split.
      * intros [[Hw _]|[_ [[_ Hn]|[-> Hnot]]]]; [done| |].
        -- split; [by right|lia].
        -- split; [by right|]. rewrite occurrences_absent; [done|].
           intros Hin. apply Hnot. apply (key_of_elem w (occurrences w words)).
           by apply Hcounts.
      * intros [_ ->]. right. split; [done|].
        destruct (decide (w ∈ words)) as [Hin|Hnot].
        -- left. split; [done|lia].
        -- right. rewrite (occurrences_absent _ _ Hnot). split; [done|].
           intros [n Hn%Hcounts]%elem_of_key. by destruct Hn.
    + split.
      * intros [[_ [Hin ->]]|[-> _]]; [|done]. split; [by left|lia].
      * intros [[Hin| ->] ->]; [|done]. left. split; [done|]. split; [done|lia].
Qed.

Lemma count_words_from (words processed : list string) (word_freq : list (string * Z)) :
  counts processed word_freq ->
  counts (processed ++ filter (fun w => (3 < String.length w)%nat) words)
    (fold_left
       (fun word_freq word =>
          if (3 <? String.length word)%nat then main_v2.bump word word_freq else word_freq)
       words word_freq).
Proof.
  revert processed word_freq.
  induction words as [|word words IH]; intros processed word_freq Hcounts.
  - by rewrite app_nil_r.
  - cbn [fold_left]. rewrite filter_cons.
    destruct (Nat.ltb_spec 3 (String.length word)) as [Hlong|Hshort].
    + rewrite decide_True by done.
      replace (processed ++ word :: filter (fun w => (3 < String.length w)%nat) words)
        with ((processed ++ [word]) ++ filter (fun w => (3 < String.length w)%nat) words)
        by by rewrite <- app_assoc.
      by apply IH, counts_bump.
    + rewrite decide_False by lia. by apply IH.
Qed.

Lemma count_words_counts (words : list string) :
  counts (filter (fun w => (3 < String.length w)%nat) words) (main_v2.count_words words).
Proof.
  apply (count_words_from words [] []). split; [constructor|].
  intros w n. split; [by intros ?%elem_of_nil|by intros [?%elem_of_nil _]].
Qed.

Lemma insert_desc_perm (item : string * Z) (sorted : list (string * Z)) :
  main_v2.insert_desc item sorted ≡ₚ item :: sorted.
Proof.
  induction sorted as [|other sorted IH]; cbn [main_v2.insert_desc]; [done|].
  destruct (snd other <? snd item); [done|]. rewrite IH. apply Permutation_swap.
Qed.

Lemma insert_desc_sorted (item : string * Z) (sorted : list (string * Z)) :
  StronglySorted by_count sorted -> StronglySorted by_count (main_v2.insert_desc item sorted).
Proof.
  induction 1 as [|other sorted Hsorted IH Hhead]; cbn [main_v2.insert_desc].
  - repeat constructor.
  - destruct (Z.ltb_spec (snd other) (snd item)) as [Hlt|Hge].
    + constructor; [by constructor|]. constructor; [unfold by_count; lia|].
      eapply Forall_impl; [exact Hhead|]. unfold by_count. intros b Hb. lia.
    + constructor; [done|]. rewrite insert_desc_perm. by constructor.
Qed.

Lemma sorted_desc_from (items sorted : list (string * Z)) :
  StronglySorted by_count sorted ->
  StronglySorted by_count
    (fold_left (fun sorted item => main_v2.insert_desc item sorted) items sorted) /\
  fold_left (fun sorted item => main_v2.insert_desc item sorted) items sorted
    ≡ₚ sorted ++ items.
Proof.
  revert sorted. induction items as [|item items IH]; intros sorted Hsorted; cbn [fold_left].
  - by rewrite app_nil_r.
  - destruct (IH _ (insert_desc_sorted item sorted Hsorted)) as [Hs Hp].
    split; [done|]. rewrite Hp, insert_desc_perm. cbn [app]. apply Permutation_middle.
Qed.

Lemma sorted_split (l1 l2 : list (string * Z)) (a b : string * Z) :
  StronglySorted by_count (l1 ++ l2) -> a ∈ l1 -> b ∈ l2 -> by_count a b.
Proof.
  induction l1 as [|x l1 IH]; [by intros _ ?%elem_of_nil|].
  cbn [app]. intros [Hsorted Hhead]%StronglySorted_inv [->|Ha]%elem_of_cons Hb.
  - rewrite Forall_forall in Hhead. apply Hhead. apply elem_of_app. by right.
  - by apply IH.
Qed.

(** X15. The [popular_topics] of [/v2/analytics/] are at most five
    distinct words of more than three characters from the (lower-cased)
    logged questions, listed by decreasing number of occurrences.  No word
    that is left out occurs more often than a listed one, and a
    qualifying word is left out only when five topics are listed. *)
Theorem popular_topics_most_frequent (st : main_v2.State) :
  (length (main_v2.popular_topics (main_v2.get_analytics st)) <= 5)%nat /\
  NoDup (main_v2.popular_topics (main_v2.get_analytics st)) /\
  (forall topic,
     topic ∈ main_v2.popular_topics (main_v2.get_analytics st) ->
     topic ∈ main_v2.question_words (main_v2.query_logs st) /\
     (3 < String.length topic)%nat) /\
  StronglySorted
    (fun topic later =>
       occurrences later (main_v2.question_words (main_v2.query_logs st))
       <= occurrences topic (main_v2.question_words (main_v2.query_logs st)))
    (main_v2.popular_topics (main_v2.get_analytics st)) /\
  (forall topic word,
     topic ∈ main_v2.popular_topics (main_v2.get_analytics st) ->
     word ∈ main_v2.question_words (main_v2.query_logs st) ->
     (3 < String.length word)%nat ->
     word ∉ main_v2.popular_topics (main_v2.get_analytics st) ->
     occurrences word (main_v2.question_words (main_v2.query_logs st))
     <= occurrences topic (main_v2.question_words (main_v2.query_logs st)) /\
     length (main_v2.popular_topics (main_v2.get_analytics st)) = 5%nat).
Proof.
  unfold main_v2.get_analytics. cbn [main_v2.popular_topics].
  set (words := main_v2.question_words (main_v2.query_logs st)).
  destruct (count_words_counts words) as [Hnodup Hcounts].
  destruct (sorted_desc_from (main_v2.count_words words) [] (SSorted_nil _)) as [Hsorted Hperm].
  fold (main_v2.sorted_desc (main_v2.count_words words)) in Hsorted, Hperm.
  cbn [app] in Hperm.
  set (sorted := main_v2.sorted_desc (main_v2.count_words words)) in *.
  assert (Hitem : forall w n, (w, n) ∈ sorted ->
            w ∈ words /\ (3 < String.length w)%nat /\ n = occurrences w words).
  { intros w n Hin. rewrite Hperm in Hin. apply Hcounts in Hin as [Hw ->].
    apply list_elem_of_filter in Hw as [Hlong Hw].
    by rewrite occurrences_filter. }
  assert (Htaken : forall item, item ∈ take 5 sorted -> item ∈ sorted).
  { intros item Hin. rewrite <- (take_drop 5 sorted). apply elem_of_app. by left. }
  split; [rewrite length_map, length_take; lia|].
  split.
  { apply (sublist_NoDup _ (map fst sorted)).
    - change (NoDup (fst <$> sorted)). rewrite Hperm. exact Hnodup.
    - apply (fmap_sublist fst), sublist_take. }
  split.
  { intros topic ([w n] & -> & Hin%Htaken)%list_elem_of_fmap_1.
    by destruct (Hitem w n Hin) as (? & ? & _). }
  split.
  { assert (Hprefix : StronglySorted by_count (take 5 sorted)).
    { rewrite <- (take_drop 5 sorted) in Hsorted.
      clear -Hsorted. induction (take 5 sorted) as [|x l IH]; [constructor|].
      apply StronglySorted_inv in Hsorted as [Hl Hx]. constructor; [by apply IH|].
      apply Forall_app in Hx. by destruct Hx. }
    induction Hprefix as [|[w n] prefix Hprefix IH Hhead]; [constructor|].
    cbn [map fst]. constructor.
    - apply IH. intros item Hin. apply Htaken. by right.
    - apply Forall_map, Forall_forall. intros [w' n'] Hin.
      rewrite Forall_forall in Hhead. specialize (Hhead _ Hin). unfold by_count in Hhead.
      cbn [fst snd] in *.
      destruct (Hitem w n) as (_ & _ & <-); [apply Htaken; by left|].
      destruct (Hitem w' n') as (_ & _ & <-); [apply Htaken; by right|]. done. }
  intros topic word ([w n] & -> & Hin)%list_elem_of_fmap_1 Hword Hlong Hout. cbn [fst].
  assert (Hlisted : (word, occurrences word words) ∈ sorted).
  { rewrite Hperm. apply Hcounts. split.
    - apply list_elem_of_filter. by split.
    - by rewrite occurrences_filter. }
  rewrite <- (take_drop 5 sorted) in Hlisted, Hsorted.
  apply elem_of_app in Hlisted as [Hfirst|Hrest].
  { exfalso. apply Hout. by apply (list_elem_of_fmap_2 fst) in Hfirst. }
  split.
  - pose proof (sorted_split _ _ _ _ Hsorted Hin Hrest) as Horder.
    unfold by_count in Horder. cbn [snd] in Horder.
    destruct (Hitem w n (Htaken _ Hin)) as (_ & _ & <-). done.
  - rewrite length_map, length_take.
    assert (Hmore : (5 < length sorted)%nat).
    { destruct (Nat.lt_ge_cases 5 (length sorted)) as [|Hle]; [done|].
      rewrite drop_ge in Hrest by lia. by apply elem_of_nil in Hrest. }
    lia.
Qed.
End Topics.

(** Four logged questions: [paris] occurs three times, [capital] twice. *)
Example popular_topics_example :
  main_v2.popular_topics (@main_v2.get_analytics Fixtures.numbers Fixtures.asked)
  = ["paris"; "capital"; "what"; "france"; "where"].
Proof. vm_compute. reflexivity. Qed.

(** ** Request fields that are accepted and not used *)

Section Unused.
Context `{Langchain} `{RAGBackend}.

(** X16. [/v2/query/] accepts [llm_provider], [search_type] and [k] and
    answers without them: two requests with the same question get the
    same response and leave the same state, but for the provider name
    copied into the log entry.  The v1 route [/query/] answers what
    [/v2/query/] answers to a body that holds only the question, and
    leaves the same state.  In [enhanced_main.py], [include_metadata] is
    not used at all, and the user only shows in the history record. *)
Theorem unused_request_fields
    (env : Env) (question : string)
    (llm_provider llm_provider' search_type search_type' : option string) (k k' : option Z)
    (st : main_v2.State) (st2 : enhanced_main.State)
    (max_results : option Z) (include_metadata include_metadata' : option bool)
    (user user' : option string) :
  fst (main_v2.enhanced_query env st (main_v2.mkQueryRequest question llm_provider search_type k))
  = fst (main_v2.enhanced_query env st
           (main_v2.mkQueryRequest question llm_provider' search_type' k')) /\
  snd (main_v2.enhanced_query env st (main_v2.mkQueryRequest question llm_provider search_type k))
  = snd (main_v2.enhanced_query env st
           (main_v2.mkQueryRequest question llm_provider search_type' k')) /\
  fst (main_v2.query env st question)
  = match fst (main_v2.post_query env st {[ "question" := JStr question ]}) with
    | OK r => OK (main_v2.answer r)
    | HTTPError c d => HTTPError c d
    end /\
  snd (main_v2.query env st question)
  = snd (main_v2.post_query env st {[ "question" := JStr question ]}) /\
  enhanced_main.process_query env st2
    (enhanced_main.mkQueryRequest question max_results include_metadata) user
  = enhanced_main.process_query env st2
      (enhanced_main.mkQueryRequest question max_results include_metadata') user /\
  fst (enhanced_main.process_query env st2
         (enhanced_main.mkQueryRequest question max_results include_metadata) user)
  = fst (enhanced_main.process_query env st2
           (enhanced_main.mkQueryRequest question max_results include_metadata) user').
Proof.
  assert (Hvalid :
    main_v2.QueryRequest_validate {[ "question" := JStr question ]}
    = Some (main_v2.mkQueryRequest question (Some "openai") (Some "similarity") (Some 4))).
  { unfold main_v2.QueryRequest_validate, required_str, optional_str, optional_int.
    rewrite lookup_singleton_eq, !lookup_singleton_ne by done. reflexivity. }
  unfold main_v2.query, main_v2.post_query. rewrite Hvalid.
  unfold main_v2.enhanced_query, enhanced_main.process_query.
  cbn [main_v2.question main_v2.llm_provider enhanced_main.query enhanced_main.max_results].
  destruct (main_v2.qa_chain st) as [chain|];
    [destruct (chain_run env chain question) as [result|e]|];
    (destruct (enhanced_main.rag_pipeline st2) as [pipeline|];
      [destruct (pipeline_query pipeline question max_results) as [answer|e']|]);
    done.
Qed.
End Unused.

(** ** Accounts of [enhanced_main.py] *)

Lemma required_str_Some (b : body) (name : string) (lo hi : option Z) (s : string) :
  required_str b name lo hi = Some s ->
  b !! name = Some (JStr s) /\ within lo hi (Z.of_nat (String.length s)) = true.
Proof.
  unfold required_str. destruct (b !! name) as [[| | | |s']|]; try done.
  destruct (within lo hi (Z.of_nat (String.length s'))) eqn:Hwithin; [|done].
  by intros [= ->].
Qed.

Section Accounts.
Context `{JWT} `{PyNumbers}.

Lemma login_OK (secret_key : string) (utcnow : float) (user_data : enhanced_main.UserLogin)
    (token : enhanced_main.Token) :
  enhanced_main.login secret_key utcnow user_data = OK token ->
  enhanced_main.login_username user_data = "admin" /\
  enhanced_main.login_password user_data = "admin123" /\
  enhanced_main.token_type token = "bearer" /\
  enhanced_main.expires_in token = 1800 /\
  enhanced_main.access_token token <> "".
Proof.
  unfold enhanced_main.login.
  destruct (String.eqb_spec (enhanced_main.login_username user_data) "admin") as [Hu|];
    [|done].
  destruct (String.eqb_spec (enhanced_main.login_password user_data) "admin123") as [Hp|];
    [|done].
  cbn [andb].
  destruct (enhanced_main.create_access_token _ _ _ _) as [access_token|]; [|done].
  destruct (String.eqb_spec access_token "") as [|Hne]; [done|].
  intros [= <-]. done.
Qed.

(** X17. [/auth/login] returns a token only for the user [admin] with the
    password [admin123]; the token is a non-empty bearer token announced
    for 1800 seconds, and every other answer is 401 (or 422 for a body that
    does not validate).  [/auth/register] accepts a user name of 3 to 50
    characters other than [admin] with a password of at least 6
    characters, and stores nothing: whoever it registered cannot log in,
    whatever the password. *)
Theorem login_only_admin (secret_key : string) (utcnow : float) (b : body) :
  (forall token,
     enhanced_main.post_login secret_key utcnow b = OK token ->
     b !! "username" = Some (JStr "admin") /\
     b !! "password" = Some (JStr "admin123") /\
     enhanced_main.token_type token = "bearer" /\
     enhanced_main.expires_in token = 1800 /\
     enhanced_main.access_token token <> "") /\
  (forall c d,
     enhanced_main.post_login secret_key utcnow b = HTTPError c d ->
     c = 422 \/ (c = 401 /\ d = "Incorrect username or password")) /\
  (forall r,
     enhanced_main.post_register b = OK r ->
     exists username password,
       b !! "username" = Some (JStr username) /\
       b !! "password" = Some (JStr password) /\
       enhanced_main.registered_username r = username /\
       username <> "admin" /\
       3 <= Z.of_nat (String.length username) <= 50 /\
       6 <= Z.of_nat (String.length password) /\
       forall (attempt : body) (token : enhanced_main.Token),
         attempt !! "username" = Some (JStr username) ->
         enhanced_main.post_login secret_key utcnow attempt <> OK token).
Proof.
  split; [|split].
  - intros token. unfold enhanced_main.post_login, enhanced_main.UserLogin_validate.
    destruct (required_str b "username" None None) as [u|] eqn:Hu; [|done].
    destruct (required_str b "password" None None) as [p|] eqn:Hp; [|done].
    cbn [mbind option_bind].
    intros (Hadmin & Hpassword & Hrest)%login_OK. cbn in Hadmin, Hpassword. subst u p.
    apply required_str_Some in Hu as [-> _]. apply required_str_Some in Hp as [-> _].
    done.
  - intros c d. unfold enhanced_main.post_login.
    destruct (enhanced_main.UserLogin_validate b) as [user_data|].
    + unfold enhanced_main.login.
      destruct (_ && _); [|intros [= <- <-]; auto].
      destruct (enhanced_main.create_access_token _ _ _ _) as [access_token|];
        [|intros [= <- <-]; auto].
      destruct (String.eqb access_token ""); [intros [= <- <-]; auto|done].
    + intros [= <- <-]. auto.
  - intros r. unfold enhanced_main.post_register, enhanced_main.UserCreate_validate.
    destruct (required_str b "username" (Some 3) (Some 50)) as [u|] eqn:Hu; [|done].
    destruct (required_str b "password" (Some 6) None) as [p|] eqn:Hp; [|done].
    destruct (optional_str b "email" None) as [email|]; [|done].
    cbn [mbind option_bind]. unfold enhanced_main.register. cbn [enhanced_main.username].
    destruct (String.eqb_spec u "admin") as [|Hne]; [done|].
    intros [= <-]. cbn [enhanced_main.registered_username].
    apply required_str_Some in Hu as [Hu Hulen]. apply required_str_Some in Hp as [Hp Hplen].
    exists u, p. unfold within in Hulen, Hplen.
    repeat split; try done; try lia.
    intros attempt token Hattempt.
    unfold enhanced_main.post_login, enhanced_main.UserLogin_validate, required_str.
    rewrite Hattempt. cbn [within andb mbind option_bind].
    destruct (attempt !! "password") as [[| | | |p']|]; try done.
    cbn [mbind option_bind]. intros (Hadmin & _)%login_OK. cbn in Hadmin. done.
Qed.
End Accounts.

(** Registering [alice] succeeds, and she cannot log in; [admin] can. *)
Example register_then_login :
  (enhanced_main.post_register
     {[ "username" := JStr "alice"; "password" := JStr "secret-1" ]},
   @enhanced_main.post_login Fixtures.tokens Fixtures.numbers "key" 0%float
     {[ "username" := JStr "alice"; "password" := JStr "secret-1" ]},
   @enhanced_main.post_login Fixtures.tokens Fixtures.numbers "key" 0%float
     {[ "username" := JStr "admin"; "password" := JStr "admin123" ]})
  = (OK (enhanced_main.mkRegistered "User registered successfully" "alice"),
     HTTPError 401 "Incorrect username or password",
     OK (enhanced_main.mkToken "token-for-admin" "bearer" 1800)).
Proof. vm_compute. reflexivity. Qed.

(** ** Tokens *)

Section Tokens.
Context `{RAGBackend} `{JWT} `{PyNumbers}.

(** X18. If the JWT library decodes the tokens it issued for [admin] to
    a payload with that subject, the token [/auth/login] returns
    authenticates its bearer as [admin], for whom [/admin/reset]
    succeeds.  Whatever the library does, a request without credentials
    and a request whose token the library rejects are both anonymous:
    they are served like each other, and [/admin/reset] refuses them with
    500. *)
Theorem admin_token_authenticates
    (secret_key : string) (utcnow : float) (token : enhanced_main.Token)
    (env : Env) (st : enhanced_main.State) :
  (forall payload encoded,
     payload !! "sub" = Some (claim_str "admin") ->
     jwt_encode payload secret_key enhanced_main.ALGORITHM = Return encoded ->
     exists decoded,
       jwt_decode encoded secret_key [enhanced_main.ALGORITHM] = Return decoded /\
       decoded !! "sub" = Some (claim_str "admin")) ->
  enhanced_main.login secret_key utcnow (enhanced_main.mkUserLogin "admin" "admin123")
  = OK token ->
  enhanced_main.verify_token secret_key (Some (enhanced_main.access_token token))
  = Some "admin" /\
  (exists st',
     enhanced_main.reset_system env st
       (enhanced_main.verify_token secret_key (Some (enhanced_main.access_token token)))
     = (OK "System data reset successfully", st')) /\
  (forall rejected e,
     jwt_decode rejected secret_key [enhanced_main.ALGORITHM] = Raise e ->
     enhanced_main.verify_token secret_key (Some rejected)
     = enhanced_main.verify_token secret_key None /\
     enhanced_main.reset_system env st (enhanced_main.verify_token secret_key (Some rejected))
     = (HTTPError 500 "Failed to reset system", st)).
Proof.
  intros Hjwt Hlogin.
  assert (Hverified :
    enhanced_main.verify_token secret_key (Some (enhanced_main.access_token token))
    = Some "admin").
  { unfold enhanced_main.login in Hlogin. cbn [enhanced_main.login_username
      enhanced_main.login_password String.eqb Ascii.eqb Bool.eqb andb] in Hlogin.
    unfold enhanced_main.create_access_token in Hlogin.
    destruct (jwt_encode _ secret_key enhanced_main.ALGORITHM) as [encoded|e] eqn:Hencode;
      [|done].
    destruct (String.eqb encoded ""); [done|]. injection Hlogin as <-.
    cbn [enhanced_main.access_token].
    apply Hjwt in Hencode as (decoded & Hdecode & Hsub).
    - unfold enhanced_main.verify_token. by rewrite Hdecode, Hsub.
    - rewrite lookup_insert_ne by done. apply lookup_singleton_eq. }
  split; [exact Hverified|]. split.
  - rewrite Hverified. eexists. reflexivity.
  - intros rejected e Hrejected. unfold enhanced_main.verify_token. by rewrite Hrejected.
Qed.
End Tokens.

Lemma admin_token_authenticates_fixture :
  (forall payload encoded,
     payload !! "sub" = Some (claim_str "admin") ->
     @jwt_encode Fixtures.tokens payload "key" enhanced_main.ALGORITHM = Return encoded ->
     exists decoded,
       @jwt_decode Fixtures.tokens encoded "key" [enhanced_main.ALGORITHM] = Return decoded /\
       decoded !! "sub" = Some (claim_str "admin")) /\
  @enhanced_main.login Fixtures.tokens Fixtures.numbers "key" 0%float
    (enhanced_main.mkUserLogin "admin" "admin123")
  = OK (enhanced_main.mkToken "token-for-admin" "bearer" 1800) /\
  @enhanced_main.verify_token Fixtures.tokens "key" (Some "token-for-admin") = Some "admin".
Proof.
  assert (Hjwt : forall payload encoded,
     payload !! "sub" = Some (claim_str "admin") ->
     @jwt_encode Fixtures.tokens payload "key" enhanced_main.ALGORITHM = Return encoded ->
     exists decoded,
       @jwt_decode Fixtures.tokens encoded "key" [enhanced_main.ALGORITHM] = Return decoded /\
       decoded !! "sub" = Some (claim_str "admin")).
  { intros payload encoded Hsub. cbn. rewrite Hsub. intros [= <-].
    eexists. split; reflexivity. }
  assert (Hlogin :
    @enhanced_main.login Fixtures.tokens Fixtures.numbers "key" 0%float
      (enhanced_main.mkUserLogin "admin" "admin123")
    = OK (enhanced_main.mkToken "token-for-admin" "bearer" 1800)).
  { vm_compute. reflexivity. }
  split; [exact Hjwt|]. split; [exact Hlogin|].
  apply (@admin_token_authenticates Fixtures.backend Fixtures.tokens Fixtures.numbers
           "key" 0%float _ Fixtures.world Fixtures.rated Hjwt Hlogin).
Defined.

(** ** The payment endpoint of [tracing.py] *)

Lemma first_missing_None (fields : list string) (data : gmap string tracing.value) :
  tracing.first_missing fields data = None
  <-> forall field, field ∈ fields -> is_Some (data !! field).
Proof.
  induction fields as [|f fields IH]; cbn [tracing.first_missing].
  - split; [|done]. intros _ field Hin. by apply elem_of_nil in Hin.
  - destruct (data !! f) as [v|] eqn:Hf.
    + rewrite IH. split.
      * intros Hall field [->|Hin]%elem_of_cons; [by rewrite Hf|by apply Hall].
      * intros Hall field Hin. apply Hall. by apply elem_of_cons; right.
    + split; [done|]. intros Hall.
      destruct (Hall f) as [v Hv]; [by apply elem_of_cons; left|congruence].
Qed.

Lemma first_missing_Some (fields : list string) (data : gmap string tracing.value)
    (field : string) :
  tracing.first_missing fields data = Some field ->
  field ∈ fields /\ data !! field = None.
Proof.
  induction fields as [|f fields IH]; cbn [tracing.first_missing]; [done|].
  destruct (data !! f) as [v|] eqn:Hf.
  - intros [Hin Hnone]%IH. split; [by apply elem_of_cons; right|done].
  - intros [= <-]. split; [by apply elem_of_cons; left|done].
Qed.

(** X19. For a body that is a JSON object, [POST /payments] answers 201,
    400 or 500.  It answers 201 exactly when the body has all four
    required fields and its amount is a number that does not compare
    [<= 0] (or the boolean [true]); the answer is then the fixed payment
    id and status with the amount and the currency of the request, and
    nothing else (no card number).  A missing field is answered 400 and
    named, the first one in the order amount, currency, method,
    card_number.  With all four fields present it answers 500, not 400,
    exactly when the amount is a string, null, an array or an object.
    Every answer other than 201 is an object with the single key
    [error]. *)
Theorem create_payment_outcome
    (request_json : gmap string tracing.value) (method url : string) :
  let '(answer, status, _) := tracing.create_payment request_json method url in
  (status = 201 \/ status = 400 \/ status = 500) /\
  (status = 201 <->
   (forall field, field ∈ tracing.required_fields -> is_Some (request_json !! field)) /\
   match request_json !! "amount" with
   | Some (tracing.VInt z) => 0 < z
   | Some (tracing.VFloat f) => PrimFloat.leb f 0 = false
   | Some (tracing.VBool b) => b = true
   | _ => False
   end) /\
  (status = 201 ->
   answer = {[ "id" := tracing.VStr "pay_123456789"; "status" := tracing.VStr "success";
               "amount" := default tracing.VNull (request_json !! "amount");
               "currency" := default tracing.VNull (request_json !! "currency") ]} /\
   answer !! "card_number" = None) /\
  (forall field,
     tracing.first_missing tracing.required_fields request_json = Some field ->
     status = 400 /\
     answer = {[ "error" := tracing.VStr ("Missing required field: " +:+ field) ]} /\
     request_json !! field = None) /\
  (status = 500 <->
   (forall field, field ∈ tracing.required_fields -> is_Some (request_json !! field)) /\
   match request_json !! "amount" with
   | Some (tracing.VStr _) | Some tracing.VNull
   | Some (tracing.VList _) | Some (tracing.VDict _) => True
   | _ => False
   end) /\
  (status = 400 ->
   (exists field, tracing.first_missing tracing.required_fields request_json = Some field) \/
   answer = {[ "error" := tracing.VStr "Amount must be positive" ]}) /\
  (status <> 201 -> exists message, answer = {[ "error" := tracing.VStr message ]}).
Proof.
  pose proof (first_missing_None tracing.required_fields request_json) as Hall.
  unfold tracing.create_payment, tracing.validate_payment.
  destruct (tracing.first_missing tracing.required_fields request_json) as [field|] eqn:Hmissing.
  - apply first_missing_Some in Hmissing as [_ Hnone].
    assert (Hnot : ~ (forall field, field ∈ tracing.required_fields ->
                                    is_Some (request_json !! field))).
    { intros Hpresent. by apply Hall in Hpresent. }
    cbn. split; [auto|]. split; [split; [done|by intros [? _]]|].
    split; [done|]. split; [by intros f [= <-]|].
    split; [split; [done|by intros [? _]]|]. split; [eauto|eauto].
  - assert (Hpresent : forall field, field ∈ tracing.required_fields ->
                                     is_Some (request_json !! field)) by by apply Hall.
    destruct (Hpresent "amount") as [amount Hamount]; [by apply list_elem_of_here|].
    rewrite Hamount. cbn [default from_option id].
    destruct amount as [|b|z|f|s|items|items]; cbn [tracing.le_0].
    + cbn. rewrite ?Hamount. split; [auto|]. split; [by split; [|intros [_ []]]|].
      split; [done|]. split; [done|]. split; [done|]. split; [done|]. eauto.
    + destruct b; cbn; rewrite ?Hamount.
      * split; [auto|]. split; [done|]. split; [by split; [|vm_compute]|].
        split; [done|]. split; [by split; [|intros [_ []]]|]. split; [done|]. done.
      * split; [auto|]. split; [by split; [|intros [_ [=]]]|].
        split; [done|]. split; [done|]. split; [by split; [|intros [_ []]]|].
        split; [auto|]. eauto.
    + destruct (Z.leb_spec z 0) as [Hle|Hlt]; cbn; rewrite ?Hamount.
      * split; [auto|]. split; [split; [done|intros [_ Hpos]; lia]|].
        split; [done|]. split; [done|]. split; [by split; [|intros [_ []]]|].
        split; [auto|]. eauto.
      * split; [auto|]. split; [done|]. split; [by split; [|vm_compute]|].
        split; [done|]. split; [by split; [|intros [_ []]]|]. split; [done|]. done.
    + destruct (PrimFloat.leb f 0) eqn:Hleb; cbn; rewrite ?Hamount.
      * split; [auto|]. split; [by split; [|intros [_ [=]]]|].
        split; [done|]. split; [done|]. split; [by split; [|intros [_ []]]|].
        split; [auto|]. eauto.
      * split; [auto|]. split; [done|]. split; [by split; [|vm_compute]|].
        split; [done|]. split; [by split; [|intros [_ []]]|]. split; [done|]. done.
    + cbn. rewrite ?Hamount. split; [auto|]. split; [by split; [|intros [_ []]]|].
      split; [done|]. split; [done|]. split; [done|]. split; [done|]. eauto.
    + cbn. rewrite ?Hamount. split; [auto|]. split; [by split; [|intros [_ []]]|].
      split; [done|]. split; [done|]. split; [done|]. split; [done|]. eauto.
    + cbn. rewrite ?Hamount. split; [auto|]. split; [by split; [|intros [_ []]]|].
      split; [done|]. split; [done|]. split; [done|]. split; [done|]. eauto.
Qed.

(** A body that lacks only the currency; an amount of zero; an amount
    sent as text; an amount sent as an array. *)
Example create_payment_examples :
  (let '(answer, status, _) :=
     tracing.create_payment
       {[ "amount" := tracing.VInt 10; "method" := tracing.VStr "card";
          "card_number" := tracing.VStr "4242" ]}
       "POST" "/payments" in (answer, status),
   let '(answer, status, _) :=
     tracing.create_payment
       {[ "amount" := tracing.VInt 0; "currency" := tracing.VStr "EUR";
          "method" := tracing.VStr "card"; "card_number" := tracing.VStr "4242" ]}
       "POST" "/payments" in (answer, status),
   let '(answer, status, _) :=
     tracing.create_payment
       {[ "amount" := tracing.VStr "10"; "currency" := tracing.VStr "EUR";
          "method" := tracing.VStr "card"; "card_number" := tracing.VStr "4242" ]}
       "POST" "/payments" in (answer, status),
   let '(answer, status, _) :=
     tracing.create_payment
       {[ "amount" := tracing.VList [tracing.VInt 10]; "currency" := tracing.VStr "EUR";
          "method" := tracing.VStr "card"; "card_number" := tracing.VStr "4242" ]}
       "POST" "/payments" in (answer, status))
  = (({[ "error" := tracing.VStr "Missing required field: currency" ]}
        : gmap string tracing.value, 400),
     ({[ "error" := tracing.VStr "Amount must be positive" ]}
        : gmap string tracing.value, 400),
     ({[ "error" := tracing.VStr "Internal server error" ]}
        : gmap string tracing.value, 500),
     ({[ "error" := tracing.VStr "Internal server error" ]}
        : gmap string tracing.value, 500)).
Proof. vm_compute. reflexivity. Qed.

(** X20. The card number must be present, but its value is never used:
    two requests that differ only in the card number get the same answer
    and status and leave the same records on the spans, so the card number
    reaches neither the response nor the trace. *)
Theorem card_number_never_used
    (data : gmap string tracing.value) (card other : tracing.value) (method url : string) :
  tracing.create_payment (<["card_number" := card]> data) method url
  = tracing.create_payment (<["card_number" := other]> data) method url.
Proof.
  assert (Hkept : forall (c : tracing.value) (key : string),
            key <> "card_number" -> <["card_number" := c]> data !! key = data !! key).
  { intros c key Hne. by rewrite lookup_insert_ne. }
  unfold tracing.create_payment, tracing.validate_payment, tracing.required_fields.
  cbn [tracing.first_missing].
  rewrite !(Hkept card "amount"), !(Hkept other "amount"),
          !(Hkept card "currency"), !(Hkept other "currency"),
          !(Hkept card "method"), !(Hkept other "method") by done.
  rewrite !lookup_insert_eq.
  destruct (data !! "amount") as [amount|]; [|reflexivity].
  destruct (data !! "currency") as [currency|]; [|reflexivity].
  destruct (data !! "method") as [payment_method|]; [|reflexivity].
  change (default tracing.VNull (Some amount)) with amount.
  destruct (tracing.le_0 amount) as [[message|message]|[|]]; try reflexivity.
  unfold tracing.process_payment.
  rewrite !(Hkept card "amount"), !(Hkept other "amount"),
          !(Hkept card "currency"), !(Hkept other "currency") by done.
  reflexivity.
Qed.
